(** * geodown: DEM tile resolution and acquisition (src/geodo/core.py)

    A shallow embedding of the zone indexers ([srtm_zone],
    [dem3_viewpano_zone], [aster_zone]), of the per-tile download
    operations and of the source selector [get_topo_file], followed by
    the properties of the specification that were checked against them.

    Modelling conventions.
    - Python floats are modelled by exact rationals ([Q]); the sign of a
      zero produced by [np.ceil] is kept explicitly (see [fmt_ceil]).
      The rounding of binary64 is not modelled.  It bears on the zone
      indexers in two places: the subtraction [lon - srtm_x0] puts a
      coordinate that lies within rounding distance of a cell edge onto
      that edge, and [np.linspace] rounds its samples and their step.
      The statements that name the cell of a point are therefore made
      for coordinates within the grid that keep [grid_margin] away from
      the edges on which the cells are open, and for the lettered grid
      for extents that stay below the greatest height by that margin;
      the other statements about the indexers relate outputs to each
      other or rest on comparisons that binary64 decides exactly.
    - The interpreter is Python 3 (the module uses argument-less
      [super()]); [np.linspace] accepts the float count produced by
      [np.ceil], as the NumPy releases this code was written for do.
    - The file system is the set of paths of existing files; the network,
      the zip library and the raster library are oracles carried by the
      world. *)

From Stdlib Require Import QArith Qround Qminmax Qabs Ascii Lia Lqa.
From stdpp Require Import gmap strings list sorting pretty.

Open Scope string_scope.
Open Scope list_scope.

(** ** Python values and exceptions *)

Inductive exn : Type :=
| AssertionError
| TypeError
| UnboundLocalError
| KeyError (key : string)
| RuntimeError (msg : string)
| ValueError (msg : string)
| FileNotFoundError
| HTTPError (code : Z)
| URLError
| ContentTooShortError
| BadZipfile.

(** Outcome of running a piece of code: a value, a raised exception, or
    [OutOfFuel] when a [while True] loop was cut by the fuel of the model
    (shown further down not to happen for the loops of this module). *)
Inductive result (A : Type) : Type :=
| Ok (a : A)
| Err (e : exn)
| OutOfFuel.
Arguments Ok {A} a.
Arguments Err {A} e.
Arguments OutOfFuel {A}.

Definition rbind {A B} (r : result A) (k : A -> result B) : result B :=
  match r with
  | Ok a => k a
  | Err e => Err e
  | OutOfFuel => OutOfFuel
  end.

(** [for x in l: body], threading the loop-carried state and stopping at
    the first exception. *)
Fixpoint for_in {A S} (l : list A) (body : A -> S -> result S) (s : S)
  : result S :=
  match l with
  | [] => Ok s
  | x :: l' => rbind (body x s) (for_in l' body)
  end.

(** ** NumPy and formatting primitives *)

(** A lon/lat range as the callers pass it: a two-element tuple. *)
Definition range : Type := (Q * Q)%type.

Definition np_min (r : range) : Q := Qmin (fst r) (snd r).
Definition np_max (r : range) : Q := Qmax (fst r) (snd r).

(** [np.linspace(start, stop, num)]: [arange(num) * step + start] with the
    last sample overwritten by [stop]. *)
Definition np_linspace (start stop : Q) (num : nat) : list Q :=
  match num with
  | O => []
  | S O => [start]
  | S (S n as div) =>
      let step := ((stop - start) / inject_Z (Z.of_nat div))%Q in
      map (fun i => (inject_Z (Z.of_nat i) * step + start)%Q) (seq 0 div)
        ++ [stop]
  end.

(** The float [x] used as the sample count [num]. *)
Definition np_count (x : Z) : nat := Z.to_nat x.

Definition pad0 (width : nat) (s : string) : string :=
  String.concat "" (replicate (width - String.length s) "0") +:+ s.

(** ['{:0w.0f}'.format(v)] for an integer-valued float [v]; [negzero]
    tells that [v] is [-0.0]. *)
Definition fmt_0f (width : nat) (negzero : bool) (v : Z) : string :=
  if negzero || (v <? 0)%Z
  then "-" +:+ pad0 (width - 1) (pretty (Z.abs v))
  else pad0 width (pretty v).

(** [np.ceil] of a value strictly between -1 and 0 is [-0.0]. *)
Definition ceil_negzero (x : Q) : bool :=
  if Qlt_le_dec (-1) x then (if Qlt_le_dec x 0 then true else false)
  else false.

(** ['{:02.0f}'.format(np.ceil(x))] (also ['%02.0f' % np.ceil(x)]) *)
Definition fmt_ceil (x : Q) : string :=
  fmt_0f 2 (ceil_negzero x) (Qceiling x).

(** [list(sorted(set(zones)))]: no duplicates, strings ordered by code
    point. *)
Definition py_sorted_set (l : list string) : list string :=
  merge_sort String.le (remove_dups l).

(** [x >= a] and [x <= b] on floats. *)
Definition Qgeb (x a : Q) : bool := Qle_bool a x.
Definition Qleb (x b : Q) : bool := Qle_bool x b.

(** ** Zone indexers *)

(** [srtm_zone(lon_ran, lat_ran)] *)
Definition srtm_zone (lon_ran lat_ran : range) : result (list string) :=
  let srtm_x0 := (-180)%Q in
  let srtm_y0 := 60%Q in
  let srtm_dx := 5%Q in
  let srtm_dy := (-5)%Q in
  let mi := np_min lon_ran in
  let ma := np_max lon_ran in
  let lon_ran := np_linspace mi ma (np_count (Qceiling ((ma - mi) + 3))) in
  let mi := np_min lat_ran in
  let ma := np_max lat_ran in
  let lat_ran := np_linspace mi ma (np_count (Qceiling ((ma - mi) + 3))) in
  rbind
    (for_in lon_ran (fun lon =>
       for_in lat_ran (fun lat zones =>
         let dx := (lon - srtm_x0)%Q in
         let dy := (lat - srtm_y0)%Q in
         if Qlt_le_dec dy 0
         then Ok (zones ++
                    [fmt_ceil (dx / srtm_dx) +:+ "_" +:+ fmt_ceil (dy / srtm_dy)])
         else Err AssertionError)) [])
    (fun zones => Ok (py_sorted_set zones)).

(** A bounding box [[x0, x1, y0, y1]] of the region table. *)
Definition box : Type := (Q * Q * Q * Q)%type.

(** The test written out seven times in [dem3_viewpano_zone]:
    [min(lon) >= x0 and max(lon) <= x1 and min(lat) >= y0 and
    max(lat) <= y1]. *)
Definition in_box (lon_ran lat_ran : range) (b : box) : bool :=
  let '(x0, x1, y0, y1) := b in
  Qgeb (np_min lon_ran) x0 && Qleb (np_max lon_ran) x1 &&
  Qgeb (np_min lat_ran) y0 && Qleb (np_max lat_ran) y1.

(** [DEM3REG], in insertion order (the commented-out entries of the
    source are absent here as they are there). *)
Definition DEM3REG : list (string * box) :=
  [ ("ISL", (-25, -12, 63, 67));
    ("SVALBARD", (10, 34, 76, 81));
    ("JANMAYEN", (-10, -7, 70, 72));
    ("FJ", (36, 66, 79, 82));
    ("FAR", (-8, -6, 61, 63));
    ("BEAR", (18, 20, 74, 75));
    ("SHL", (-3, 0, 60, 61)) ]%Q.

(** The chain of [if]/[elif] tests inside the region loop, in source
    order, with the list each returns. *)
Definition dem3_insets : list (box * list string) :=
  [ ((-91, -90, -72, -68), ["SR15"]);
    ((-47, -43, -61, -60), ["SP23"]);
    ((162, 165, -68, -66), ["SQ58"]);
    ((-66, -60, 80, 83), ["U20"]);
    ((-60, -54, 80, 83), ["U21"]);
    ((-54, -48, 80, 83), ["U22"]) ]%Q.

(** The [if ... elif ... else: return [_f]] chain for a region [_f] that
    contains the extent. *)
Fixpoint dem3_inset_chain (lon_ran lat_ran : range)
    (cases : list (box * list string)) (_f : string) : list string :=
  match cases with
  | [] => [_f]
  | (b, zs) :: cases' =>
      if in_box lon_ran lat_ran b then zs
      else dem3_inset_chain lon_ran lat_ran cases' _f
  end.

(** The loop [for _f in extra_reg.keys()]: [Some zs] when it returns. *)
Fixpoint dem3_region_loop (lon_ran lat_ran : range)
    (extra_reg : list (string * box)) : option (list string) :=
  match extra_reg with
  | [] => None
  | (_f, b) :: rest =>
      if in_box lon_ran lat_ran b
      then Some (dem3_inset_chain lon_ran lat_ran dem3_insets _f)
      else dem3_region_loop lon_ran lat_ran rest
  end.

(** [chr(n + ord('A'))]; the model follows Python for code points below
    256, which covers every latitude in [-90, 90]. *)
Definition chr_from_A (n : Z) : string :=
  String (ascii_of_nat (Z.to_nat n + 65)) "".

(** The generic lettered-grid arithmetic of [dem3_viewpano_zone]. *)
Definition dem3_generic (lon_ran lat_ran : range) : list string :=
  let srtm_x0 := (-180)%Q in
  let srtm_y0 := 0%Q in
  let srtm_dx := 6%Q in
  let srtm_dy := 4%Q in
  let mi := np_min lon_ran in
  let ma := np_max lon_ran in
  let lon_ex :=
    np_linspace mi ma (np_count (Qceiling ((ma - mi) / srtm_dy) + 3)) in
  let mi := np_min lat_ran in
  let ma := np_max lat_ran in
  let lat_ex :=
    np_linspace mi ma (np_count (Qceiling ((ma - mi) / srtm_dx) + 3)) in
  py_sorted_set
    (flat_map (fun lon =>
       map (fun lat =>
         let dx := (lon - srtm_x0)%Q in
         let dy := (lat - srtm_y0)%Q in
         let zx := fmt_ceil (dx / srtm_dx) in
         let zy := chr_from_A (Qfloor (Qabs (dy / srtm_dy))) in
         if Qgeb lat 0 then zy +:+ zx else "S" +:+ zy +:+ zx) lat_ex) lon_ex).

(** [dem3_viewpano_zone(lon_ran, lat_ran, extra_reg=DEM3REG)] *)
Definition dem3_viewpano_zone (lon_ran lat_ran : range)
    (extra_reg : list (string * box)) : list string :=
  match dem3_region_loop lon_ran lat_ran extra_reg with
  | Some zs => zs
  | None => dem3_generic lon_ran lat_ran
  end.

(** One pass of the body of the double loop of [aster_zone]. *)
Definition aster_point (lon lat : Q) : string * string :=
  let units_dx := 5%Q in
  let dx := Qfloor lon in
  let zx := (Qfloor (lon / units_dx) * 5)%Z in
  let '(dx, zx, lon_let) :=
    if (dx <? 0)%Z then ((- dx)%Z, (- zx)%Z, "W") else (dx, zx, "E") in
  let dy := Qfloor lat in
  let zy := (Qfloor (lat / units_dx) * 5)%Z in
  let '(dy, zy, lat_let) :=
    if (dy <? 0)%Z then ((- dy)%Z, (- zy)%Z, "S") else (dy, zy, "N") in
  (lat_let +:+ fmt_0f 2 false dy +:+ lon_let +:+ fmt_0f 3 false dx,
   lat_let +:+ fmt_0f 2 false zy +:+ lon_let +:+ fmt_0f 3 false zx).

(** [aster_zone(lon_ex, lat_ex)] *)
Definition aster_zone (lon_ex lat_ex : range) : list string * list string :=
  let mi := np_min lon_ex in
  let ma := np_max lon_ex in
  let lon_ex := np_linspace mi ma (np_count (Qceiling ((ma - mi) + 3))) in
  let mi := np_min lat_ex in
  let ma := np_max lat_ex in
  let lat_ex := np_linspace mi ma (np_count (Qceiling ((ma - mi) + 3))) in
  foldl (fun acc lon =>
    foldl (fun '(zones, units) lat =>
      let '(z, u) := aster_point lon lat in
      if bool_decide (z ∈ zones) then (zones, units)
      else (zones ++ [z], units ++ [u])) acc lat_ex) ([], []) lon_ex.

(** ** The world: files, configuration, network *)

(** What a file holds, as far as the zip library can tell. *)
Inductive file : Type :=
| ZipArchive (members : list string)
| Blob.

(** Outcome of one HTTP request. *)
Inductive response : Type :=
| Served (f : file)
| HttpFailure (code : Z)
| TooShort
| Unreachable.

(** Observable actions, recorded most recent first. *)
Inductive event : Type :=
| Fetch (url : string)
| Sleep (seconds : Z)
| LockAcquire (dir : string)
| LockRelease (dir : string)
| Call (fn : string)
| RasterMerge (inputs : list string) (output : string).

Record world : Type := World {
  fs : gmap string file;              (* existing files *)
  PATHS : gmap string string;         (* cfg.PATHS *)
  requests : nat;                     (* requests sent so far *)
  server : nat -> string -> response; (* answer to the n-th request *)
  md5_hexdigest : string -> string;   (* hashlib.md5(..).hexdigest() *)
  trace : list event
}.

Definition set_fs (f : gmap string file -> gmap string file) (w : world)
  : world :=
  World (f (fs w)) (PATHS w) (requests w) (server w) (md5_hexdigest w)
        (trace w).

Definition add_event (e : event) (w : world) : world :=
  World (fs w) (PATHS w) (requests w) (server w) (md5_hexdigest w)
        (e :: trace w).

Definition count_request (w : world) : world :=
  World (fs w) (PATHS w) (S (requests w)) (server w) (md5_hexdigest w)
        (trace w).

(** Stateful code: a state transformer that may raise; the state reached
    is kept when it does. *)
Definition M (A : Type) : Type := world -> result A * world.

Definition ret {A} (a : A) : M A := fun w => (Ok a, w).
Definition raise {A} (e : exn) : M A := fun w => (Err e, w).
Definition bind {A B} (c : M A) (k : A -> M B) : M B :=
  fun w =>
    match c w with
    | (Ok a, w') => k a w'
    | (Err e, w') => (Err e, w')
    | (OutOfFuel, w') => (OutOfFuel, w')
    end.

Notation "'let*' x ':=' c 'in' k" := (bind c (fun x => k))
  (at level 10, x name, c at level 100, k at level 200).
Notation "'do' c 'in' k" := (bind c (fun _ => k))
  (at level 10, c at level 100, k at level 200).

Definition lift {A} (r : result A) : M A := fun w => (r, w).
Definition log (e : event) : M unit := fun w => (Ok tt, add_event e w).

(** [try: c except ...: handler]; a handler re-raises what it does not
    catch. *)
Definition try_except {A} (c : M A) (handler : exn -> M A) : M A :=
  fun w =>
    match c w with
    | (Err e, w') => handler e w'
    | r => r
    end.

(** How a pass through the body of a loop ends. *)
Inductive flow (R : Type) : Type :=
| Continue
| Break
| Return (r : R).
Arguments Continue {R}.
Arguments Break {R}.
Arguments Return {R} r.

(** [while True: body] with loop-carried locals [s]; [None] when the loop
    is left by [break], [Some r] when the function returns [r] from
    inside it. *)
Fixpoint while_true {S R} (fuel : nat) (body : S -> M (S * flow R)) (s : S)
  : M (option R) :=
  match fuel with
  | O => fun w => (OutOfFuel, w)
  | Datatypes.S fuel' =>
      let* x := body s in
      match snd x with
      | Continue => while_true fuel' body (fst x)
      | Break => ret None
      | Return r => ret (Some r)
      end
  end.

(** [for x in l: body] for stateful bodies. *)
Fixpoint for_inM {A S} (l : list A) (body : A -> S -> M S) (s : S) : M S :=
  match l with
  | [] => ret s
  | x :: l' => let* s' := body x s in for_inM l' body s'
  end.

(** [os.path.join(a, b)] for a relative [b] and an [a] without trailing
    separator. *)
Definition path_join (a b : string) : string := a +:+ "/" +:+ b.

(** [os.path.exists] and [os.path.isfile]: only files are tracked. *)
Definition path_exists (p : string) : M bool :=
  fun w => (Ok (bool_decide (is_Some (fs w !! p))), w).
Definition path_isfile (p : string) : M bool := path_exists p.

(** [os.remove(p)] *)
Definition os_remove (p : string) : M unit :=
  fun w => (Ok tt, set_fs (delete p) w).

(** [mkdir(d)]: directories are not tracked. *)
Definition mkdir (d : string) : M unit := ret tt.

(** [time.sleep(n)] *)
Definition time_sleep (n : Z) : M unit := log (Sleep n).

(** [with zipfile.ZipFile(ofile) as zf: zf.extractall(outdir)] *)
Definition zip_extractall (ofile outdir : string) : M unit :=
  fun w =>
    match fs w !! ofile with
    | None => (Err FileNotFoundError, w)
    | Some Blob => (Err BadZipfile, w)
    | Some (ZipArchive members) =>
        (Ok tt,
         set_fs (fun m =>
           foldr (fun name m => <[path_join outdir name := Blob]> m) m
                 members) w)
    end.

(** ** Locking and fetching *)

(** [get_download_lock(lock_dir)] *)
Definition get_download_lock (lock_dir : string) : M unit :=
  do mkdir lock_dir in log (LockAcquire lock_dir).

(** [with get_download_lock(lock_dir): return body]: the lock is released
    however the body ends. *)
Definition with_download_lock {A} (lock_dir : string) (body : M A) : M A :=
  fun w =>
    match get_download_lock lock_dir w with
    | (Ok _, w1) =>
        let (r, w2) := body w1 in (r, add_event (LockRelease lock_dir) w2)
    | (Err e, w1) => (Err e, w1)
    | (OutOfFuel, w1) => (OutOfFuel, w1)
    end.

(** [_urlretrieve(url, ofile)]: on success the payload is at [ofile]; on
    any failure [ofile] is removed if it exists and the error re-raised. *)
Definition _urlretrieve (url ofile : string) : M unit :=
  fun w =>
    let w1 := add_event (Fetch url) (count_request w) in
    match server w (requests w) url with
    | Served f => (Ok tt, set_fs (insert ofile f) w1)
    | HttpFailure code => (Err (HTTPError code), set_fs (delete ofile) w1)
    | TooShort => (Err ContentTooShortError, set_fs (delete ofile) w1)
    | Unreachable => (Err URLError, set_fs (delete ofile) w1)
    end.

(** [progress_urlretrieve(url, ofile)]: [_urlretrieve] behind a progress
    bar. *)
Definition progress_urlretrieve (url ofile : string) : M unit :=
  _urlretrieve url ofile.

(** ** Per-tile downloads *)

(** One pass through the body of the [while True] loop that the SRTM and
    the DEM3 download share statement for statement; [too_short] is the
    handler of [ContentTooShortError], which only the DEM3 loop has. *)
Definition download_attempt (ifile ofile outdir : string) (retry_max : nat)
    (too_short : option (M (nat * flow (option string))))
    (retry_counter : nat) : M (nat * flow (option string)) :=
  let retry_counter := Datatypes.S retry_counter in
  try_except
    (do progress_urlretrieve ifile ofile in
     do zip_extractall ofile outdir in
     ret (retry_counter, Break))
    (fun err =>
       match err with
       | HTTPError code =>
           if (code =? 404)%Z then ret (retry_counter, Return None)
           else if (500 <=? code)%Z && (code <? 600)%Z
                   && (retry_counter <=? retry_max)%nat
           then do time_sleep 10 in ret (retry_counter, Continue)
           else raise err
       | ContentTooShortError =>
           match too_short with
           | Some h => h
           | None => raise err
           end
       | BadZipfile => ret (retry_counter, Return None)
       | _ => raise err
       end).

(** [retry_counter = 0; while True: ...] *)
Definition download_loop (fuel : nat) (ifile ofile outdir : string)
    (retry_max : nat) (too_short : option (M (nat * flow (option string))))
  : M (option (option string)) :=
  while_true fuel (download_attempt ifile ofile outdir retry_max too_short) O.

(** The locals [ofile], [ifile] and [out] of the SRTM download. *)
Definition srtm_ofile (zone outdir : string) : string :=
  path_join outdir ("srtm_" +:+ zone +:+ ".zip").
Definition srtm_ifile (zone : string) : string :=
  "http://droppr.org/srtm/v4.1/6_5x5_TIFs" +:+ "/srtm_" +:+ zone +:+ ".zip".
Definition srtm_out (zone outdir : string) : string :=
  path_join outdir ("srtm_" +:+ zone +:+ ".tif").

(** [_download_srtm_file_unlocked(zone, outdir, retry=5)] *)
Definition _download_srtm_file_unlocked (fuel : nat) (zone outdir : string)
    (retry : nat) : M (option string) :=
  do mkdir outdir in
  let ofile := srtm_ofile zone outdir in
  let ifile := srtm_ifile zone in
  let* present := path_exists ofile in
  let* returned := (if negb present
                    then download_loop fuel ifile ofile outdir retry None
                    else ret None) in
  match returned with
  | Some v => ret v
  | None =>
      let out := srtm_out zone outdir in
      let* ok := path_exists out in
      if ok then ret (Some out) else raise AssertionError
  end.

(** [download_srtm_file(zone, outdir)] *)
Definition download_srtm_file (fuel : nat) (zone outdir : string)
  : M (option string) :=
  with_download_lock outdir (_download_srtm_file_unlocked fuel zone outdir 5).

(** String tests used by [glob] patterns. *)
Fixpoint strip_prefix (pre s : string) : option string :=
  match pre, s with
  | "", _ => Some s
  | String a pre', String b s' =>
      if Ascii.eqb a b then strip_prefix pre' s' else None
  | String _ _, "" => None
  end.

Fixpoint ends_with (suf s : string) : bool :=
  String.eqb suf s ||
  match s with
  | "" => false
  | String _ s' => ends_with suf s'
  end.

(** The part before and the part after the first ["/"]. *)
Fixpoint split_slash (s : string) : option (string * string) :=
  match s with
  | "" => None
  | String a s' =>
      if Ascii.eqb a "/" then Some ("", s')
      else match split_slash s' with
           | Some (d, c) => Some (String a d, c)
           | None => None
           end
  end.

(** A path component that the pattern [*] (followed by [tail]) matches:
    one non-empty name, not starting with a dot. *)
Definition star_component (tail c : string) : bool :=
  match c with
  | "" => false
  | String a _ =>
      negb (Ascii.eqb a ".") &&
      bool_decide (split_slash c = None) && ends_with tail c
  end.

(** Does [p] match [dir/*.hgt]? *)
Definition match_hgt (dir p : string) : bool :=
  match strip_prefix (dir +:+ "/") p with
  | Some c => star_component ".hgt" c
  | None => false
  end.

(** Does [p] match [outdir/*/*.hgt]? *)
Definition match_sub_hgt (outdir p : string) : bool :=
  match strip_prefix (outdir +:+ "/") p with
  | Some rest =>
      match split_slash rest with
      | Some (d, c) => star_component "" d && star_component ".hgt" c
      | None => false
      end
  | None => false
  end.

(** [glob.glob(pattern)]: the existing paths that match. *)
Definition glob (matches : string -> bool) : M (list string) :=
  fun w => (Ok (List.filter matches (map fst (map_to_list (fs w)))), w).

(** [rfiles = [rasterio.open(s) for s in globlist]; merge_tool(rfiles);
    rasterio.open(outpath, 'w', ..).write(dest)]: the raster library
    writes the merged raster at [outpath]. *)
Definition raster_merge_write (inputs : list string) (outpath : string)
  : M unit :=
  fun w =>
    (Ok tt, add_event (RasterMerge inputs outpath)
              (set_fs (insert outpath Blob) w)).

Definition dem3_v2_zones : list string :=
  ["R33"; "R34"; "R35"; "R36"; "R37"; "R38"; "Q32"; "Q33"; "Q34";
   "Q35"; "Q36"; "Q37"; "Q38"; "Q39"; "Q40"; "P31"; "P32"; "P33";
   "P34"; "P35"; "P36"; "P37"; "P38"; "P39"; "P40"].

(** The locals [ofile], [outpath], [ifile] and [zonedir] of the DEM3
    download. *)
Definition dem3_ofile (zone outdir : string) : string :=
  path_join outdir ("dem3_" +:+ zone +:+ ".zip").
Definition dem3_outpath (zone outdir : string) : string :=
  path_join outdir (zone +:+ ".tif").
Definition dem3_ifile (zone : string) : string :=
  if bool_decide (zone ∈ dem3_v2_zones)
  then "http://viewfinderpanoramas.org/dem3/" +:+ zone +:+ "v2.zip"
  else if bool_decide (zone ∈ ["01-15"; "16-30"; "31-45"; "46-60"])
  then "http://viewfinderpanoramas.org/ANTDEM3/" +:+ zone +:+ ".zip"
  else "http://viewfinderpanoramas.org/dem3/" +:+ zone +:+ ".zip".
Definition dem3_zonedir (zone outdir : string) : string :=
  if (String.length zone =? 4)%nat && String.prefix "S" zone
  then path_join outdir (String.substring 1 (String.length zone - 1) zone)
  else path_join outdir zone.

(** The statements of the DEM3 download that follow the retry loop: find
    the extracted [.hgt] files, merge them into [outpath], delete them. *)
Definition dem3_merge_hgt (zone outdir : string) : M (option string) :=
  let outpath := dem3_outpath zone outdir in
  let* globlist := glob (match_hgt (dem3_zonedir zone outdir)) in
  let* globlist :=
    (if bool_decide (zone ∈ map fst DEM3REG)
     then glob (match_sub_hgt outdir) else ret globlist) in
  match globlist with
  | [] =>
      raise (RuntimeError "We should have some files here, but we don't")
  | _ =>
      do raster_merge_write globlist outpath in
      let* ok := path_exists outpath in
      if negb ok then raise AssertionError else
      do for_inM globlist (fun s _ => os_remove s) tt in
      ret (Some outpath)
  end.

(** [_download_dem3_viewpano_unlocked(zone, outdir)].  The handler of
    [ContentTooShortError] formats [err.code]; [err], bound only by the
    [except HTTPError as err] clause, is unbound there (Python 3 unbinds
    it when that clause is left), hence [UnboundLocalError]. *)
Definition _download_dem3_viewpano_unlocked (fuel : nat)
    (zone outdir : string) : M (option string) :=
  do mkdir outdir in
  let ofile := dem3_ofile zone outdir in
  let outpath := dem3_outpath zone outdir in
  let* cached := path_exists outpath in
  if cached then ret (Some outpath) else
  let ifile := dem3_ifile zone in
  let* present := path_exists ofile in
  let* returned := (if negb present
                    then download_loop fuel ifile ofile outdir 5
                           (Some (raise UnboundLocalError))
                    else ret None) in
  match returned with
  | Some v => ret v
  | None => dem3_merge_hgt zone outdir
  end.

(** [download_dem3_viewpano(zone, outdir)] *)
Definition download_dem3_viewpano (fuel : nat) (zone outdir : string)
  : M (option string) :=
  with_download_lock outdir (_download_dem3_viewpano_unlocked fuel zone outdir).

(** [_download_aster_file(zone, unit)] and
    [_download_alternate_topo_file(fname)] both open with
    [with get_download_lock():], a call without the required [lock_dir]:
    Python raises [TypeError] before the function does anything else. *)
Definition _download_aster_file (zone unit : string) : M (option string) :=
  raise TypeError.

Definition _download_alternate_topo_file (fname : string)
  : M (option string) :=
  raise TypeError.

(** ** Sample data *)

(** The block "download only if necessary" of
    [_download_gh_sample_files_unlocked] (from [if not
    os.path.exists(ofile)] to the second [zf.extractall(odir)]), for the
    values of its locals [master_zip_url], [ofile] and [odir].  The
    statements before it (the hourly check of the commit hash) and after
    it (the listing of the extracted files) do not fetch the archive. *)
Definition gh_download_if_necessary (master_zip_url ofile odir : string)
  : M unit :=
  let* present := path_exists ofile in
  if negb present then
    do progress_urlretrieve master_zip_url ofile in
    try_except (zip_extractall ofile odir)
      (fun err =>
         match err with
         | BadZipfile =>
             let* left_over := path_exists ofile in
             do (if left_over then os_remove ofile else ret tt) in
             do progress_urlretrieve master_zip_url ofile in
             zip_extractall ofile odir
         | _ => raise err
         end)
  else ret tt.

(** ** Source selection: [get_topo_file] *)

(** The [source] argument: [None], a string, or a list of strings. *)
Inductive source_arg : Type :=
| SrcNone
| SrcStr (s : string)
| SrcList (l : list string).

(** [source == name] *)
Definition src_eq (source : source_arg) (name : string) : bool :=
  match source with
  | SrcStr s => String.eqb s name
  | _ => false
  end.

(** [name if source is None else source] *)
Definition src_default (name : string) (source : source_arg) : source_arg :=
  match source with
  | SrcNone => SrcStr name
  | _ => source
  end.

(** [rgi_region is not None and int(rgi_region) == n] *)
Definition region_is (rgi_region : option Z) (n : Z) : bool :=
  match rgi_region with
  | Some r => (r =? n)%Z
  | None => false
  end.

Definition lower_ascii (a : ascii) : ascii :=
  let n := nat_of_ascii a in
  if (65 <=? n)%nat && (n <=? 90)%nat then ascii_of_nat (n + 32) else a.

(** [s.lower()] on ASCII text *)
Fixpoint py_lower (s : string) : string :=
  match s with
  | "" => ""
  | String a s' => String (lower_ascii a) (py_lower s')
  end.

Definition is_none {A} (o : option A) : bool :=
  match o with
  | None => true
  | Some _ => false
  end.

(** The locals [zones], [sources] and [source_str]: the branches that
    assign one assign all three, the others leave all three unbound. *)
Definition tile_locals : Type :=
  option (list string * list (option string) * string).

(** How a block of [get_topo_file] ends: the function returns, or goes
    on with the local [source] as the block leaves it. *)
Inductive block : Type :=
| Returns (r : option string * string)
| GoesOn (source : source_arg).

(** "Did the user specify a specific DEM file?" *)
Definition topo_user_block (source : source_arg) : M block :=
  fun w =>
  (let dem_file := PATHS w !! "dem_file" in
   let* user := match dem_file with
                | Some f => path_isfile f
                | None => ret false
                end in
   if user then
     let source := src_default "USER" source in
     if src_eq source "USER" then ret (Returns (dem_file, "USER"))
     else ret (GoesOn source)
   else ret (GoesOn source)) w.

(** [topodir = cfg.PATHS['topo_dir']] *)
Definition topo_dir : M string :=
  fun w =>
    match PATHS w !! "topo_dir" with
    | Some d => (Ok d, w)
    | None => (Err (KeyError "topo_dir"), w)
    end.

(** The GIMP block (Greenland, RGI region 5). *)
Definition topo_gimp_block (rgi_region : option Z) (source : source_arg)
  : M block :=
  if src_eq source "GIMP" || region_is rgi_region 5 then
    let source := src_default "GIMP" source in
    if src_eq source "GIMP" then
      do log (Call "_download_alternate_topo_file") in
      let* gimp_file := _download_alternate_topo_file "gimpdem_90m.tif" in
      ret (Returns (gimp_file, "GIMP"))
    else ret (GoesOn source)
  else ret (GoesOn source).

(** The RAMP block (Antarctica, RGI region 19). *)
Definition topo_ramp_block (lat_ex : range) (rgi_region : option Z)
    (source : source_arg) : M block :=
  if src_eq source "RAMP" || region_is rgi_region 19 then
    let source :=
      if Qlt_le_dec (-60) (np_max lat_ex)
      then src_default "DEM3" source
      else src_default "RAMP" source in
    if src_eq source "RAMP" then
      do log (Call "_download_alternate_topo_file") in
      let* gimp_file :=
        _download_alternate_topo_file "AntarcticDEM_wgs84.tif" in
      ret (Returns (gimp_file, "RAMP"))
    else ret (GoesOn source)
  else ret (GoesOn source).

(** "Anywhere else on Earth we check for DEM3, ASTER, or SRTM": the
    [if]/[else] that picks the tiled source, computes the zones and
    downloads the tiles.  The calls [download_dem3_viewpano(z)] and
    [download_srtm_file(z)] pass one argument to functions whose
    parameters are [(zone, outdir)]: Python raises [TypeError] at the
    call. *)
Definition topo_tiles_block (lon_ex lat_ex : range) (source : source_arg)
  : M (source_arg * tile_locals) :=
  if (if Qlt_le_dec (np_min lat_ex) (-60) then true else false)
     || (if Qlt_le_dec 60 (np_max lat_ex) then true else false)
     || src_eq source "DEM3" || src_eq source "ASTER"
  then
    let source := src_default "DEM3" source in
    let* locals :=
      (if src_eq source "DEM3" then
         do log (Call "dem3_viewpano_zone") in
         let zones := dem3_viewpano_zone lon_ex lat_ex DEM3REG in
         let* sources :=
           for_inM zones (fun z (sources : list (option string)) =>
             raise TypeError) [] in
         ret (Some (zones, sources, "DEM3"))
       else ret (None : tile_locals)) in
    let* locals :=
      (if src_eq source "ASTER" then
         do log (Call "aster_zone") in
         let '(zones, units) := aster_zone lon_ex lat_ex in
         let* sources :=
           for_inM (zip zones units) (fun zu sources =>
             do log (Call "_download_aster_file") in
             let* sf := _download_aster_file (fst zu) (snd zu) in
             match sf with
             | Some f => ret (sources ++ [Some f])
             | None => ret sources
             end) [] in
         ret (Some (zones, sources, "ASTER"))
       else ret locals) in
    ret (source, locals)
  else
    let source := src_default "SRTM" source in
    let* locals :=
      (if src_eq source "SRTM" then
         do log (Call "srtm_zone") in
         let* zones := lift (srtm_zone lon_ex lat_ex) in
         let* sources :=
           for_inM zones (fun z (sources : list (option string)) =>
             raise TypeError) [] in
         ret (Some (zones, sources, "SRTM"))
       else ret (None : tile_locals)) in
    ret (source, locals).

(** From "For the very last cases a very coarse dataset ?" to the end:
    ETOPO1, the filter on [sources], the single tile, the merge. *)
Definition topo_final_block (topodir : string) (source : source_arg)
    (locals : tile_locals) : M (option string * string) :=
  if src_eq source "ETOPO1" then
    let t_file := path_join topodir "ETOPO1_Ice_g_geotiff.tif" in
    let* ok := path_exists t_file in
    if ok then ret (Some t_file, "ETOPO1") else raise AssertionError
  else
  match locals with
  | None => raise UnboundLocalError
  | Some (zones, sources, source_str) =>
      let sources := List.filter (fun s => negb (is_none s)) sources in
      match sources with
      | [] => raise (RuntimeError "No topography file available!")
      | [s] => ret (s, source_str)
      | _ =>
          fun w =>
          (let zone_str := String.concat "+" zones in
           let bname :=
             py_lower source_str +:+ "_merged_" +:+ zone_str +:+ ".tif" in
           let bname :=
             if (200 <? String.length bname)%nat
             then md5_hexdigest w bname +:+ ".tif" else bname in
           let merged_file :=
             path_join (path_join topodir (py_lower source_str)) bname in
           let* present := path_exists merged_file in
           do (if negb present then
                 if forallb is_none sources
                 then raise (ValueError
                               "Chosen lat/lon values are not available")
                 else raster_merge_write (omap id sources) merged_file
               else ret tt) in
           ret (Some merged_file, source_str +:+ "_MERGED")) w
      end
  end.

(** The statements of [get_topo_file] that follow the loop over a list of
    sources: its blocks in source order, each one entered only if the
    previous ones did not return. *)
Definition get_topo_file_body (lon_ex lat_ex : range)
    (rgi_region : option Z) (source : source_arg)
  : M (option string * string) :=
  let* b := topo_user_block source in
  match b with
  | Returns r => ret r
  | GoesOn source =>
      let* topodir := topo_dir in
      let* b := topo_gimp_block rgi_region source in
      match b with
      | Returns r => ret r
      | GoesOn source =>
          let* b := topo_ramp_block lat_ex rgi_region source in
          match b with
          | Returns r => ret r
          | GoesOn source =>
              let* sel := topo_tiles_block lon_ex lat_ex source in
              topo_final_block topodir (fst sel) (snd sel)
          end
      end
  end.

(** The loop [for s in source] at the top of [get_topo_file]: the call
    for a single source [s], then [os.path.isfile(demf)] (a [TypeError]
    on [None]); [Some] when the loop returns. *)
Fixpoint get_topo_file_each (lon_ex lat_ex : range) (rgi_region : option Z)
    (sources : list string) : M (option (option string * string)) :=
  match sources with
  | [] => ret None
  | s :: rest =>
      let* r := get_topo_file_body lon_ex lat_ex rgi_region (SrcStr s) in
      let* ok := match fst r with
                 | Some demf => path_isfile demf
                 | None => raise TypeError
                 end in
      if ok then ret (Some r)
      else get_topo_file_each lon_ex lat_ex rgi_region rest
  end.

(** [get_topo_file(lon_ex, lat_ex, rgi_region=None, source=None)] *)
Definition get_topo_file (lon_ex lat_ex : range) (rgi_region : option Z)
    (source : source_arg) : M (option string * string) :=
  let* returned :=
    match source with
    | SrcList l => get_topo_file_each lon_ex lat_ex rgi_region l
    | _ => ret None
    end in
  match returned with
  | Some r => ret r
  | None => get_topo_file_body lon_ex lat_ex rgi_region source
  end.

(** ** Transfers from the AWS bucket *)

(** [subprocess.call('aws --region eu-west-1 s3 cp ' + src + ' ' + dst,
    shell=True)]: the object is at [dst] when the transfer succeeds.  The
    exit status is thrown away, so a transfer that fails raises nothing
    and shows only in the absence of [dst]. *)
Definition aws_s3_cp (src dst : string) : M unit :=
  fun w =>
    let w1 := add_event (Fetch src) (count_request w) in
    match server w (requests w) src with
    | Served f => (Ok tt, set_fs (insert dst f) w1)
    | _ => (Ok tt, w1)
    end.

(** The locals [ofile], the object copied and [out] of the ASTER
    download, for the value [topodir] of [cfg.PATHS['topo_dir']]. *)
Definition aster_odir (topodir : string) : string := path_join topodir "aster".
Definition aster_ofile (topodir zone : string) : string :=
  path_join (aster_odir topodir) ("ASTGTM2_" +:+ zone +:+ ".zip").
Definition aster_object (zone unit : string) : string :=
  "s3://astgtmv2/ASTGTM_V2/" +:+ ("UNIT_" +:+ unit) +:+ "/"
    +:+ ("ASTGTM2_" +:+ zone +:+ ".zip").
Definition aster_out (topodir zone : string) : string :=
  path_join (aster_odir topodir) ("ASTGTM2_" +:+ zone +:+ "_dem.tif").

(** The statements that the two downloads from the bucket share: from
    [if not os.path.exists(ofile)] to the end. *)
Definition aws_fetch_extract (src ofile odir out : string)
  : M (option string) :=
  let* present := path_exists ofile in
  let* returned :=
    (if negb present then
       do aws_s3_cp src ofile in
       let* arrived := path_exists ofile in
       if arrived then do zip_extractall ofile odir in ret None
       else ret (Some None)
     else ret None) in
  match returned with
  | Some v => ret v
  | None =>
      let* ok := path_exists out in
      if ok then ret (Some out) else raise AssertionError
  end.

(** [_download_aster_file_unlocked(zone, unit)] *)
Definition _download_aster_file_unlocked (zone unit : string)
  : M (option string) :=
  let* topodir := topo_dir in
  let odir := aster_odir topodir in
  do mkdir odir in
  aws_fetch_extract (aster_object zone unit) (aster_ofile topodir zone) odir
    (aster_out topodir zone).

(** [_download_alternate_topo_file_unlocked(fname)] *)
Definition _download_alternate_topo_file_unlocked (fname : string)
  : M (option string) :=
  let fzipname := fname +:+ ".zip" in
  let* topodir := topo_dir in
  let odir := path_join topodir "alternate" in
  do mkdir odir in
  let ofile := path_join odir fzipname in
  aws_fetch_extract ("s3://astgtmv2/topo/" +:+ fzipname) ofile odir
    (path_join odir fname).

(** [_aws_file_download_unlocked(aws_path, local_path, reset=False)] *)
Definition _aws_file_download_unlocked (aws_path local_path : string)
    (reset : bool) : M unit :=
  do (if reset then
        let* stale := path_exists local_path in
        if stale then os_remove local_path else ret tt
      else ret tt) in
  let* present := path_exists local_path in
  do (if negb present
      then aws_s3_cp ("s3://astgtmv2/" +:+ aws_path) local_path
      else ret tt) in
  let* present := path_exists local_path in
  if negb present
  then raise (RuntimeError "Something went wrong with the download")
  else ret tt.


(** ** Vocabulary of the statements *)

(** The samples [srtm_zone] takes along one axis. *)
Definition srtm_samples (r : range) : list Q :=
  np_linspace (np_min r) (np_max r)
    (np_count (Qceiling ((np_max r - np_min r) + 3))).

(** Column and row of the 5-degree tile that [srtm_zone] assigns to a
    point, and the identifier of a tile. *)
Definition srtm_col (lon : Q) : Z := Qceiling ((lon - (-180)) / 5).
Definition srtm_row (lat : Q) : Z := Qceiling ((lat - 60) / (-5)).
Definition srtm_name (k j : Z) : string :=
  fmt_0f 2 false k +:+ "_" +:+ fmt_0f 2 false j.

(** The string appended by one pass of the double loop of [srtm_zone]. *)
Definition srtm_point (lon lat : Q) : string :=
  fmt_ceil ((lon - (-180)) / 5) +:+ "_" +:+ fmt_ceil ((lat - 60) / (-5)).

(** The extents on which [srtm_zone] is used: no longitude west of the
    antimeridian, no latitude from 60 degrees north on. *)
Definition srtm_domain (e : range * range) : Prop :=
  (-180 <= np_min (fst e))%Q /\ (np_max (snd e) < 60)%Q.


(** A closed cell of the 5-degree grid, column [k] and row [j]. *)
Definition closed_cell (k j : Z) (e : range * range) : Prop :=
  (-180 + 5 * inject_Z (k - 1) <= np_min (fst e))%Q /\
  (np_max (fst e) <= -180 + 5 * inject_Z k)%Q /\
  (60 - 5 * inject_Z j <= np_min (snd e))%Q /\
  (np_max (snd e) <= 60 - 5 * inject_Z (j - 1))%Q.

(** The distance that the statements about the cell of a point keep from
    the edges on which a cell is open.  The indexers cut the cells by
    ceiling division of [lon - srtm_x0] and of [lat - srtm_y0]: a cell is
    open on its western edge, and for [srtm_zone] on its northern edge.
    In binary64 a coordinate within rounding distance of such an edge is
    subtracted onto the edge and falls in the neighbouring cell (the
    float 2^-60 is in column 36 of the 5-degree grid, the rational 2^-60
    in column 37).  A billionth of a degree is far above the spacing of
    the floats up to 360 and far below any length on the ground. *)
Definition grid_margin : Q := 1 # 1000000000.

(** A point of the cell of column [k] and row [j] of the 5-degree grid
    that keeps the margin from the western and the northern edge. *)
Definition in_clear_cell (k j : Z) (lon lat : Q) : Prop :=
  (-180 + 5 * inject_Z (k - 1) + grid_margin <= lon)%Q /\
  (lon <= -180 + 5 * inject_Z k)%Q /\
  (60 - 5 * inject_Z j <= lat)%Q /\
  (lat <= 60 - 5 * inject_Z (j - 1) - grid_margin)%Q.

(** An extent whose corners are such points of the cell of column [k] and
    row [j]. *)
Definition clear_cell (k j : Z) (e : range * range) : Prop :=
  in_clear_cell k j (np_min (fst e)) (np_min (snd e)) /\
  in_clear_cell k j (np_max (fst e)) (np_max (snd e)).

(** "No configured user DEM file": [cfg.PATHS] has no ['dem_file'] entry
    naming an existing file. *)
Definition user_dem (w : world) : bool :=
  match PATHS w !! "dem_file" with
  | Some f => bool_decide (is_Some (fs w !! f))
  | None => false
  end.

(** The zone indexers called, most recent first. *)
Definition indexer_calls (t : list event) : list string :=
  omap (fun e =>
    match e with
    | Call fn =>
        if bool_decide (fn ∈ ["srtm_zone"; "dem3_viewpano_zone"; "aster_zone"])
        then Some fn else None
    | _ => None
    end) t.

(** A world used in the examples: an empty cache under ["/topo"], no user
    DEM, and a server that knows no tile. *)
Definition w_plain : world :=
  World ∅ {["topo_dir" := "/topo"]} 0 (fun _ _ => HttpFailure 404)
        (fun s => s) [].

(** The world after a request for [url] that failed ([_urlretrieve]
    leaves no file at [ofile]), and after the ten seconds slept before
    the next attempt. *)
Definition fetch_failed (url ofile : string) (w : world) : world :=
  set_fs (delete ofile) (add_event (Fetch url) (count_request w)).
Definition retried (url ofile : string) (w : world) : world :=
  add_event (Sleep 10) (fetch_failed url ofile w).

(** The world after a request for [url] that was served with [f]. *)
Definition fetch_served (url ofile : string) (f : file) (w : world) : world :=
  set_fs (insert ofile f) (add_event (Fetch url) (count_request w)).

(** A transient server-side failure. *)
Definition is_5xx (code : Z) : Prop := (500 <= code < 600)%Z.

(** The [ContentTooShortError] handlers of the two download loops. *)
Definition no_too_short_handler (h : option (M (nat * flow (option string))))
  : Prop :=
  h = None \/ h = Some (raise UnboundLocalError).

(** What a retry loop that gives up leaves in the trace, most recent
    first: six requests separated by five sleeps of ten seconds. *)
Definition exhausted_trace (url : string) : list event :=
  [Fetch url; Sleep 10; Fetch url; Sleep 10; Fetch url; Sleep 10;
   Fetch url; Sleep 10; Fetch url; Sleep 10; Fetch url].

(** A world whose server answers every request with a payload that is
    not a zip archive. *)
Definition w_corrupt : world :=
  World ∅ {["topo_dir" := "/topo"]} 0 (fun _ _ => Served Blob)
        (fun s => s) [].

(** A world whose server is overloaded: every request fails with 503. *)
Definition w_overload : world :=
  World ∅ {["topo_dir" := "/topo"]} 0 (fun _ _ => HttpFailure 503)
        (fun s => s) [].

(** A world whose server has the SRTM tile 38_03 and the DEM3 zone R01. *)
Definition w_serving : world :=
  World ∅ {["topo_dir" := "/topo"]} 0
        (fun _ url =>
           if String.eqb url (srtm_ifile "38_03")
           then Served (ZipArchive ["srtm_38_03.tif"; "readme.txt"])
           else if String.eqb url (dem3_ifile "R01")
           then Served (ZipArchive ["R01/N68W180.hgt"; "R01/N68W179.hgt"])
           else HttpFailure 404)
        (fun s => s) [].

(** Sources that the USER, GIMP and RAMP blocks leave alone: a list, or a
    string other than ["USER"], ["GIMP"] and ["RAMP"]. *)
Definition tiled_source (source : source_arg) : bool :=
  match source with
  | SrcNone => false
  | SrcStr _ =>
      negb (src_eq source "USER") && negb (src_eq source "GIMP")
      && negb (src_eq source "RAMP")
  | SrcList _ => true
  end.

(** The conditions under which the SRTM route is taken: the explicit
    source ["SRTM"], or no source, no user DEM and a region hint other
    than 5 and 19. *)
Definition srtm_default (w : world) (rgi_region : option Z)
    (source : source_arg) : Prop :=
  source = SrcStr "SRTM" \/
  (source = SrcNone /\ user_dem w = false /\
   region_is rgi_region 5 = false /\ region_is rgi_region 19 = false).

(** A world in which, of the two tiles of the extent lon [10,12],
    lat [46,47], tile 39_03 is in the cache and tile 38_03 is unknown to
    the server. *)
Definition w_one_tile : world :=
  World {[ "/topo/srtm/srtm_39_03.zip" := ZipArchive ["srtm_39_03.tif"];
           "/topo/srtm/srtm_39_03.tif" := Blob ]}
        {["topo_dir" := "/topo"]} 0 (fun _ _ => HttpFailure 404)
        (fun s => s) [].



(** The samples [dem3_viewpano_zone] takes along the two axes: the count
    of the longitudes is computed with [srtm_dy], that of the latitudes
    with [srtm_dx]. *)
Definition dem3_samples_lon (r : range) : list Q :=
  np_linspace (np_min r) (np_max r)
    (np_count (Qceiling ((np_max r - np_min r) / 4) + 3)).
Definition dem3_samples_lat (r : range) : list Q :=
  np_linspace (np_min r) (np_max r)
    (np_count (Qceiling ((np_max r - np_min r) / 6) + 3)).

(** The string built by one pass of the double loop of the generic
    branch of [dem3_viewpano_zone]. *)
Definition dem3_point (lon lat : Q) : string :=
  let dx := (lon - (-180))%Q in
  let dy := (lat - 0)%Q in
  let zx := fmt_ceil (dx / 6) in
  let zy := chr_from_A (Qfloor (Qabs (dy / 4))) in
  if Qgeb lat 0 then zy +:+ zx else "S" +:+ zy +:+ zx.

(** Column of the 6-degree grid, and band of the 4-degree grid counted
    from the equator: northwards from 0, southwards from -1. *)
Definition dem3_col (lon : Q) : Z := Qceiling ((lon - (-180)) / 6).
Definition dem3_band (lat : Q) : Z :=
  if Qgeb lat 0 then Qfloor (Qabs ((lat - 0) / 4))
  else (-1 - Qfloor (Qabs ((lat - 0) / 4)))%Z.

(** The zone of column [c] at latitude [lat]: the letter of the band,
    after an [S] south of the equator, and the zero-padded column. *)
Definition dem3_name (c : Z) (lat : Q) : string :=
  let zy := chr_from_A (Qfloor (Qabs ((lat - 0) / 4))) in
  if Qgeb lat 0 then zy +:+ fmt_0f 2 false c
  else "S" +:+ zy +:+ fmt_0f 2 false c.

(** The events of the retry loop of a tile download: a request for the
    archive of the tile, or a sleep of ten seconds. *)
Definition loop_event (ifile : string) (e : event) : Prop :=
  e = Fetch ifile \/ e = Sleep 10.

(** What the retry loop, or one pass through it, may change in the world
    it runs in: it sends requests, appends loop events to the trace and
    writes files, all of them in [outdir] apart from [ofile]. *)
Record tile_frame (allowed : event -> Prop) (ofile outdir : string)
    (w w' : world) : Prop := {
  frame_server : server w' = server w;
  frame_paths : PATHS w' = PATHS w;
  frame_requests : (requests w <= requests w')%nat;
  frame_trace :
    exists evs, trace w' = evs ++ trace w /\ Forall allowed evs;
  frame_fs :
    forall p, (forall c, p <> path_join outdir c) -> p <> ofile ->
              fs w' !! p = fs w !! p
}.

(** The events of a DEM3 download: those of its retry loop, and the merge
    of the extracted files into the raster of the zone. *)
Definition dem3_event (zone outdir : string) (e : event) : Prop :=
  loop_event (dem3_ifile zone) e \/
  exists inputs, e = RasterMerge inputs (dem3_outpath zone outdir).

(** The pattern whose matches the DEM3 download merges: [zonedir/*.hgt],
    replaced by [outdir/*/*.hgt] for the zones of [DEM3REG]. *)
Definition dem3_hgt (zone outdir : string) : string -> bool :=
  if bool_decide (zone ∈ map fst DEM3REG) then match_sub_hgt outdir
  else match_hgt (dem3_zonedir zone outdir).

(** The requests that the USER block answers: a user DEM file is
    configured and exists, and the source is [None], ["USER"], or a list
    that starts with ["USER"]. *)
Definition user_route (w : world) (source : source_arg) : bool :=
  user_dem w &&
  match source with
  | SrcNone => true
  | SrcStr s => String.eqb s "USER"
  | SrcList (s :: _) => String.eqb s "USER"
  | SrcList [] => false
  end.

(** The source names for which [get_topo_file] has a branch. *)
Definition topo_sources : list string :=
  ["USER"; "GIMP"; "RAMP"; "DEM3"; "ASTER"; "SRTM"; "ETOPO1"].

(** The path of the ETOPO1 raster. *)
Definition etopo1_file (topodir : string) : string :=
  path_join topodir "ETOPO1_Ice_g_geotiff.tif".

(** Worlds used in the examples: [w_plain] with the ETOPO1 raster in the
    topography directory, and [w_plain] with a user DEM file. *)
Definition w_etopo1 : world :=
  World {[ "/topo/ETOPO1_Ice_g_geotiff.tif" := Blob ]}
        {["topo_dir" := "/topo"]} 0 (fun _ _ => HttpFailure 404)
        (fun s => s) [].
Definition w_user : world :=
  World {[ "/data/dem.tif" := Blob ]}
        {["dem_file" := "/data/dem.tif"]} 0 (fun _ _ => HttpFailure 404)
        (fun s => s) [].

(** [w'] differs from [w] by its trace at most. *)
Definition quiet (w w' : world) : Prop :=
  fs w' = fs w /\ requests w' = requests w /\ PATHS w' = PATHS w /\
  server w' = server w.

(** What a call of [get_topo_file] can end in, on the code as it is. *)
Definition topo_outcome (w : world) (r : result (option string * string))
    (w' : world) : Prop :=
  quiet w w' /\
  match r with
  | Ok (Some f, name) =>
      w' = w /\ is_Some (fs w !! f) /\ (name = "USER" \/ name = "ETOPO1")
  | Ok (None, _) => False
  | Err _ => True
  | OutOfFuel => False
  end.

(** The world after a transfer of [src] that failed, and after one that
    delivered [f] to [dst]. *)
Definition transfer_failed (src : string) (w : world) : world :=
  add_event (Fetch src) (count_request w).
Definition transfer_done (src dst : string) (f : file) (w : world) : world :=
  set_fs (insert dst f) (add_event (Fetch src) (count_request w)).

(** A world whose bucket holds the ASTER tile N46E010 of unit N45E010 and
    the Greenland raster. *)
Definition w_bucket : world :=
  World ∅ {["topo_dir" := "/topo"]} 0
        (fun _ url =>
           if String.eqb url (aster_object "N46E010" "N45E010")
           then Served (ZipArchive ["ASTGTM2_N46E010_dem.tif";
                                    "ASTGTM2_N46E010_num.tif"])
           else if String.eqb url "s3://astgtmv2/topo/gimpdem_90m.tif.zip"
           then Served (ZipArchive ["gimpdem_90m.tif"])
           else HttpFailure 404)
        (fun s => s) [].

(** * Properties *)

(** ** Rounding and sampling *)

Lemma Zle_of_Qlt (a b : Z) : (inject_Z (a - 1) < inject_Z b)%Q -> (a <= b)%Z.
Proof. rewrite <- Zlt_Qlt. lia. Qed.

Lemma Qceiling_step (x y : Q) :
  (x <= y)%Q -> (y <= x + 1)%Q ->
  (Qceiling x <= Qceiling y <= Qceiling x + 1)%Z.
Proof.
  intros Hxy Hyx. split; [by apply Qceiling_resp_le|].
  apply Zle_of_Qlt. rewrite inject_Z_plus.
  pose proof (Qceiling_lt y). pose proof (Qle_ceiling x).
  change (inject_Z 1) with 1%Q. lra.
Qed.

Lemma Qceiling_ge_3 (x : Q) : (3 <= x)%Q -> (3 <= Qceiling x)%Z.
Proof.
  intros Hx. apply Zle_of_Qlt. pose proof (Qle_ceiling x).
  change (inject_Z (3 - 1)) with 2%Q. lra.
Qed.

(** A function on [0..n] that never decreases and never jumps by more
    than one takes every value between its first and its last. *)
Lemma discrete_ivt (f : nat -> Z) (n : nat) :
  (forall i, (i < n)%nat -> (f i <= f (S i) <= f i + 1)%Z) ->
  forall k, (f O <= k <= f n)%Z -> exists i, (i <= n)%nat /\ f i = k.
Proof.
  induction n as [|n IH]; intros Hstep k Hk.
  - exists O. split; [lia|lia].
  - destruct (Z.eq_dec k (f (S n))) as [->|Hne]; [exists (S n); split; [lia|done]|].
    destruct (IH (fun i Hi => Hstep i (Nat.lt_lt_succ_r _ _ Hi)) k) as (i & Hi & <-).
    + pose proof (Hstep n (Nat.lt_succ_diag_r n)). lia.
    + exists i. split; [lia|done].
Qed.

Lemma discrete_mono (f : nat -> Z) (n : nat) :
  (forall i, (i < n)%nat -> (f i <= f (S i))%Z) ->
  forall i, (i <= n)%nat -> (f O <= f i <= f n)%Z.
Proof.
  intros Hstep. 
  assert (Hm : forall i j, (i <= j)%nat -> (j <= n)%nat -> (f i <= f j)%Z).
  { intros i j Hij. induction Hij as [|j Hij IH]; intros Hj; [lia|].
    specialize (IH ltac:(lia)). specialize (Hstep j ltac:(lia)). lia. }
  intros i Hi. split; apply Hm; lia.
Qed.

Section Linspace.
Variables (start stop : Q) (num : nat) (idx : Q -> Z).
Hypothesis Hle : (start <= stop)%Q.
Hypothesis Hnum : (2 <= num)%nat.
Hypothesis Hdense : (stop - start <= inject_Z (Z.of_nat (num - 1)))%Q.
Hypothesis idx_proper : forall x y, (x == y)%Q -> idx x = idx y.
Hypothesis idx_mono : forall x y, (x <= y)%Q -> (idx x <= idx y)%Z.
Hypothesis idx_step :
  forall x y, (x <= y)%Q -> (y <= x + 1)%Q -> (idx y <= idx x + 1)%Z.

Let div : nat := (num - 1)%nat.
Let d : Q := inject_Z (Z.of_nat div).
Let step : Q := ((stop - start) / d)%Q.
Let point (i : nat) : Q := (inject_Z (Z.of_nat i) * step + start)%Q.

Lemma linspace_unfold :
  np_linspace start stop num = map point (seq 0 div) ++ [stop].
Proof using Hle Hnum Hdense.
  unfold point, step, d, div. destruct num as [|[|n]]; [lia|lia|].
  simpl np_linspace. by replace (S (S n) - 1)%nat with (S n) by lia.
Qed.

Lemma linspace_d_pos : (1 <= d)%Q.
Proof using Hle Hnum Hdense.
  unfold d, div. change 1%Q with (inject_Z 1). rewrite <- Zle_Qle. lia.
Qed.

Lemma linspace_step_d : (step * d == stop - start)%Q.
Proof using Hle Hnum Hdense.
  unfold step. pose proof linspace_d_pos as Hd. field.
  intros H0. rewrite H0 in Hd. lra.
Qed.

Lemma linspace_step_bounds : (0 <= step <= 1)%Q.
Proof using Hle Hnum Hdense.
  pose proof linspace_d_pos. unfold step. split.
  - apply Qle_shift_div_l; lra.
  - apply Qle_shift_div_r; [lra|].
    change (stop - start <= d)%Q in Hdense. lra.
Qed.

Lemma linspace_point_0 : (point 0 == start)%Q.
Proof using Hle Hnum Hdense. unfold point. change (inject_Z (Z.of_nat 0)) with 0%Q. ring. Qed.

Lemma linspace_point_div : (point div == stop)%Q.
Proof using Hle Hnum Hdense.
  unfold point. change (inject_Z (Z.of_nat div)) with d.
  rewrite (Qmult_comm d step), linspace_step_d. ring.
Qed.

Lemma linspace_point_S i : (point (S i) == point i + step)%Q.
Proof using Hle Hnum Hdense.
  unfold point. rewrite Nat2Z.inj_succ. unfold Z.succ.
  rewrite inject_Z_plus. change (inject_Z 1) with 1%Q. ring.
Qed.

Lemma linspace_point_bounds i :
  (i <= div)%nat -> (start <= point i <= stop)%Q.
Proof using Hle Hnum Hdense.
  intros Hi. pose proof linspace_step_bounds as [H0 _].
  pose proof linspace_step_d as Hd.
  assert (Hid : (inject_Z (Z.of_nat i) <= d)%Q).
  { unfold d. rewrite <- Zle_Qle. lia. }
  assert (H0i : (0 <= inject_Z (Z.of_nat i))%Q).
  { change 0%Q with (inject_Z 0). rewrite <- Zle_Qle. lia. }
  unfold point. clearbody step d. split; [nra|].
  assert ((inject_Z (Z.of_nat i) * step <= d * step)%Q) by nra. lra.
Qed.

Lemma linspace_elem q :
  q ∈ np_linspace start stop num ->
  exists i, (i <= div)%nat /\ (q == point i)%Q.
Proof using Hle Hnum Hdense.
  rewrite linspace_unfold, elem_of_app, list_elem_of_fmap, list_elem_of_singleton.
  intros [(i & -> & Hi)| ->].
  - apply elem_of_seq in Hi. exists i. split; [lia|reflexivity].
  - exists div. split; [lia|]. symmetry. apply linspace_point_div.
Qed.

Lemma linspace_stop : stop ∈ np_linspace start stop num.
Proof using Hle Hnum Hdense.
  rewrite linspace_unfold. apply elem_of_app. right.
  by apply list_elem_of_singleton.
Qed.

Lemma linspace_nonempty : np_linspace start stop num <> [].
Proof using Hle Hnum Hdense. rewrite linspace_unfold. by destruct (map point (seq 0 div)). Qed.

(** Every sample lies in the sampled interval. *)
Lemma linspace_bounds q :
  q ∈ np_linspace start stop num -> (start <= q <= stop)%Q.
Proof using Hle Hnum Hdense.
  intros (i & Hi & Hq)%linspace_elem.
  pose proof (linspace_point_bounds i Hi). lra.
Qed.

Lemma linspace_idx_range q :
  q ∈ np_linspace start stop num -> (idx start <= idx q <= idx stop)%Z.
Proof using Hle Hnum Hdense idx_mono. intros [??]%linspace_bounds. split; by apply idx_mono. Qed.

(** Every index between those of the end points is the index of a
    sample: consecutive samples are at most one unit apart. *)
Lemma linspace_cover k :
  (idx start <= k <= idx stop)%Z ->
  exists q, q ∈ np_linspace start stop num /\ idx q = k.
Proof using All.
  intros Hk. pose proof linspace_step_bounds as [Hs0 Hs1].
  destruct (discrete_ivt (fun i => idx (point i)) div) with (k := k)
    as (i & Hi & Hik).
  - intros i _. pose proof (linspace_point_S i). split.
    + apply idx_mono. lra.
    + apply idx_step; lra.
  - rewrite (idx_proper _ _ linspace_point_0).
    by rewrite (idx_proper _ _ linspace_point_div).
  - destruct (decide (i = div)) as [->|Hne].
    + exists stop. split; [apply linspace_stop|].
      by rewrite <- (idx_proper _ _ linspace_point_div).
    + exists (point i). split; [|done].
      rewrite linspace_unfold, elem_of_app, list_elem_of_fmap. left.
      exists i. split; [done|]. apply elem_of_seq. lia.
Qed.
End Linspace.

(** ** The degree-grid indexer *)

Lemma for_in_append {A} (l : list A) (body : A -> list string -> result (list string))
    (f : A -> list string) (s : list string) :
  (forall x s, x ∈ l -> body x s = Ok (s ++ f x)) ->
  for_in l body s = Ok (s ++ concat (map f l)).
Proof.
  revert s. induction l as [|x l IH]; intros s Hb; simpl.
  - by rewrite app_nil_r.
  - rewrite Hb by set_solver. simpl. rewrite IH by (intros; apply Hb; set_solver).
    by rewrite app_assoc.
Qed.

Lemma srtm_inner_ok (lon : Q) (lats : list Q) (zones : list string) :
  (forall lat, lat ∈ lats -> (lat < 60)%Q) ->
  for_in lats (fun lat zones =>
      if Qlt_le_dec (lat - 60) 0
      then Ok (zones ++ [srtm_point lon lat])
      else Err AssertionError) zones
  = Ok (zones ++ map (srtm_point lon) lats).
Proof.
  intros Hlt.
  rewrite (for_in_append _ _ (fun lat => [srtm_point lon lat])).
  - f_equal. f_equal. induction lats; simpl; [done|f_equal; set_solver].
  - intros lat s Hin. specialize (Hlt lat Hin).
    destruct (Qlt_le_dec (lat - 60) 0); [done|lra].
Qed.

Lemma srtm_inner_fail (lon : Q) (lats : list Q) (zones : list string) :
  (exists lat, lat ∈ lats /\ (60 <= lat)%Q) ->
  for_in lats (fun lat zones =>
      if Qlt_le_dec (lat - 60) 0
      then Ok (zones ++ [srtm_point lon lat])
      else Err AssertionError) zones
  = Err AssertionError.
Proof.
  revert zones. induction lats as [|lat lats IH]; intros zones (y & Hin & Hy).
  - by apply elem_of_nil in Hin.
  - simpl. destruct (Qlt_le_dec (lat - 60) 0) as [Hlt|Hge]; simpl; [|done].
    apply IH. exists y. split; [|done].
    apply elem_of_cons in Hin as [->|Hin]; [lra|done].
Qed.

Lemma srtm_samples_span (r : range) : (np_min r <= np_max r)%Q.
Proof.
  unfold np_min, np_max.
  pose proof (Q.le_min_l (fst r) (snd r)). pose proof (Q.le_max_l (fst r) (snd r)).
  lra.
Qed.

Lemma srtm_samples_count (r : range) :
  (3 <= np_count (Qceiling ((np_max r - np_min r) + 3)))%nat.
Proof.
  pose proof (srtm_samples_span r).
  pose proof (Qceiling_ge_3 ((np_max r - np_min r) + 3) ltac:(lra)).
  unfold np_count. lia.
Qed.

Lemma srtm_samples_dense (r : range) :
  (np_max r - np_min r <=
   inject_Z (Z.of_nat (np_count (Qceiling ((np_max r - np_min r) + 3)) - 1)))%Q.
Proof.
  pose proof (srtm_samples_span r).
  pose proof (srtm_samples_count r) as Hc.
  pose proof (Qle_ceiling ((np_max r - np_min r) + 3)) as Hce.
  unfold np_count in *.
  set (c := Qceiling _) in *.
  rewrite Nat2Z.inj_sub, Z2Nat.id by lia.
  unfold Z.sub. rewrite inject_Z_plus. change (inject_Z (- Z.of_nat 1)) with (-1)%Q.
  lra.
Qed.

Lemma srtm_samples_nonempty (r : range) : srtm_samples r <> [].
Proof.
  pose proof (srtm_samples_count r).
  apply linspace_nonempty; [apply srtm_samples_span|lia|apply srtm_samples_dense].
Qed.

Lemma srtm_samples_max (r : range) : np_max r ∈ srtm_samples r.
Proof.
  pose proof (srtm_samples_count r).
  apply linspace_stop; [apply srtm_samples_span|lia|apply srtm_samples_dense].
Qed.

Lemma srtm_samples_bounds (r : range) (q : Q) :
  q ∈ srtm_samples r -> (np_min r <= q <= np_max r)%Q.
Proof.
  pose proof (srtm_samples_count r). apply linspace_bounds.
  - apply srtm_samples_span.
  - lia.
  - apply srtm_samples_dense.
Qed.

(** [srtm_zone] in the vocabulary above. *)
Lemma srtm_zone_unfold (lon_ran lat_ran : range) :
  srtm_zone lon_ran lat_ran =
  rbind
    (for_in (srtm_samples lon_ran) (fun lon =>
       for_in (srtm_samples lat_ran) (fun lat zones =>
         if Qlt_le_dec (lat - 60) 0
         then Ok (zones ++ [srtm_point lon lat])
         else Err AssertionError)) [])
    (fun zones => Ok (py_sorted_set zones)).
Proof. reflexivity. Qed.

(** [srtm_zone] on an extent below 60 degrees north: the sorted set of
    the strings of all sample pairs. *)
Lemma srtm_zone_below_60 (lon_ran lat_ran : range) :
  (np_max lat_ran < 60)%Q ->
  srtm_zone lon_ran lat_ran =
  Ok (py_sorted_set
        (concat (map (fun lon => map (srtm_point lon) (srtm_samples lat_ran))
                     (srtm_samples lon_ran)))).
Proof.
  intros Hmax. rewrite srtm_zone_unfold.
  rewrite (for_in_append _ _
             (fun lon => map (srtm_point lon) (srtm_samples lat_ran))); [done|].
  intros lon s _. apply srtm_inner_ok.
  intros lat [_ ?]%srtm_samples_bounds. lra.
Qed.

(** [srtm_zone] on an extent reaching 60 degrees north. *)
Lemma srtm_zone_from_60 (lon_ran lat_ran : range) :
  (60 <= np_max lat_ran)%Q ->
  srtm_zone lon_ran lat_ran = Err AssertionError.
Proof.
  intros Hmax. rewrite srtm_zone_unfold.
  pose proof (srtm_samples_nonempty lon_ran).
  destruct (srtm_samples lon_ran) as [|lon lons]; [done|].
  cbn [for_in]. rewrite srtm_inner_fail; [done|].
  exists (np_max lat_ran). split; [apply srtm_samples_max|done].
Qed.

Lemma elem_of_py_sorted_set (l : list string) (x : string) :
  x ∈ py_sorted_set l <-> x ∈ l.
Proof.
  unfold py_sorted_set.
  by rewrite merge_sort_Permutation, elem_of_remove_dups.
Qed.

(** [sorted(set(..))] only depends on the set of elements. *)
Lemma py_sorted_set_ext (l1 l2 : list string) :
  (forall x, x ∈ l1 <-> x ∈ l2) -> py_sorted_set l1 = py_sorted_set l2.
Proof.
  intros Hext. unfold py_sorted_set.
  apply (Sorted_unique String.le); [apply Sorted_merge_sort, _..|].
  rewrite !merge_sort_Permutation.
  apply NoDup_Permutation; [apply NoDup_remove_dups..|].
  intros x. by rewrite !elem_of_remove_dups.
Qed.

Lemma py_sorted_set_singleton (l : list string) (x : string) :
  l <> [] -> (forall y, y ∈ l -> y = x) -> py_sorted_set l = [x].
Proof.
  intros Hne Hall. rewrite (py_sorted_set_ext l [x]); [done|].
  intros y. rewrite list_elem_of_singleton. split; [apply Hall|intros ->].
  destruct l as [|z l]; [done|]. rewrite (Hall z) by set_solver. set_solver.
Qed.

Lemma ceil_negzero_nonneg (x : Q) : (0 <= x)%Q -> ceil_negzero x = false.
Proof.
  intros Hx. unfold ceil_negzero.
  destruct (Qlt_le_dec (-1) x); [|done]. destruct (Qlt_le_dec x 0); [lra|done].
Qed.

Lemma srtm_point_name (lon lat : Q) :
  (-180 <= lon)%Q -> (lat < 60)%Q ->
  srtm_point lon lat = srtm_name (srtm_col lon) (srtm_row lat).
Proof.
  intros Hlon Hlat. unfold srtm_point, srtm_name, fmt_ceil.
  rewrite !ceil_negzero_nonneg; [done|..];
    unfold Qdiv; [change (/ -5)%Q with (-1#5)%Q|change (/ 5)%Q with (1#5)%Q]; lra.
Qed.

Lemma srtm_col_proper (x y : Q) : (x == y)%Q -> srtm_col x = srtm_col y.
Proof. intros H. unfold srtm_col. by rewrite H. Qed.

Lemma srtm_col_mono (x y : Q) : (x <= y)%Q -> (srtm_col x <= srtm_col y)%Z.
Proof.
  intros H. apply Qceiling_resp_le.
  unfold Qdiv. change (/ 5)%Q with (1#5)%Q. lra.
Qed.

Lemma srtm_col_step (x y : Q) :
  (x <= y)%Q -> (y <= x + 1)%Q -> (srtm_col y <= srtm_col x + 1)%Z.
Proof.
  intros H1 H2. apply Qceiling_step;
    unfold Qdiv; change (/ 5)%Q with (1#5)%Q; lra.
Qed.

Lemma srtm_row_proper (x y : Q) : (x == y)%Q -> srtm_row x = srtm_row y.
Proof. intros H. unfold srtm_row. by rewrite H. Qed.

Lemma srtm_row_anti (x y : Q) : (x <= y)%Q -> (srtm_row y <= srtm_row x)%Z.
Proof.
  intros H. apply Qceiling_resp_le.
  unfold Qdiv. change (/ -5)%Q with (-1#5)%Q. lra.
Qed.

Lemma srtm_row_step (x y : Q) :
  (x <= y)%Q -> (y <= x + 1)%Q -> (srtm_row x <= srtm_row y + 1)%Z.
Proof.
  intros H1 H2. apply Qceiling_step;
    unfold Qdiv; change (/ -5)%Q with (-1#5)%Q; lra.
Qed.

(** The columns met by the samples of a longitude range are exactly those
    from the column of its minimum to the column of its maximum. *)
Lemma srtm_cols_of_samples (r : range) (k : Z) :
  (exists q, q ∈ srtm_samples r /\ srtm_col q = k) <->
  (srtm_col (np_min r) <= k <= srtm_col (np_max r))%Z.
Proof.
  pose proof (srtm_samples_count r). split.
  - intros (q & [Hlo Hhi]%srtm_samples_bounds & <-).
    split; by apply srtm_col_mono.
  - apply linspace_cover;
      [apply srtm_samples_span|lia|apply srtm_samples_dense
      |apply srtm_col_proper|apply srtm_col_mono|apply srtm_col_step].
Qed.

(** Likewise for rows, which are numbered southwards. *)
Lemma srtm_rows_of_samples (r : range) (j : Z) :
  (exists q, q ∈ srtm_samples r /\ srtm_row q = j) <->
  (srtm_row (np_max r) <= j <= srtm_row (np_min r))%Z.
Proof.
  pose proof (srtm_samples_count r). split.
  - intros (q & [Hlo Hhi]%srtm_samples_bounds & <-).
    split; by apply srtm_row_anti.
  - intros Hj.
    destruct (linspace_cover (np_min r) (np_max r)
                (np_count (Qceiling ((np_max r - np_min r) + 3)))
                (fun q => (- srtm_row q)%Z)) with (k := (- j)%Z)
      as (q & Hq & Hk).
    + apply srtm_samples_span.
    + lia.
    + apply srtm_samples_dense.
    + intros x y Hxy. by rewrite (srtm_row_proper x y).
    + intros x y Hxy. pose proof (srtm_row_anti x y Hxy). lia.
    + intros x y H1 H2. pose proof (srtm_row_step x y H1 H2). lia.
    + lia.
    + exists q. split; [done|lia].
Qed.

(** The zone set of an extent of the domain: all tiles from the column of
    the western edge to that of the eastern edge, and from the row of the
    northern edge to that of the southern edge. *)
Lemma srtm_zone_tiles (lon_ran lat_ran : range) :
  srtm_domain (lon_ran, lat_ran) ->
  exists l,
    srtm_zone lon_ran lat_ran = Ok (py_sorted_set l) /\
    forall z, z ∈ l <->
      exists k j,
        (srtm_col (np_min lon_ran) <= k <= srtm_col (np_max lon_ran))%Z /\
        (srtm_row (np_max lat_ran) <= j <= srtm_row (np_min lat_ran))%Z /\
        z = srtm_name k j.
Proof.
  intros [Hlon Hlat]. simpl in Hlon, Hlat.
  eexists. split; [by apply srtm_zone_below_60|].
  intros z. rewrite list_elem_of_In, in_concat. split.
  - intros (l & Hl & Hz). apply in_map_iff in Hl as (lon & <- & Hlon').
    apply in_map_iff in Hz as (lat & <- & Hlat').
    apply list_elem_of_In in Hlon', Hlat'.
    exists (srtm_col lon), (srtm_row lat). split; [|split].
    + apply srtm_cols_of_samples. by exists lon.
    + apply srtm_rows_of_samples. by exists lat.
    + apply srtm_samples_bounds in Hlon', Hlat'.
      apply srtm_point_name; lra.
  - intros (k & j & Hk & Hj & ->).
    apply srtm_cols_of_samples in Hk as (lon & Hlon' & <-).
    apply srtm_rows_of_samples in Hj as (lat & Hlat' & <-).
    exists (map (srtm_point lon) (srtm_samples lat_ran)). split.
    + apply in_map_iff. exists lon. split; [done|by apply list_elem_of_In].
    + apply in_map_iff. exists lat. split; [|by apply list_elem_of_In].
      apply srtm_samples_bounds in Hlon', Hlat'.
      apply srtm_point_name; lra.
Qed.

Lemma Qceiling_unique (x : Q) (z : Z) :
  (inject_Z (z - 1) < x)%Q -> (x <= inject_Z z)%Q -> Qceiling x = z.
Proof.
  intros Hlo Hhi. apply Z.le_antisymm.
  - rewrite <- (Qceiling_Z z). by apply Qceiling_resp_le.
  - apply Zle_of_Qlt. pose proof (Qle_ceiling x). lra.
Qed.

Lemma srtm_col_in_cell (k : Z) (lon : Q) :
  (-180 + 5 * inject_Z (k - 1) < lon)%Q -> (lon <= -180 + 5 * inject_Z k)%Q ->
  srtm_col lon = k.
Proof.
  intros Hlo Hhi. apply Qceiling_unique;
    unfold Qdiv; change (/ 5)%Q with (1#5)%Q; lra.
Qed.

Lemma srtm_row_in_cell (j : Z) (lat : Q) :
  (60 - 5 * inject_Z j <= lat)%Q -> (lat < 60 - 5 * inject_Z (j - 1))%Q ->
  srtm_row lat = j.
Proof.
  intros Hlo Hhi. apply Qceiling_unique;
    unfold Qdiv; change (/ -5)%Q with (-1#5)%Q; lra.
Qed.



(** C4 (as amended). An extent that lies in one cell of the 72 x 24 grid
    (column [k], row [j]) and keeps the margin from the western and the
    northern edge of the cell, the two edges on which the indexer leaves
    the cell open, gets exactly one zone: the zero-padded identifier
    [kk_jj]. *)
Theorem srtm_zone_single_cell (lon_ran lat_ran : range) (k j : Z) :
  (1 <= k <= 72)%Z -> (1 <= j <= 24)%Z ->
  clear_cell k j (lon_ran, lat_ran) ->
  srtm_zone lon_ran lat_ran = Ok [srtm_name k j].
Proof.
  intros [Hk _] [Hj _] [(Hk1 & _ & Hj1 & _) (_ & Hk2 & _ & Hj2)].
  unfold grid_margin in *. simpl in *.
  pose proof (srtm_samples_span lon_ran). pose proof (srtm_samples_span lat_ran).
  assert (Hj' : (inject_Z (j - 1) >= 0)%Q).
  { change 0%Q with (inject_Z 0). apply Qle_ge. rewrite <- Zle_Qle. lia. }
  assert (Hk0 : (inject_Z (k - 1) >= 0)%Q).
  { change 0%Q with (inject_Z 0). apply Qle_ge. rewrite <- Zle_Qle. lia. }
  destruct (srtm_zone_tiles lon_ran lat_ran) as (l & -> & Hl).
  { apply Qge_le in Hj', Hk0. split; simpl; lra. }
  f_equal.
  assert (Hin : forall z, z ∈ l <-> z = srtm_name k j).
  { intros z. rewrite Hl.
    rewrite (srtm_col_in_cell k (np_min lon_ran)) by lra.
    rewrite (srtm_col_in_cell k (np_max lon_ran)) by lra.
    rewrite (srtm_row_in_cell j (np_min lat_ran)) by lra.
    rewrite (srtm_row_in_cell j (np_max lat_ran)) by lra.
    split.
    - intros (k' & j' & Hk' & Hj'' & ->). by replace k' with k by lia; replace j' with j by lia.
    - intros ->. exists k, j. repeat split; lia. }
  apply py_sorted_set_singleton.
  - intros ->. apply (elem_of_nil (srtm_name k j)). by apply Hin.
  - intros y. apply Hin.
Qed.

(** Witness for C4: the extent lon [11,12], lat [46,47] lies in the cell
    of column 39 and row 3. *)
Lemma srtm_zone_single_cell_witness :
  srtm_zone (11, 12)%Q (46, 47)%Q = Ok ["39_03"].
Proof.
  apply (srtm_zone_single_cell (11, 12)%Q (46, 47)%Q 39 3).
  - lia.
  - lia.
  - repeat split; vm_compute; congruence.
Defined.

(** C4 (as stated) fails on an extent that touches the western edge of
    its tile: lon [10,12], lat [46,47] lies in the closed cell of column
    39 and row 3 (10 to 15 east, 45 to 50 north) and gets two zones. *)
Lemma srtm_zone_cell_edge_counterexample :
  closed_cell 39 3 ((10, 12)%Q, (46, 47)%Q) /\
  srtm_zone (10, 12)%Q (46, 47)%Q = Ok ["38_03"; "39_03"].
Proof.
  split; [repeat split; vm_compute; congruence|]. by vm_compute.
Qed.



Example srtm_zone_split_example :
  srtm_zone (10, 20)%Q (40, 45)%Q
  = Ok ["38_03"; "38_04"; "39_03"; "39_04"; "40_03"; "40_04"] /\
  srtm_zone (10, 15)%Q (40, 45)%Q
  = Ok ["38_03"; "38_04"; "39_03"; "39_04"] /\
  srtm_zone (15, 20)%Q (40, 45)%Q
  = Ok ["39_03"; "39_04"; "40_03"; "40_04"].
Proof. by vm_compute. Qed.

(** ** Source selection *)

Lemma bind_ok {A B} (c : M A) (k : A -> M B) (w w' : world) (a : A) :
  c w = (Ok a, w') -> bind c k w = k a w'.
Proof. intros H. unfold bind. by rewrite H. Qed.

Lemma bind_err {A B} (c : M A) (k : A -> M B) (w w' : world) (e : exn) :
  c w = (Err e, w') -> bind c k w = (Err e, w').
Proof. intros H. unfold bind. by rewrite H. Qed.

Lemma for_inM_type_error {A S} (l : list A) (s : S) (w : world) :
  for_inM l (fun _ _ => raise TypeError) s w =
  match l with
  | [] => (Ok s, w)
  | _ :: _ => (Err TypeError, w)
  end.
Proof. by destruct l. Qed.

Lemma topo_user_block_tiled (source : source_arg) (w : world) :
  tiled_source source = true ->
  topo_user_block source w = (Ok (GoesOn source), w).
Proof.
  intros Hs. unfold topo_user_block, bind, ret, path_isfile, path_exists.
  destruct (PATHS w !! "dem_file") as [f|]; [|done].
  destruct (bool_decide _); [|done].
  destruct source as [|s|l]; [done| |done]. simpl in *.
  by destruct (String.eqb s "USER").
Qed.

Lemma topo_user_block_none (w : world) :
  user_dem w = false ->
  topo_user_block SrcNone w = (Ok (GoesOn SrcNone), w).
Proof.
  unfold user_dem, topo_user_block, bind, ret, path_isfile, path_exists.
  destruct (PATHS w !! "dem_file") as [f|]; [|done]. by intros ->.
Qed.

Lemma topo_gimp_block_tiled (rgi_region : option Z) (source : source_arg)
    (w : world) :
  tiled_source source = true ->
  topo_gimp_block rgi_region source w = (Ok (GoesOn source), w).
Proof.
  intros Hs. unfold topo_gimp_block.
  destruct source as [|s|l]; [done| |]; simpl in *.
  - destruct (String.eqb s "GIMP"); [by rewrite andb_false_r in Hs|].
    simpl. by destruct (region_is rgi_region 5).
  - by destruct (region_is rgi_region 5).
Qed.

Lemma topo_gimp_block_none (rgi_region : option Z) (w : world) :
  region_is rgi_region 5 = false ->
  topo_gimp_block rgi_region SrcNone w = (Ok (GoesOn SrcNone), w).
Proof. intros H. unfold topo_gimp_block. simpl. by rewrite H. Qed.

Lemma topo_ramp_block_tiled (lat_ex : range) (rgi_region : option Z)
    (source : source_arg) (w : world) :
  tiled_source source = true ->
  topo_ramp_block lat_ex rgi_region source w = (Ok (GoesOn source), w).
Proof.
  intros Hs. unfold topo_ramp_block.
  destruct source as [|s|l]; [done| |]; simpl in *.
  - destruct (String.eqb s "RAMP") eqn:E; [by rewrite andb_false_r in Hs|].
    simpl. destruct (region_is rgi_region 19); [|done].
    by destruct (Qlt_le_dec (-60) (np_max lat_ex)); simpl; rewrite E.
  - destruct (region_is rgi_region 19); [|done].
    by destruct (Qlt_le_dec (-60) (np_max lat_ex)).
Qed.

Lemma topo_ramp_block_none (lat_ex : range) (rgi_region : option Z)
    (w : world) :
  region_is rgi_region 19 = false ->
  topo_ramp_block lat_ex rgi_region SrcNone w = (Ok (GoesOn SrcNone), w).
Proof. intros H. unfold topo_ramp_block. simpl. by rewrite H. Qed.

(** When the first three blocks leave [source] alone, [get_topo_file]
    comes down to the tile block followed by the final block. *)
Lemma get_topo_file_body_tiles (lon_ex lat_ex : range)
    (rgi_region : option Z) (source : source_arg) (w : world)
    (topodir : string) :
  PATHS w !! "topo_dir" = Some topodir ->
  tiled_source source = true \/
  (source = SrcNone /\ user_dem w = false /\
   region_is rgi_region 5 = false /\ region_is rgi_region 19 = false) ->
  get_topo_file_body lon_ex lat_ex rgi_region source w =
  bind (topo_tiles_block lon_ex lat_ex source)
       (fun sel => topo_final_block topodir (fst sel) (snd sel)) w.
Proof.
  intros Htopo Hsrc. unfold get_topo_file_body.
  assert (Hdir : topo_dir w = (Ok topodir, w)).
  { unfold topo_dir. by rewrite Htopo. }
  destruct Hsrc as [Hs|(-> & Hu & H5 & H19)].
  - rewrite (bind_ok _ _ _ _ _ (topo_user_block_tiled _ _ Hs)).
    rewrite (bind_ok _ _ _ _ _ Hdir).
    rewrite (bind_ok _ _ _ _ _ (topo_gimp_block_tiled _ _ _ Hs)).
    by rewrite (bind_ok _ _ _ _ _ (topo_ramp_block_tiled _ _ _ _ Hs)).
  - rewrite (bind_ok _ _ _ _ _ (topo_user_block_none _ Hu)).
    rewrite (bind_ok _ _ _ _ _ Hdir).
    rewrite (bind_ok _ _ _ _ _ (topo_gimp_block_none _ _ H5)).
    by rewrite (bind_ok _ _ _ _ _ (topo_ramp_block_none _ _ _ H19)).
Qed.

Lemma within_60_tests (lat_ex : range) :
  (-60 <= np_min lat_ex)%Q -> (np_max lat_ex <= 60)%Q ->
  (if Qlt_le_dec (np_min lat_ex) (-60) then true else false)
  || (if Qlt_le_dec 60 (np_max lat_ex) then true else false) = false.
Proof.
  intros Hmin Hmax.
  destruct (Qlt_le_dec (np_min lat_ex) (-60)); [lra|].
  destruct (Qlt_le_dec 60 (np_max lat_ex)); [lra|done].
Qed.

Lemma outside_60_tests (lat_ex : range) :
  (np_min lat_ex < -60)%Q \/ (60 < np_max lat_ex)%Q ->
  (if Qlt_le_dec (np_min lat_ex) (-60) then true else false)
  || (if Qlt_le_dec 60 (np_max lat_ex) then true else false) = true.
Proof.
  intros Hout.
  destruct (Qlt_le_dec (np_min lat_ex) (-60)); [done|].
  destruct (Qlt_le_dec 60 (np_max lat_ex)); [done|lra].
Qed.

(** The SRTM route: [srtm_zone] is called, and the first tile download
    is a call with a missing argument. *)
Lemma topo_tiles_block_srtm (lon_ex lat_ex : range) (source : source_arg)
    (w : world) :
  source = SrcNone \/ source = SrcStr "SRTM" ->
  (-60 <= np_min lat_ex)%Q -> (np_max lat_ex <= 60)%Q ->
  topo_tiles_block lon_ex lat_ex source w =
  (match srtm_zone lon_ex lat_ex with
   | Ok [] => Ok (SrcStr "SRTM", Some ([], [], "SRTM"))
   | Ok (_ :: _) => Err TypeError
   | Err e => Err e
   | OutOfFuel => OutOfFuel
   end, add_event (Call "srtm_zone") w).
Proof.
  intros Hsrc Hmin Hmax. unfold topo_tiles_block.
  rewrite (within_60_tests _ Hmin Hmax).
  destruct Hsrc as [-> | ->]; simpl;
    unfold bind, log, lift, ret; simpl;
    by destruct (srtm_zone lon_ex lat_ex) as [[|z zs]| |].
Qed.

(** The DEM3 route. *)
Lemma topo_tiles_block_dem3 (lon_ex lat_ex : range) (source : source_arg)
    (w : world) :
  source = SrcStr "DEM3" \/
  (source = SrcNone /\
   ((np_min lat_ex < -60)%Q \/ (60 < np_max lat_ex)%Q)) ->
  topo_tiles_block lon_ex lat_ex source w =
  (match dem3_viewpano_zone lon_ex lat_ex DEM3REG with
   | [] => Ok (SrcStr "DEM3", Some ([], [], "DEM3"))
   | _ :: _ => Err TypeError
   end, add_event (Call "dem3_viewpano_zone") w).
Proof.
  intros Hsrc. unfold topo_tiles_block.
  destruct Hsrc as [-> | [-> Hout]].
  - simpl. rewrite orb_true_r. simpl.
    unfold bind, log, ret; simpl.
    by destruct (dem3_viewpano_zone lon_ex lat_ex DEM3REG).
  - rewrite (outside_60_tests _ Hout). simpl.
    unfold bind, log, ret; simpl.
    by destruct (dem3_viewpano_zone lon_ex lat_ex DEM3REG).
Qed.

(** The ASTER route: [aster_zone] is called, and the first tile download
    fails inside [_download_aster_file]. *)
Lemma topo_tiles_block_aster (lon_ex lat_ex : range) (w : world) :
  topo_tiles_block lon_ex lat_ex (SrcStr "ASTER") w =
  match zip (fst (aster_zone lon_ex lat_ex)) (snd (aster_zone lon_ex lat_ex)) with
  | [] => (Ok (SrcStr "ASTER",
               Some (fst (aster_zone lon_ex lat_ex), [], "ASTER")),
           add_event (Call "aster_zone") w)
  | _ :: _ => (Err TypeError,
               add_event (Call "_download_aster_file")
                 (add_event (Call "aster_zone") w))
  end.
Proof.
  unfold topo_tiles_block. simpl. rewrite orb_true_r. simpl.
  unfold bind, log, ret. simpl.
  destruct (aster_zone lon_ex lat_ex) as [zones units]. simpl.
  by destruct (zip zones units).
Qed.

(** Sources for which no branch of the tile block assigns [sources]. *)
Lemma topo_tiles_block_unassigned (lon_ex lat_ex : range)
    (source : source_arg) (w : world) :
  (exists l, source = SrcList l) \/
  (source = SrcStr "SRTM" /\
   ((np_min lat_ex < -60)%Q \/ (60 < np_max lat_ex)%Q)) ->
  topo_tiles_block lon_ex lat_ex source w = (Ok (source, None), w).
Proof.
  intros [[l ->]|[-> Hout]]; unfold topo_tiles_block.
  - simpl. rewrite !orb_false_r.
    by destruct (_ || _).
  - by rewrite (outside_60_tests _ Hout).
Qed.

Lemma srtm_zone_nonempty (lon_ran lat_ran : range) (zones : list string) :
  srtm_zone lon_ran lat_ran = Ok zones -> zones <> [].
Proof.
  intros Hz.
  destruct (Qlt_le_dec (np_max lat_ran) 60) as [Hlt|Hge];
    [|by rewrite srtm_zone_from_60 in Hz].
  rewrite (srtm_zone_below_60 _ _ Hlt) in Hz. injection Hz as <-.
  pose proof (srtm_samples_nonempty lon_ran) as Hlon.
  pose proof (srtm_samples_nonempty lat_ran) as Hlat.
  destruct (srtm_samples lon_ran) as [|lon lons]; [done|].
  destruct (srtm_samples lat_ran) as [|lat lats]; [done|].
  intros Hnil.
  apply (elem_of_nil (srtm_point lon lat)). rewrite <- Hnil.
  apply elem_of_py_sorted_set. simpl. set_solver.
Qed.

Lemma get_topo_file_not_list (lon_ex lat_ex : range) (rgi_region : option Z)
    (source : source_arg) (w : world) :
  (forall l, source <> SrcList l) ->
  get_topo_file lon_ex lat_ex rgi_region source w =
  get_topo_file_body lon_ex lat_ex rgi_region source w.
Proof. intros Hs. unfold get_topo_file. by destruct source; [..|destruct (Hs l)]. Qed.

Lemma get_topo_file_srtm_route (lon_ex lat_ex : range)
    (rgi_region : option Z) (source : source_arg) (w : world)
    (topodir : string) :
  PATHS w !! "topo_dir" = Some topodir ->
  srtm_default w rgi_region source ->
  (-60 <= np_min lat_ex)%Q -> (np_max lat_ex <= 60)%Q ->
  get_topo_file lon_ex lat_ex rgi_region source w =
  (match srtm_zone lon_ex lat_ex with
   | Ok _ => Err TypeError
   | Err e => Err e
   | OutOfFuel => OutOfFuel
   end, add_event (Call "srtm_zone") w).
Proof.
  intros Htopo Hsrc Hmin Hmax.
  rewrite get_topo_file_not_list by (by destruct Hsrc as [->|[-> _]]).
  rewrite (get_topo_file_body_tiles _ _ _ _ _ topodir Htopo)
    by (destruct Hsrc as [->|[-> ?]]; [by left|by right]).
  unfold bind. rewrite topo_tiles_block_srtm;
    [|by destruct Hsrc as [->|[-> _]]; [right|left]|done..].
  pose proof (srtm_zone_nonempty lon_ex lat_ex) as Hne.
  destruct (srtm_zone lon_ex lat_ex) as [[|z zs]| |]; [|done..].
  by destruct (Hne [] eq_refl).
Qed.

Lemma dem3_viewpano_zone_route (lon_ex lat_ex : range)
    (rgi_region : option Z) (source : source_arg) (w : world)
    (topodir : string) :
  PATHS w !! "topo_dir" = Some topodir ->
  source = SrcStr "DEM3" \/
  (source = SrcNone /\ user_dem w = false /\
   region_is rgi_region 5 = false /\ region_is rgi_region 19 = false /\
   ((np_min lat_ex < -60)%Q \/ (60 < np_max lat_ex)%Q)) ->
  snd (get_topo_file lon_ex lat_ex rgi_region source w) =
  add_event (Call "dem3_viewpano_zone") w.
Proof.
  intros Htopo Hsrc.
  rewrite get_topo_file_not_list by (by destruct Hsrc as [->|[-> _]]).
  rewrite (get_topo_file_body_tiles _ _ _ _ _ topodir Htopo)
    by (destruct Hsrc as [->|(-> & ? & ? & ? & ?)]; [by left|by right]).
  unfold bind. rewrite topo_tiles_block_dem3
    by (destruct Hsrc as [->|(-> & ? & ? & ? & ?)]; [by left|by right]).
  by destruct (dem3_viewpano_zone lon_ex lat_ex DEM3REG).
Qed.

Lemma aster_zone_route (lon_ex lat_ex : range) (rgi_region : option Z)
    (w : world) (topodir : string) :
  PATHS w !! "topo_dir" = Some topodir ->
  indexer_calls
    (trace (snd (get_topo_file lon_ex lat_ex rgi_region (SrcStr "ASTER") w)))
  = "aster_zone" :: indexer_calls (trace w).
Proof.
  intros Htopo. rewrite get_topo_file_not_list by done.
  rewrite (get_topo_file_body_tiles _ _ _ _ _ topodir Htopo) by (by left).
  unfold bind. rewrite topo_tiles_block_aster.
  by destruct (zip _ _).
Qed.

(** C2. Source selection of [get_topo_file] (with ['topo_dir']
    configured).  With no explicit source, no region hint and no user DEM
    file, an extent within 60 degrees of the equator is indexed by
    [srtm_zone] and an extent reaching beyond by [dem3_viewpano_zone];
    an explicit DEM3 request is indexed by [dem3_viewpano_zone] and an
    explicit ASTER request by [aster_zone], whatever the extent, the
    region hint and the user DEM.  In each case that indexer is the only
    one called. *)
Theorem get_topo_file_selection (w : world) (lon_ex lat_ex : range)
    (topodir : string) :
  PATHS w !! "topo_dir" = Some topodir ->
  let called rgi_region source :=
    indexer_calls
      (trace (snd (get_topo_file lon_ex lat_ex rgi_region source w))) in
  (user_dem w = false ->
   (-60 <= np_min lat_ex)%Q -> (np_max lat_ex <= 60)%Q ->
   called None SrcNone = "srtm_zone" :: indexer_calls (trace w)) /\
  (user_dem w = false ->
   (np_min lat_ex < -60)%Q \/ (60 < np_max lat_ex)%Q ->
   called None SrcNone = "dem3_viewpano_zone" :: indexer_calls (trace w)) /\
  (forall rgi_region,
     called rgi_region (SrcStr "DEM3")
     = "dem3_viewpano_zone" :: indexer_calls (trace w)) /\
  (forall rgi_region,
     called rgi_region (SrcStr "ASTER")
     = "aster_zone" :: indexer_calls (trace w)).
Proof.
  intros Htopo called. subst called. cbv beta. repeat split.
  - intros Huser Hmin Hmax.
    by rewrite (get_topo_file_srtm_route _ _ _ _ _ topodir Htopo)
      by (done || by right).
  - intros Huser Hout.
    by rewrite (dem3_viewpano_zone_route _ _ _ _ _ topodir Htopo)
      by (by right).
  - intros rgi_region.
    by rewrite (dem3_viewpano_zone_route _ _ _ _ _ topodir Htopo)
      by (by left).
  - intros rgi_region. by apply (aster_zone_route _ _ _ _ topodir).
Qed.

(** Witness for C2, in the world [w_plain]. *)
Lemma get_topo_file_selection_witness :
  indexer_calls (trace (snd (get_topo_file (10, 12)%Q (46, 47)%Q None
                               SrcNone w_plain))) = ["srtm_zone"] /\
  indexer_calls (trace (snd (get_topo_file (10, 12)%Q (59, 61)%Q None
                               SrcNone w_plain))) = ["dem3_viewpano_zone"] /\
  indexer_calls (trace (snd (get_topo_file (10, 12)%Q (46, 47)%Q (Some 5%Z)
                               (SrcStr "DEM3") w_plain)))
    = ["dem3_viewpano_zone"] /\
  indexer_calls (trace (snd (get_topo_file (10, 12)%Q (46, 47)%Q None
                               (SrcStr "ASTER") w_plain))) = ["aster_zone"].
Proof.
  pose proof (get_topo_file_selection w_plain (10, 12)%Q (46, 47)%Q "/topo"
                eq_refl) as (H1 & _ & H3 & H4).
  pose proof (get_topo_file_selection w_plain (10, 12)%Q (59, 61)%Q "/topo"
                eq_refl) as (_ & H2 & _).
  split; [|split; [|split]].
  - apply H1; [reflexivity|vm_compute; discriminate..].
  - apply H2; [reflexivity|]. right. reflexivity.
  - apply H3.
  - apply H4.
Defined.

(** C9. [srtm_zone] raises [AssertionError] as soon as one sampled
    latitude is 60 or more; and [get_topo_file] sends an extent whose
    maximum latitude is exactly 60 (and whose minimum is not below -60)
    to [srtm_zone], by default or on an explicit SRTM request, so that
    the resolution ends in that [AssertionError]. *)
Theorem srtm_zone_rejects_60 :
  (forall lon_ran lat_ran : range,
     (exists lat, lat ∈ srtm_samples lat_ran /\ (60 <= lat)%Q) ->
     srtm_zone lon_ran lat_ran = Err AssertionError) /\
  (forall (w : world) (lon_ex lat_ex : range) (rgi_region : option Z)
          (source : source_arg) (topodir : string),
     PATHS w !! "topo_dir" = Some topodir ->
     srtm_default w rgi_region source ->
     (-60 <= np_min lat_ex)%Q -> (np_max lat_ex == 60)%Q ->
     get_topo_file lon_ex lat_ex rgi_region source w
     = (Err AssertionError, add_event (Call "srtm_zone") w)).
Proof.
  split.
  - intros lon_ran lat_ran (lat & [_ Hle]%srtm_samples_bounds & Hge).
    apply srtm_zone_from_60. lra.
  - intros w lon_ex lat_ex rgi_region source topodir Htopo Hsrc Hmin Hmax.
    rewrite (get_topo_file_srtm_route _ _ _ _ _ topodir Htopo Hsrc Hmin)
      by lra.
    by rewrite srtm_zone_from_60 by lra.
Qed.

(** Witness for C9: lon [10,12], lat [55,60]. *)
Lemma srtm_zone_rejects_60_witness :
  srtm_zone (10, 12)%Q (55, 60)%Q = Err AssertionError /\
  get_topo_file (10, 12)%Q (55, 60)%Q None SrcNone w_plain
  = (Err AssertionError, add_event (Call "srtm_zone") w_plain).
Proof.
  destruct srtm_zone_rejects_60 as [H1 H2]. split.
  - apply H1. exists 60%Q. split; [|vm_compute; discriminate].
    apply (srtm_samples_max (55, 60)%Q).
  - apply (H2 w_plain _ _ None SrcNone "/topo");
      [reflexivity|right; repeat split|vm_compute; discriminate|reflexivity].
Defined.

Lemma topo_final_block_unassigned (topodir : string) (source : source_arg)
    (w : world) :
  src_eq source "ETOPO1" = false ->
  topo_final_block topodir source None w = (Err UnboundLocalError, w).
Proof. intros H. unfold topo_final_block. by rewrite H. Qed.

(** C10. [get_topo_file] ends in [UnboundLocalError] (the local
    [sources] is read before any assignment) when [source] is a list
    whose loop falls through without returning, the empty list for one,
    and when [source] is ["SRTM"] for an extent reaching beyond 60
    degrees of latitude. *)
Theorem get_topo_file_unbound_sources (lon_ex lat_ex : range)
    (rgi_region : option Z) (topodir : string) :
  (forall (l : list string) (w w' : world),
     get_topo_file_each lon_ex lat_ex rgi_region l w = (Ok None, w') ->
     PATHS w' !! "topo_dir" = Some topodir ->
     get_topo_file lon_ex lat_ex rgi_region (SrcList l) w
     = (Err UnboundLocalError, w')) /\
  (forall w : world,
     PATHS w !! "topo_dir" = Some topodir ->
     get_topo_file lon_ex lat_ex rgi_region (SrcList []) w
     = (Err UnboundLocalError, w)) /\
  (forall w : world,
     PATHS w !! "topo_dir" = Some topodir ->
     (np_min lat_ex < -60)%Q \/ (60 < np_max lat_ex)%Q ->
     get_topo_file lon_ex lat_ex rgi_region (SrcStr "SRTM") w
     = (Err UnboundLocalError, w)).
Proof.
  assert (Hlist : forall (l : list string) (w w' : world),
     get_topo_file_each lon_ex lat_ex rgi_region l w = (Ok None, w') ->
     PATHS w' !! "topo_dir" = Some topodir ->
     get_topo_file lon_ex lat_ex rgi_region (SrcList l) w
     = (Err UnboundLocalError, w')).
  { intros l w w' Hloop Htopo. unfold get_topo_file.
    rewrite (bind_ok _ _ _ _ _ Hloop).
    rewrite (get_topo_file_body_tiles _ _ _ _ _ topodir Htopo) by (by left).
    unfold bind. rewrite topo_tiles_block_unassigned by (left; by exists l).
    by apply topo_final_block_unassigned. }
  split; [exact Hlist|split].
  - intros w Htopo. by apply Hlist.
  - intros w Htopo Hout. rewrite get_topo_file_not_list by done.
    rewrite (get_topo_file_body_tiles _ _ _ _ _ topodir Htopo) by (by left).
    unfold bind. rewrite topo_tiles_block_unassigned by (by right).
    by apply topo_final_block_unassigned.
Qed.

(** Witness for C10, in the world [w_plain]. *)
Lemma get_topo_file_unbound_sources_witness :
  get_topo_file (10, 12)%Q (46, 47)%Q None (SrcList []) w_plain
  = (Err UnboundLocalError, w_plain) /\
  get_topo_file (10, 12)%Q (59, 61)%Q None (SrcStr "SRTM") w_plain
  = (Err UnboundLocalError, w_plain).
Proof.
  split.
  - apply (proj1 (get_topo_file_unbound_sources (10, 12)%Q (46, 47)%Q None
                    "/topo") [] w_plain w_plain); reflexivity.
  - apply (proj2 (proj2 (get_topo_file_unbound_sources (10, 12)%Q
                           (59, 61)%Q None "/topo")) w_plain);
      [reflexivity|right; reflexivity].
Defined.

(** On the code as it is, whatever the cache holds and whatever the
    server answers, the default resolution of an extent below 60 degrees
    north stops at the first tile with [TypeError]: [get_topo_file] calls
    [download_srtm_file(z)] without the [outdir] argument that the
    function requires.  No tile is looked up. *)
Lemma get_topo_file_srtm_type_error (w : world) (lon_ex lat_ex : range)
    (rgi_region : option Z) (source : source_arg) (topodir : string) :
  PATHS w !! "topo_dir" = Some topodir ->
  srtm_default w rgi_region source ->
  (-60 <= np_min lat_ex)%Q -> (np_max lat_ex < 60)%Q ->
  get_topo_file lon_ex lat_ex rgi_region source w
  = (Err TypeError, add_event (Call "srtm_zone") w).
Proof.
  intros Htopo Hsrc Hmin Hmax.
  rewrite (get_topo_file_srtm_route _ _ _ _ _ topodir Htopo Hsrc Hmin) by lra.
  by rewrite srtm_zone_below_60.
Qed.

(** ** The retry loop of the tile downloads *)

Section Attempt.
Variables (ifile ofile outdir : string) (retry_max : nat).
Variable too_short : option (M (nat * flow (option string))).
Variables (retry_counter : nat) (w : world).

Let attempt := download_attempt ifile ofile outdir retry_max too_short.

Lemma attempt_5xx code :
  server w (requests w) ifile = HttpFailure code -> is_5xx code ->
  (S retry_counter <= retry_max)%nat ->
  attempt retry_counter w
  = (Ok (S retry_counter, Continue), retried ifile ofile w).
Proof.
  intros Hresp [Hlo Hhi] Hrc.
  unfold attempt, download_attempt, try_except, bind, progress_urlretrieve,
    _urlretrieve. rewrite Hresp.
  replace (code =? 404)%Z with false by lia.
  replace (500 <=? code)%Z with true by lia.
  replace (code <? 600)%Z with true by lia.
  by replace (S retry_counter <=? retry_max)%nat with true
    by (symmetry; by apply Nat.leb_le).
Qed.

Lemma attempt_5xx_exhausted code :
  server w (requests w) ifile = HttpFailure code -> is_5xx code ->
  (retry_max < S retry_counter)%nat ->
  attempt retry_counter w
  = (Err (HTTPError code), fetch_failed ifile ofile w).
Proof.
  intros Hresp [Hlo Hhi] Hrc.
  unfold attempt, download_attempt, try_except, bind, progress_urlretrieve,
    _urlretrieve. rewrite Hresp.
  replace (code =? 404)%Z with false by lia.
  replace (S retry_counter <=? retry_max)%nat with false
    by (symmetry; by apply Nat.leb_gt).
  by rewrite andb_false_r.
Qed.

Lemma attempt_404 :
  server w (requests w) ifile = HttpFailure 404 ->
  attempt retry_counter w
  = (Ok (S retry_counter, Return None), fetch_failed ifile ofile w).
Proof.
  intros Hresp.
  unfold attempt, download_attempt, try_except, bind, progress_urlretrieve,
    _urlretrieve. by rewrite Hresp.
Qed.

Lemma attempt_corrupt :
  server w (requests w) ifile = Served Blob ->
  attempt retry_counter w
  = (Ok (S retry_counter, Return None), fetch_served ifile ofile Blob w).
Proof.
  intros Hresp.
  unfold attempt, download_attempt, try_except, bind, progress_urlretrieve,
    _urlretrieve, zip_extractall. rewrite Hresp. simpl.
  by rewrite lookup_insert_eq.
Qed.
End Attempt.

Lemma retried_requests (url ofile : string) (n : nat) (w : world) :
  requests (Nat.iter n (retried url ofile) w) = (requests w + n)%nat.
Proof. induction n as [|n IH]; simpl; [lia|]. rewrite IH. lia. Qed.

Lemma retried_server (url ofile : string) (n : nat) (w : world) :
  server (Nat.iter n (retried url ofile) w) = server w.
Proof. induction n as [|n IH]; simpl; [done|]. by rewrite IH. Qed.

(** [n] transient failures in a row, within the retry budget, are [n]
    passes through the loop, each followed by a ten-second sleep. *)
Lemma download_loop_retries (ifile ofile outdir : string) (retry_max : nat)
    (too_short : option (M (nat * flow (option string))))
    (n fuel retry_counter : nat) (w : world) :
  (retry_counter + n <= retry_max)%nat ->
  (forall i, (i < n)%nat ->
     exists code,
       server w (requests w + i) ifile = HttpFailure code /\ is_5xx code) ->
  while_true (n + fuel)
    (download_attempt ifile ofile outdir retry_max too_short) retry_counter w
  = while_true fuel
      (download_attempt ifile ofile outdir retry_max too_short)
      (retry_counter + n) (Nat.iter n (retried ifile ofile) w).
Proof.
  revert retry_counter w.
  induction n as [|n IH]; intros retry_counter w Hrc Hresp.
  - by rewrite Nat.add_0_r.
  - destruct (Hresp O ltac:(lia)) as (code & Hcode & H5).
    rewrite Nat.add_0_r in Hcode.
    cbn [Nat.add while_true].
    rewrite (bind_ok _ _ _ _ _
               (attempt_5xx ifile ofile outdir retry_max too_short
                  retry_counter w code Hcode H5 ltac:(lia))).
    cbn [fst snd]. rewrite IH.
    + rewrite Nat.iter_succ_r. f_equal. lia.
    + lia.
    + intros i Hi. destruct (Hresp (S i) ltac:(lia)) as (c & Hc & Hc5).
      exists c. split; [|done]. simpl.
      by replace (S (requests w + i)) with (requests w + S i)%nat by lia.
Qed.

Lemma path_exists_absent (p : string) (w : world) :
  fs w !! p = None -> path_exists p w = (Ok false, w).
Proof. intros H. unfold path_exists. by rewrite H. Qed.

Lemma path_exists_present (p : string) (w : world) :
  is_Some (fs w !! p) -> path_exists p w = (Ok true, w).
Proof. intros H. unfold path_exists. by rewrite bool_decide_eq_true_2. Qed.

(** Six transient failures in a row exhaust the loop: six requests, five
    sleeps of ten seconds, then the last [HTTPError] is re-raised. *)
Lemma download_loop_exhausted (ifile ofile outdir : string)
    (too_short : option (M (nat * flow (option string))))
    (fuel : nat) (w : world) (codes : nat -> Z) :
  (6 <= fuel)%nat ->
  (forall i, (i < 6)%nat ->
     server w (requests w + i) ifile = HttpFailure (codes i) /\
     is_5xx (codes i)) ->
  download_loop fuel ifile ofile outdir 5 too_short w
  = (Err (HTTPError (codes 5%nat)),
     fetch_failed ifile ofile (Nat.iter 5 (retried ifile ofile) w)).
Proof.
  intros Hfuel Hresp. unfold download_loop.
  replace fuel with (5 + S (fuel - 6))%nat by lia.
  rewrite download_loop_retries; [|lia|].
  - cbn [while_true Nat.add].
    destruct (Hresp 5%nat ltac:(lia)) as [Hc H5].
    rewrite (bind_err _ _ _ _ _
               (attempt_5xx_exhausted ifile ofile outdir 5 too_short 5 _
                  (codes 5%nat) ltac:(by rewrite retried_server, retried_requests)
                  H5 ltac:(lia))).
    done.
  - intros i Hi. exists (codes i). apply Hresp. lia.
Qed.

Lemma with_download_lock_run {A} (lock_dir : string) (body : M A) (w : world) :
  with_download_lock lock_dir body w =
  (fst (body (add_event (LockAcquire lock_dir) w)),
   add_event (LockRelease lock_dir)
     (snd (body (add_event (LockAcquire lock_dir) w)))).
Proof.
  unfold with_download_lock, get_download_lock, mkdir, bind, ret, log.
  by destruct (body _).
Qed.

Lemma srtm_unlocked_exhausted (fuel : nat) (zone outdir : string) (w : world)
    (codes : nat -> Z) :
  (6 <= fuel)%nat ->
  fs w !! srtm_ofile zone outdir = None ->
  (forall i, (i < 6)%nat ->
     server w (requests w + i) (srtm_ifile zone) = HttpFailure (codes i) /\
     is_5xx (codes i)) ->
  _download_srtm_file_unlocked fuel zone outdir 5 w
  = (Err (HTTPError (codes 5%nat)),
     fetch_failed (srtm_ifile zone) (srtm_ofile zone outdir)
       (Nat.iter 5 (retried (srtm_ifile zone) (srtm_ofile zone outdir)) w)).
Proof.
  intros Hfuel Hzip Hresp. unfold _download_srtm_file_unlocked, mkdir.
  rewrite (bind_ok _ _ w w tt) by done.
  rewrite (bind_ok _ _ _ _ _ (path_exists_absent _ _ Hzip)). cbn [negb].
  by rewrite (bind_err _ _ _ _ _
                (download_loop_exhausted _ _ _ _ fuel w codes Hfuel Hresp)).
Qed.

Lemma dem3_unlocked_exhausted (fuel : nat) (zone outdir : string) (w : world)
    (codes : nat -> Z) :
  (6 <= fuel)%nat ->
  fs w !! dem3_outpath zone outdir = None ->
  fs w !! dem3_ofile zone outdir = None ->
  (forall i, (i < 6)%nat ->
     server w (requests w + i) (dem3_ifile zone) = HttpFailure (codes i) /\
     is_5xx (codes i)) ->
  _download_dem3_viewpano_unlocked fuel zone outdir w
  = (Err (HTTPError (codes 5%nat)),
     fetch_failed (dem3_ifile zone) (dem3_ofile zone outdir)
       (Nat.iter 5 (retried (dem3_ifile zone) (dem3_ofile zone outdir)) w)).
Proof.
  intros Hfuel Htif Hzip Hresp. unfold _download_dem3_viewpano_unlocked, mkdir.
  rewrite (bind_ok _ _ w w tt) by done.
  rewrite (bind_ok _ _ _ _ _ (path_exists_absent _ _ Htif)).
  rewrite (bind_ok _ _ _ _ _ (path_exists_absent _ _ Hzip)). cbn [negb].
  by rewrite (bind_err _ _ _ _ _
                (download_loop_exhausted _ _ _ _ fuel w codes Hfuel Hresp)).
Qed.

(** C3. A tile download whose requests keep failing with a status in
    [500,600) is retried five times, ten seconds after each failure; the
    failure of the fifth retry (the sixth request) is re-raised to the
    caller as the [HTTPError] it is: no further request, no absence.
    The cache is left as it was.  This holds for the SRTM and for the
    DEM3 download. *)
Theorem download_retry_bound (fuel : nat) (zone outdir : string) (w : world)
    (codes : nat -> Z) :
  (6 <= fuel)%nat ->
  (forall i, (i < 6)%nat -> is_5xx (codes i)) ->
  (fs w !! srtm_ofile zone outdir = None ->
   (forall i, (i < 6)%nat ->
      server w (requests w + i) (srtm_ifile zone) = HttpFailure (codes i)) ->
   exists w',
     download_srtm_file fuel zone outdir w
     = (Err (HTTPError (codes 5%nat)), w') /\
     trace w' = LockRelease outdir :: exhausted_trace (srtm_ifile zone)
                  ++ LockAcquire outdir :: trace w /\
     requests w' = (requests w + 6)%nat /\ fs w' = fs w) /\
  (fs w !! dem3_outpath zone outdir = None ->
   fs w !! dem3_ofile zone outdir = None ->
   (forall i, (i < 6)%nat ->
      server w (requests w + i) (dem3_ifile zone) = HttpFailure (codes i)) ->
   exists w',
     download_dem3_viewpano fuel zone outdir w
     = (Err (HTTPError (codes 5%nat)), w') /\
     trace w' = LockRelease outdir :: exhausted_trace (dem3_ifile zone)
                  ++ LockAcquire outdir :: trace w /\
     requests w' = (requests w + 6)%nat /\ fs w' = fs w).
Proof.
  intros Hfuel H5. split.
  - intros Hzip Hresp. eexists. unfold download_srtm_file.
    rewrite with_download_lock_run.
    rewrite (srtm_unlocked_exhausted fuel zone outdir _ codes Hfuel)
      by (done || (intros i Hi; split; [by apply Hresp|by apply H5])).
    split; [done|]. split; [done|]. split; [simpl; lia|].
    simpl. by rewrite !(delete_id (fs w) _ Hzip).
  - intros Htif Hzip Hresp. eexists. unfold download_dem3_viewpano.
    rewrite with_download_lock_run.
    rewrite (dem3_unlocked_exhausted fuel zone outdir _ codes Hfuel)
      by (done || (intros i Hi; split; [by apply Hresp|by apply H5])).
    split; [done|]. split; [done|]. split; [simpl; lia|].
    simpl. by rewrite !(delete_id (fs w) _ Hzip).
Qed.

Example download_srtm_file_served :
  fst (download_srtm_file 6 "38_03" "/topo/srtm" w_serving)
  = Ok (Some "/topo/srtm/srtm_38_03.tif").
Proof. by vm_compute. Qed.

Example download_dem3_viewpano_served :
  fst (download_dem3_viewpano 6 "R01" "/topo/dem3" w_serving)
  = Ok (Some "/topo/dem3/R01.tif").
Proof. by vm_compute. Qed.

Example download_dem3_viewpano_trace :
  trace (snd (download_dem3_viewpano 6 "R01" "/topo/dem3" w_serving))
  = [LockRelease "/topo/dem3";
     RasterMerge ["/topo/dem3/R01/N68W179.hgt"; "/topo/dem3/R01/N68W180.hgt"]
       "/topo/dem3/R01.tif";
     Fetch "http://viewfinderpanoramas.org/dem3/R01.zip";
     LockAcquire "/topo/dem3"].
Proof. by vm_compute. Qed.

(** Witness for C3: an overloaded server, tile 38_03 and zone R01. *)
Lemma download_retry_bound_witness :
  (exists w',
     download_srtm_file 6 "38_03" "/topo/srtm" w_overload
     = (Err (HTTPError 503), w') /\
     trace w' = LockRelease "/topo/srtm" :: exhausted_trace (srtm_ifile "38_03")
                  ++ [LockAcquire "/topo/srtm"] /\
     requests w' = 6%nat /\ fs w' = ∅) /\
  (exists w',
     download_dem3_viewpano 6 "R01" "/topo/dem3" w_overload
     = (Err (HTTPError 503), w') /\
     trace w' = LockRelease "/topo/dem3" :: exhausted_trace (dem3_ifile "R01")
                  ++ [LockAcquire "/topo/dem3"] /\
     requests w' = 6%nat /\ fs w' = ∅).
Proof.
  assert (H5 : forall i : nat, (i < 6)%nat -> is_5xx ((fun _ => 503%Z) i))
    by (intros; unfold is_5xx; lia).
  split.
  - apply (proj1 (download_retry_bound 6 "38_03" "/topo/srtm" w_overload
                    (fun _ => 503%Z) (le_n 6) H5)).
    + reflexivity.
    + intros i _. reflexivity.
  - apply (proj2 (download_retry_bound 6 "R01" "/topo/dem3" w_overload
                    (fun _ => 503%Z) (le_n 6) H5)).
    + reflexivity.
    + reflexivity.
    + intros i _. reflexivity.
Defined.

(** ** Not found, and corrupt archives *)

Lemma download_loop_404 (ifile ofile outdir : string) (retry_max : nat)
    (too_short : option (M (nat * flow (option string))))
    (n fuel : nat) (w : world) :
  (n <= retry_max)%nat -> (n < fuel)%nat ->
  (forall i, (i < n)%nat ->
     exists code,
       server w (requests w + i) ifile = HttpFailure code /\ is_5xx code) ->
  server w (requests w + n) ifile = HttpFailure 404 ->
  download_loop fuel ifile ofile outdir retry_max too_short w
  = (Ok (Some None),
     fetch_failed ifile ofile (Nat.iter n (retried ifile ofile) w)).
Proof.
  intros Hn Hfuel Hresp H404. unfold download_loop.
  replace fuel with (n + S (fuel - n - 1))%nat by lia.
  rewrite download_loop_retries by (done || lia).
  cbn [while_true Nat.add].
  assert (Hn404 :
    server (Nat.iter n (retried ifile ofile) w)
      (requests (Nat.iter n (retried ifile ofile) w)) ifile = HttpFailure 404)
    by (by rewrite retried_server, retried_requests).
  by rewrite (bind_ok _ _ _ _ _
                (attempt_404 ifile ofile outdir retry_max too_short n _ Hn404)).
Qed.

Lemma srtm_unlocked_404 (fuel n : nat) (zone outdir : string) (w : world) :
  (n <= 5)%nat -> (n < fuel)%nat ->
  fs w !! srtm_ofile zone outdir = None ->
  (forall i, (i < n)%nat ->
     exists code, server w (requests w + i) (srtm_ifile zone)
                  = HttpFailure code /\ is_5xx code) ->
  server w (requests w + n) (srtm_ifile zone) = HttpFailure 404 ->
  fst (_download_srtm_file_unlocked fuel zone outdir 5 w) = Ok None.
Proof.
  intros Hn Hfuel Hzip Hresp H404.
  unfold _download_srtm_file_unlocked, mkdir.
  rewrite (bind_ok _ _ _ _ tt) by done.
  rewrite (bind_ok _ _ _ _ _ (path_exists_absent _ _ Hzip)). cbn [negb].
  by rewrite (bind_ok _ _ _ _ _
                (download_loop_404 _ _ _ _ _ n fuel _ Hn Hfuel Hresp H404)).
Qed.

Lemma dem3_unlocked_404 (fuel n : nat) (zone outdir : string) (w : world) :
  (n <= 5)%nat -> (n < fuel)%nat ->
  fs w !! dem3_outpath zone outdir = None ->
  fs w !! dem3_ofile zone outdir = None ->
  (forall i, (i < n)%nat ->
     exists code, server w (requests w + i) (dem3_ifile zone)
                  = HttpFailure code /\ is_5xx code) ->
  server w (requests w + n) (dem3_ifile zone) = HttpFailure 404 ->
  fst (_download_dem3_viewpano_unlocked fuel zone outdir w) = Ok None.
Proof.
  intros Hn Hfuel Htif Hzip Hresp H404.
  unfold _download_dem3_viewpano_unlocked, mkdir.
  rewrite (bind_ok _ _ _ _ tt) by done.
  rewrite (bind_ok _ _ _ _ _ (path_exists_absent _ _ Htif)).
  rewrite (bind_ok _ _ _ _ _ (path_exists_absent _ _ Hzip)). cbn [negb].
  by rewrite (bind_ok _ _ _ _ _
                (download_loop_404 _ _ _ _ _ n fuel _ Hn Hfuel Hresp H404)).
Qed.

(** C1, first half: when the request for a tile is answered "not found",
    straight away or after up to five retried transient failures, the
    download returns [None] and raises nothing. *)
Lemma download_not_found_is_absence (fuel n : nat) (zone outdir : string)
    (w : world) :
  (n <= 5)%nat -> (n < fuel)%nat ->
  (fs w !! srtm_ofile zone outdir = None ->
   (forall i, (i < n)%nat ->
      exists code, server w (requests w + i) (srtm_ifile zone)
                   = HttpFailure code /\ is_5xx code) ->
   server w (requests w + n) (srtm_ifile zone) = HttpFailure 404 ->
   fst (download_srtm_file fuel zone outdir w) = Ok None) /\
  (fs w !! dem3_outpath zone outdir = None ->
   fs w !! dem3_ofile zone outdir = None ->
   (forall i, (i < n)%nat ->
      exists code, server w (requests w + i) (dem3_ifile zone)
                   = HttpFailure code /\ is_5xx code) ->
   server w (requests w + n) (dem3_ifile zone) = HttpFailure 404 ->
   fst (download_dem3_viewpano fuel zone outdir w) = Ok None).
Proof.
  intros Hn Hfuel. split.
  - intros Hzip Hresp H404. unfold download_srtm_file.
    rewrite with_download_lock_run. cbn [fst].
    by apply (srtm_unlocked_404 fuel n).
  - intros Htif Hzip Hresp H404. unfold download_dem3_viewpano.
    rewrite with_download_lock_run. cbn [fst].
    by apply (dem3_unlocked_404 fuel n).
Qed.

Lemma download_loop_corrupt (ifile ofile outdir : string) (retry_max : nat)
    (too_short : option (M (nat * flow (option string))))
    (fuel : nat) (w : world) :
  (1 <= fuel)%nat ->
  server w (requests w) ifile = Served Blob ->
  download_loop fuel ifile ofile outdir retry_max too_short w
  = (Ok (Some None), fetch_served ifile ofile Blob w).
Proof.
  intros Hfuel Hresp. unfold download_loop.
  destruct fuel as [|fuel]; [lia|]. cbn [while_true].
  by rewrite (bind_ok _ _ _ _ _
                (attempt_corrupt ifile ofile outdir retry_max too_short
                   O w Hresp)).
Qed.

Lemma srtm_unlocked_corrupt (fuel : nat) (zone outdir : string) (w : world) :
  (1 <= fuel)%nat ->
  fs w !! srtm_ofile zone outdir = None ->
  server w (requests w) (srtm_ifile zone) = Served Blob ->
  _download_srtm_file_unlocked fuel zone outdir 5 w
  = (Ok None, fetch_served (srtm_ifile zone) (srtm_ofile zone outdir) Blob w).
Proof.
  intros Hfuel Hzip Hresp. unfold _download_srtm_file_unlocked, mkdir.
  rewrite (bind_ok _ _ _ _ tt) by done.
  rewrite (bind_ok _ _ _ _ _ (path_exists_absent _ _ Hzip)). cbn [negb].
  by rewrite (bind_ok _ _ _ _ _
                (download_loop_corrupt _ _ _ _ _ fuel _ Hfuel Hresp)).
Qed.

Lemma dem3_unlocked_corrupt (fuel : nat) (zone outdir : string) (w : world) :
  (1 <= fuel)%nat ->
  fs w !! dem3_outpath zone outdir = None ->
  fs w !! dem3_ofile zone outdir = None ->
  server w (requests w) (dem3_ifile zone) = Served Blob ->
  _download_dem3_viewpano_unlocked fuel zone outdir w
  = (Ok None, fetch_served (dem3_ifile zone) (dem3_ofile zone outdir) Blob w).
Proof.
  intros Hfuel Htif Hzip Hresp. unfold _download_dem3_viewpano_unlocked, mkdir.
  rewrite (bind_ok _ _ _ _ tt) by done.
  rewrite (bind_ok _ _ _ _ _ (path_exists_absent _ _ Htif)).
  rewrite (bind_ok _ _ _ _ _ (path_exists_absent _ _ Hzip)). cbn [negb].
  by rewrite (bind_ok _ _ _ _ _
                (download_loop_corrupt _ _ _ _ _ fuel _ Hfuel Hresp)).
Qed.

(** C8 (as amended). In the tile downloads a corrupt archive is taken for
    a missing tile: when the payload of the first request is not a zip
    archive, the SRTM and the DEM3 download return [None] after that
    single request, without fetching again and without raising; the
    payload stays in the cache.  The sample-data download is the one that
    fetches a second time after a corrupt archive, and lets the
    [BadZipfile] of a second corrupt archive propagate. *)
Theorem corrupt_archive_handling (fuel : nat) (zone outdir : string)
    (w : world) :
  (1 <= fuel)%nat ->
  (fs w !! srtm_ofile zone outdir = None ->
   server w (requests w) (srtm_ifile zone) = Served Blob ->
   download_srtm_file fuel zone outdir w
   = (Ok None,
      add_event (LockRelease outdir)
        (fetch_served (srtm_ifile zone) (srtm_ofile zone outdir) Blob
           (add_event (LockAcquire outdir) w)))) /\
  (fs w !! dem3_outpath zone outdir = None ->
   fs w !! dem3_ofile zone outdir = None ->
   server w (requests w) (dem3_ifile zone) = Served Blob ->
   download_dem3_viewpano fuel zone outdir w
   = (Ok None,
      add_event (LockRelease outdir)
        (fetch_served (dem3_ifile zone) (dem3_ofile zone outdir) Blob
           (add_event (LockAcquire outdir) w)))) /\
  (forall master_zip_url ofile odir,
     fs w !! ofile = None ->
     server w (requests w) master_zip_url = Served Blob ->
     server w (S (requests w)) master_zip_url = Served Blob ->
     gh_download_if_necessary master_zip_url ofile odir w
     = (Err BadZipfile,
        fetch_served master_zip_url ofile Blob
          (set_fs (delete ofile) (fetch_served master_zip_url ofile Blob w)))).
Proof.
  intros Hfuel. split; [|split].
  - intros Hzip Hresp. unfold download_srtm_file.
    rewrite with_download_lock_run.
    by rewrite (srtm_unlocked_corrupt fuel zone outdir
                  (add_event (LockAcquire outdir) w) Hfuel Hzip Hresp).
  - intros Htif Hzip Hresp. unfold download_dem3_viewpano.
    rewrite with_download_lock_run.
    by rewrite (dem3_unlocked_corrupt fuel zone outdir
                  (add_event (LockAcquire outdir) w) Hfuel Htif Hzip Hresp).
  - intros url ofile odir Hzip Hresp1 Hresp2.
    unfold gh_download_if_necessary.
    rewrite (bind_ok _ _ _ _ _ (path_exists_absent _ _ Hzip)). cbn [negb].
    unfold bind, try_except, progress_urlretrieve, _urlretrieve,
      zip_extractall, path_exists, os_remove, ret.
    rewrite Hresp1. simpl. rewrite lookup_insert_eq. simpl.
    rewrite lookup_insert_eq. rewrite bool_decide_eq_true_2 by done.
    simpl. rewrite Hresp2. simpl. by rewrite lookup_insert_eq.
Qed.

(** Witness for C8 (as amended): a server that only serves corrupt
    payloads. *)
Lemma corrupt_archive_handling_witness :
  fst (download_srtm_file 6 "38_03" "/topo/srtm" w_corrupt) = Ok None /\
  fst (download_dem3_viewpano 6 "R01" "/topo/dem3" w_corrupt) = Ok None /\
  fst (gh_download_if_necessary "https://github.com/OGGM/oggm-sample-data/archive/master.zip"
         "/cache/oggm-sample-data.zip" "/cache" w_corrupt) = Err BadZipfile.
Proof.
  pose proof (corrupt_archive_handling 6 "38_03" "/topo/srtm" w_corrupt
                ltac:(lia)) as (H1 & _ & H3).
  pose proof (corrupt_archive_handling 6 "R01" "/topo/dem3" w_corrupt
                ltac:(lia)) as (_ & H2 & _).
  split; [|split].
  - by rewrite H1.
  - by rewrite H2.
  - by rewrite H3.
Defined.

(** C8 (as stated) fails: with a server that only serves corrupt
    payloads, the SRTM download of tile 38_03 sends one request, not two,
    and returns [None], the value that stands for a missing tile. *)
Lemma corrupt_archive_counterexample :
  fst (download_srtm_file 6 "38_03" "/topo/srtm" w_corrupt) = Ok None /\
  requests (snd (download_srtm_file 6 "38_03" "/topo/srtm" w_corrupt)) = 1%nat /\
  trace (snd (download_srtm_file 6 "38_03" "/topo/srtm" w_corrupt))
  = [LockRelease "/topo/srtm"; Fetch (srtm_ifile "38_03");
     LockAcquire "/topo/srtm"].
Proof. by vm_compute. Qed.

(** ** Idempotence of the tile downloads *)

Lemma extract_keeps (outdir : string) (members : list string)
    (m : gmap string file) (p : string) :
  is_Some (m !! p) ->
  is_Some (foldr (fun name m => <[path_join outdir name := Blob]> m) m members
           !! p).
Proof.
  intros Hp. induction members as [|name members IH]; simpl; [done|].
  rewrite lookup_insert_is_Some. destruct (decide (path_join outdir name = p)); auto.
Qed.

(** What one pass through the loop can end in: a [break] leaves the
    archive in the cache, a [return] returns [None], a [continue] has
    counted one more attempt. *)
Lemma download_attempt_inv (ifile ofile outdir : string) (retry_max : nat)
    (too_short : option (M (nat * flow (option string))))
    (retry_counter : nat) (w : world) :
  no_too_short_handler too_short ->
  match download_attempt ifile ofile outdir retry_max too_short retry_counter w
  with
  | (Ok (_, Break), w') => is_Some (fs w' !! ofile)
  | (Ok (_, Return v), _) => v = None
  | (Ok (n, Continue), _) => n = S retry_counter /\ (n <= retry_max)%nat
  | (Err _, _) => True
  | (OutOfFuel, _) => False
  end.
Proof.
  intros Hts.
  unfold download_attempt, try_except, bind, progress_urlretrieve,
    _urlretrieve, zip_extractall, time_sleep, log, ret, raise.
  destruct (server w (requests w) ifile) as [[members|]|code| |];
    cbn -[Nat.leb Z.leb Z.ltb Z.eqb].
  - rewrite lookup_insert_eq. simpl. apply extract_keeps.
    rewrite lookup_insert_eq. by eexists.
  - by rewrite lookup_insert_eq.
  - destruct (code =? 404)%Z; [done|].
    destruct ((500 <=? code)%Z && (code <? 600)%Z); [|done].
    destruct (S retry_counter <=? retry_max)%nat eqn:E; [|done]. simpl.
    split; [done|]. by apply Nat.leb_le.
  - by destruct Hts as [-> | ->].
  - done.
Qed.

Lemma while_true_download_inv (ifile ofile outdir : string) (retry_max : nat)
    (too_short : option (M (nat * flow (option string))))
    (fuel retry_counter : nat) (w : world) :
  no_too_short_handler too_short -> (retry_counter <= retry_max)%nat ->
  match while_true fuel
          (download_attempt ifile ofile outdir retry_max too_short)
          retry_counter w
  with
  | (Ok None, w') => is_Some (fs w' !! ofile)
  | (Ok (Some v), _) => v = None
  | (Err _, _) => True
  | (OutOfFuel, _) => (fuel + retry_counter <= retry_max)%nat
  end.
Proof.
  intros Hts. revert retry_counter w.
  induction fuel as [|fuel IH]; intros retry_counter w Hrc; simpl; [lia|].
  pose proof (download_attempt_inv ifile ofile outdir retry_max too_short
                retry_counter w Hts) as Hinv.
  unfold bind.
  destruct (download_attempt _ _ _ _ _ _ _) as [[[n [| |v]]|e|] w1];
    simpl; try done.
  destruct Hinv as [-> Hn]. specialize (IH (S retry_counter) w1 Hn).
  destruct (while_true _ _ _ _) as [[[v|]|e|] w2]; try done. lia.
Qed.

(** The retry loop terminates: fuel beyond the retry budget is never
    used up. *)
Lemma download_loop_terminates (ifile ofile outdir : string)
    (retry_max : nat) (too_short : option (M (nat * flow (option string))))
    (fuel : nat) (w : world) :
  no_too_short_handler too_short -> (retry_max < fuel)%nat ->
  fst (download_loop fuel ifile ofile outdir retry_max too_short w)
  <> OutOfFuel.
Proof.
  intros Hts Hfuel Hout. unfold download_loop in Hout.
  pose proof (while_true_download_inv ifile ofile outdir retry_max too_short
                fuel O w Hts ltac:(lia)) as Hinv.
  destruct (while_true _ _ _ _) as [[[v|]|e|] w2]; try done. lia.
Qed.

(** A successful SRTM download leaves the archive and the tile in the
    cache. *)
Lemma srtm_unlocked_success (fuel : nat) (zone outdir : string)
    (w w' : world) (p : string) :
  _download_srtm_file_unlocked fuel zone outdir 5 w = (Ok (Some p), w') ->
  p = srtm_out zone outdir /\
  is_Some (fs w' !! srtm_ofile zone outdir) /\
  is_Some (fs w' !! srtm_out zone outdir).
Proof.
  unfold _download_srtm_file_unlocked, mkdir, bind, ret, raise, path_exists.
  destruct (bool_decide (is_Some (fs w !! srtm_ofile zone outdir))) eqn:Hzip;
    simpl.
  - apply bool_decide_eq_true_1 in Hzip.
    destruct (bool_decide (is_Some (fs w !! srtm_out zone outdir))) eqn:Hout;
      [|done].
    apply bool_decide_eq_true_1 in Hout. by intros [= <- <-].
  - pose proof (while_true_download_inv (srtm_ifile zone)
                  (srtm_ofile zone outdir) outdir 5 None fuel O w
                  ltac:(by left) ltac:(lia)) as Hinv.
    unfold download_loop.
    destruct (while_true _ _ _ _) as [[[v|]|e|] w1]; try done.
    + by subst v.
    + destruct (bool_decide (is_Some (fs w1 !! srtm_out zone outdir)))
        eqn:Hout; [|done].
      apply bool_decide_eq_true_1 in Hout. by intros [= <- <-].
Qed.

(** With the archive and the tile in the cache, the SRTM download is a
    cache hit: it returns the tile and leaves the world as it is. *)
Lemma srtm_unlocked_cached (fuel : nat) (zone outdir : string) (w : world) :
  is_Some (fs w !! srtm_ofile zone outdir) ->
  is_Some (fs w !! srtm_out zone outdir) ->
  _download_srtm_file_unlocked fuel zone outdir 5 w
  = (Ok (Some (srtm_out zone outdir)), w).
Proof.
  intros Hzip Hout. unfold _download_srtm_file_unlocked, mkdir.
  rewrite (bind_ok _ _ _ _ tt) by done.
  rewrite (bind_ok _ _ _ _ _ (path_exists_present _ _ Hzip)). cbn [negb].
  rewrite (bind_ok _ _ w w None) by done.
  by rewrite (bind_ok _ _ _ _ _ (path_exists_present _ _ Hout)).
Qed.

Lemma string_length_app (a b : string) :
  String.length (a +:+ b) = (String.length a + String.length b)%nat.
Proof. induction a as [|c a IH]; simpl; [done|by rewrite IH]. Qed.

Lemma strip_prefix_app (pre s c : string) :
  strip_prefix pre s = Some c -> s = pre +:+ c.
Proof.
  revert s. induction pre as [|a pre IH]; intros s; simpl.
  - by intros [= ->].
  - destruct s as [|b s]; [done|].
    destruct (Ascii.eqb_spec a b) as [->|]; [|done].
    intros H. by rewrite (IH s H).
Qed.

Lemma split_slash_app (s d c : string) :
  split_slash s = Some (d, c) -> s = d +:+ "/" +:+ c.
Proof.
  revert d. induction s as [|a s IH]; intros d; simpl; [done|].
  destruct (Ascii.eqb_spec a "/") as [->|].
  - by intros [= <- <-].
  - destruct (split_slash s) as [[d' c']|]; [|done].
    intros [= <- <-]. simpl. by rewrite (IH d' eq_refl).
Qed.

Lemma ends_with_app (suf pre c : string) :
  ends_with suf c = true -> ends_with suf (pre +:+ c) = true.
Proof.
  intros H. induction pre as [|a pre IH]; simpl; [done|].
  rewrite IH. apply orb_true_r.
Qed.

Lemma ends_with_suffix (suf : string) : ends_with suf suf = true.
Proof. destruct suf; simpl; [done|]. by rewrite Ascii.eqb_refl, String.eqb_refl. Qed.

Lemma ends_with_length (suf s : string) :
  ends_with suf s = true -> (String.length suf <= String.length s)%nat.
Proof.
  induction s as [|a s IH]; simpl.
  - rewrite orb_false_r. by intros ->%String.eqb_eq.
  - intros [->%String.eqb_eq|H]%orb_true_iff; [done|].
    specialize (IH H). lia.
Qed.

(** Two endings of the same length of one string are the same. *)
Lemma ends_with_unique (suf1 suf2 s : string) :
  String.length suf1 = String.length suf2 ->
  ends_with suf1 s = true -> ends_with suf2 s = true -> suf1 = suf2.
Proof.
  intros Hlen. induction s as [|a s IH]; simpl.
  - rewrite !orb_false_r. by intros ->%String.eqb_eq ->%String.eqb_eq.
  - intros [->%String.eqb_eq|H1]%orb_true_iff
           [->%String.eqb_eq|H2]%orb_true_iff.
    + done.
    + apply ends_with_length in H2. simpl in Hlen. lia.
    + apply ends_with_length in H1. simpl in Hlen. lia.
    + by apply IH.
Qed.

Lemma star_component_ends (tail c : string) :
  star_component tail c = true -> ends_with tail c = true.
Proof.
  unfold star_component. destruct c as [|a c]; [done|].
  by intros [_ ?]%andb_true_iff.
Qed.

Lemma match_hgt_ends (dir p : string) :
  match_hgt dir p = true -> ends_with ".hgt" p = true.
Proof.
  unfold match_hgt.
  destruct (strip_prefix (dir +:+ "/") p) as [c|] eqn:Hc; [|done].
  intros H%star_component_ends. rewrite (strip_prefix_app _ _ _ Hc).
  by apply ends_with_app.
Qed.

Lemma match_sub_hgt_ends (outdir p : string) :
  match_sub_hgt outdir p = true -> ends_with ".hgt" p = true.
Proof.
  unfold match_sub_hgt.
  destruct (strip_prefix (outdir +:+ "/") p) as [rest|] eqn:Hrest; [|done].
  destruct (split_slash rest) as [[d c]|] eqn:Hsplit; [|done].
  intros [_ H%star_component_ends]%andb_true_iff.
  rewrite (strip_prefix_app _ _ _ Hrest), (split_slash_app _ _ _ Hsplit).
  by do 3 apply ends_with_app.
Qed.

(** The merged raster is not one of the [.hgt] files that [glob] lists. *)
Lemma dem3_outpath_not_hgt (zone outdir : string) :
  ends_with ".hgt" (dem3_outpath zone outdir) = false.
Proof.
  destruct (ends_with ".hgt" (dem3_outpath zone outdir)) eqn:H; [|done].
  assert (Htif : ends_with ".tif" (dem3_outpath zone outdir) = true).
  { unfold dem3_outpath, path_join. do 3 apply ends_with_app.
    apply ends_with_suffix. }
  by pose proof (ends_with_unique ".hgt" ".tif" _ eq_refl H Htif).
Qed.

Lemma glob_hgt_spec (matches : string -> bool) (w : world) :
  (forall p, matches p = true -> ends_with ".hgt" p = true) ->
  exists l,
    glob matches w = (Ok l, w) /\
    forall p, p ∈ l -> ends_with ".hgt" p = true.
Proof.
  intros Hm. eexists. split; [done|].
  intros p Hp%list_elem_of_In. apply filter_In in Hp as [_ Hp]. by apply Hm.
Qed.

Lemma remove_all_spec (l : list string) (w : world) :
  exists w',
    for_inM l (fun s _ => os_remove s) tt w = (Ok tt, w') /\
    forall p, p ∉ l -> fs w' !! p = fs w !! p.
Proof.
  revert w. induction l as [|s l IH]; intros w; simpl.
  - by exists w.
  - rewrite (bind_ok _ _ w (set_fs (delete s) w) tt) by done.
    destruct (IH (set_fs (delete s) w)) as (w' & -> & Hw').
    exists w'. split; [done|]. intros p Hp.
    rewrite Hw' by set_solver. simpl. apply lookup_delete_ne. set_solver.
Qed.

(** When the merge step of the DEM3 download returns a path, it is
    [outpath], and the file is in the cache. *)
Lemma dem3_merge_hgt_success (zone outdir : string) (w w' : world)
    (p : string) :
  dem3_merge_hgt zone outdir w = (Ok (Some p), w') ->
  p = dem3_outpath zone outdir /\
  is_Some (fs w' !! dem3_outpath zone outdir).
Proof.
  unfold dem3_merge_hgt.
  destruct (glob_hgt_spec (match_hgt (dem3_zonedir zone outdir)) w
              (match_hgt_ends _)) as (l1 & Hl1 & Hhgt1).
  rewrite (bind_ok _ _ _ _ _ Hl1).
  assert (exists l,
    (if bool_decide (zone ∈ map fst DEM3REG)
     then glob (match_sub_hgt outdir) else ret l1) w = (Ok l, w) /\
    forall p, p ∈ l -> ends_with ".hgt" p = true) as (l & Hl & Hhgt).
  { destruct (bool_decide _).
    - apply glob_hgt_spec, match_sub_hgt_ends.
    - by exists l1. }
  rewrite (bind_ok _ _ _ _ _ Hl).
  destruct l as [|s l]; [done|].
  unfold bind at 1. unfold raster_merge_write.
  set (w1 := add_event _ _).
  assert (Hout : is_Some (fs w1 !! dem3_outpath zone outdir)).
  { subst w1. simpl. rewrite lookup_insert_eq. by eexists. }
  rewrite (bind_ok _ _ _ _ _ (path_exists_present _ _ Hout)). cbn [negb].
  destruct (remove_all_spec (s :: l) w1) as (w2 & Hrm & Hkeep).
  rewrite (bind_ok _ _ _ _ _ Hrm). intros [= <- <-]. split; [done|].
  rewrite Hkeep; [done|]. intros Hin. apply Hhgt in Hin.
  by rewrite dem3_outpath_not_hgt in Hin.
Qed.

Lemma dem3_unlocked_success (fuel : nat) (zone outdir : string)
    (w w' : world) (p : string) :
  _download_dem3_viewpano_unlocked fuel zone outdir w = (Ok (Some p), w') ->
  p = dem3_outpath zone outdir /\
  is_Some (fs w' !! dem3_outpath zone outdir).
Proof.
  unfold _download_dem3_viewpano_unlocked, mkdir.
  rewrite (bind_ok _ _ w w tt) by done.
  unfold bind at 1. unfold path_exists at 1.
  destruct (bool_decide (is_Some (fs w !! dem3_outpath zone outdir)))
    eqn:Htif.
  - apply bool_decide_eq_true_1 in Htif. by intros [= <- <-].
  - unfold bind at 1. unfold path_exists at 1.
    destruct (bool_decide (is_Some (fs w !! dem3_ofile zone outdir))); simpl.
    + rewrite (bind_ok _ _ w w None) by done. apply dem3_merge_hgt_success.
    + pose proof (while_true_download_inv (dem3_ifile zone)
                    (dem3_ofile zone outdir) outdir 5
                    (Some (raise UnboundLocalError)) fuel O w
                    ltac:(by right) ltac:(lia)) as Hinv.
      unfold bind, download_loop.
      destruct (while_true _ _ _ _) as [[[v|]|e|] w1]; try done.
      * by subst v.
      * apply dem3_merge_hgt_success.
Qed.

Lemma dem3_unlocked_cached (fuel : nat) (zone outdir : string) (w : world) :
  is_Some (fs w !! dem3_outpath zone outdir) ->
  _download_dem3_viewpano_unlocked fuel zone outdir w
  = (Ok (Some (dem3_outpath zone outdir)), w).
Proof.
  intros Htif. unfold _download_dem3_viewpano_unlocked, mkdir.
  rewrite (bind_ok _ _ _ _ tt) by done.
  by rewrite (bind_ok _ _ _ _ _ (path_exists_present _ _ Htif)).
Qed.

Lemma dem3_merge_hgt_total (zone outdir : string) (w : world) :
  fst (dem3_merge_hgt zone outdir w) <> OutOfFuel.
Proof.
  unfold dem3_merge_hgt.
  destruct (glob_hgt_spec (match_hgt (dem3_zonedir zone outdir)) w
              (match_hgt_ends _)) as (l1 & Hl1 & _).
  rewrite (bind_ok _ _ _ _ _ Hl1).
  assert (exists l,
    (if bool_decide (zone ∈ map fst DEM3REG)
     then glob (match_sub_hgt outdir) else ret l1) w = (Ok l, w))
    as (l & Hl).
  { destruct (bool_decide _); by eexists. }
  rewrite (bind_ok _ _ _ _ _ Hl).
  destruct l as [|s l]; [done|].
  unfold bind at 1. unfold raster_merge_write.
  set (w1 := add_event _ _).
  unfold bind at 1. unfold path_exists at 1.
  destruct (bool_decide (is_Some (fs w1 !! dem3_outpath zone outdir)));
    cbn [negb]; [|done].
  destruct (remove_all_spec (s :: l) w1) as (w2 & Hrm & _).
  by rewrite (bind_ok _ _ _ _ _ Hrm).
Qed.

(** The tile downloads terminate: with more fuel than the five retries
    the loop never runs out of it. *)
Lemma download_terminates (fuel : nat) (zone outdir : string) (w : world) :
  (5 < fuel)%nat ->
  fst (download_srtm_file fuel zone outdir w) <> OutOfFuel /\
  fst (download_dem3_viewpano fuel zone outdir w) <> OutOfFuel.
Proof.
  intros Hfuel. split.
  - unfold download_srtm_file. rewrite with_download_lock_run. cbn [fst].
    set (w1 := add_event _ w).
    unfold _download_srtm_file_unlocked, mkdir.
    rewrite (bind_ok _ _ w1 w1 tt) by done.
    unfold bind at 1. unfold path_exists at 1.
    destruct (bool_decide (is_Some (fs w1 !! srtm_ofile zone outdir)));
      cbn [negb].
    + rewrite (bind_ok _ _ w1 w1 None) by done.
      unfold bind, path_exists. by destruct (bool_decide _).
    + pose proof (download_loop_terminates (srtm_ifile zone)
                    (srtm_ofile zone outdir) outdir 5 None fuel w1
                    ltac:(by left) Hfuel) as Hloop.
      unfold bind at 1.
      destruct (download_loop _ _ _ _ _ _ _) as [[[v|]|e|] w2]; try done.
      unfold bind, path_exists. by destruct (bool_decide _).
  - unfold download_dem3_viewpano. rewrite with_download_lock_run. cbn [fst].
    set (w1 := add_event _ w).
    unfold _download_dem3_viewpano_unlocked, mkdir.
    rewrite (bind_ok _ _ w1 w1 tt) by done.
    unfold bind at 1. unfold path_exists at 1.
    destruct (bool_decide (is_Some (fs w1 !! dem3_outpath zone outdir)));
      [done|].
    unfold bind at 1. unfold path_exists at 1.
    destruct (bool_decide (is_Some (fs w1 !! dem3_ofile zone outdir)));
      cbn [negb].
    + rewrite (bind_ok _ _ w1 w1 None) by done. apply dem3_merge_hgt_total.
    + pose proof (download_loop_terminates (dem3_ifile zone)
                    (dem3_ofile zone outdir) outdir 5
                    (Some (raise UnboundLocalError)) fuel w1
                    ltac:(by right) Hfuel) as Hloop.
      unfold bind at 1.
      destruct (download_loop _ _ _ _ _ _ _) as [[[v|]|e|] w2]; try done.
      apply dem3_merge_hgt_total.
Qed.

(** C5. A tile download that has returned a tile is a cache hit when it
    is called again: under the lock, the existence check finds the file,
    the same path is returned, and nothing else happens: no request is
    sent and the cache is left as it is.  This holds for the SRTM and for
    the DEM3 download, whatever the server would answer. *)
Theorem download_idempotent (fuel fuel' : nat) (zone outdir : string)
    (w w1 : world) (p : string) :
  (download_srtm_file fuel zone outdir w = (Ok (Some p), w1) ->
   download_srtm_file fuel' zone outdir w1
   = (Ok (Some p),
      add_event (LockRelease outdir) (add_event (LockAcquire outdir) w1))) /\
  (download_dem3_viewpano fuel zone outdir w = (Ok (Some p), w1) ->
   download_dem3_viewpano fuel' zone outdir w1
   = (Ok (Some p),
      add_event (LockRelease outdir) (add_event (LockAcquire outdir) w1))).
Proof.
  split.
  - unfold download_srtm_file. rewrite !with_download_lock_run.
    destruct (_download_srtm_file_unlocked fuel zone outdir 5 _)
      as [r w2] eqn:Hfirst.
    simpl. intros [= -> <-].
    apply srtm_unlocked_success in Hfirst as (-> & Hzip & Hout).
    by rewrite srtm_unlocked_cached.
  - unfold download_dem3_viewpano. rewrite !with_download_lock_run.
    destruct (_download_dem3_viewpano_unlocked fuel zone outdir _)
      as [r w2] eqn:Hfirst.
    simpl. intros [= -> <-].
    apply dem3_unlocked_success in Hfirst as (-> & Hout).
    by rewrite dem3_unlocked_cached.
Qed.

(** Witness for C5: the tile 38_03 and the zone R01, downloaded from
    [w_serving] and asked for again. *)
Lemma download_idempotent_witness :
  download_srtm_file 0 "38_03" "/topo/srtm"
    (snd (download_srtm_file 6 "38_03" "/topo/srtm" w_serving))
  = (Ok (Some "/topo/srtm/srtm_38_03.tif"),
     add_event (LockRelease "/topo/srtm")
       (add_event (LockAcquire "/topo/srtm")
          (snd (download_srtm_file 6 "38_03" "/topo/srtm" w_serving)))) /\
  download_dem3_viewpano 0 "R01" "/topo/dem3"
    (snd (download_dem3_viewpano 6 "R01" "/topo/dem3" w_serving))
  = (Ok (Some "/topo/dem3/R01.tif"),
     add_event (LockRelease "/topo/dem3")
       (add_event (LockAcquire "/topo/dem3")
          (snd (download_dem3_viewpano 6 "R01" "/topo/dem3" w_serving)))).
Proof.
  split.
  - apply (proj1 (download_idempotent 6 0 "38_03" "/topo/srtm" w_serving
                    _ "/topo/srtm/srtm_38_03.tif")).
    vm_compute. reflexivity.
  - apply (proj2 (download_idempotent 6 0 "R01" "/topo/dem3" w_serving
                    _ "/topo/dem3/R01.tif")).
    vm_compute. reflexivity.
Defined.

(** ** Special regions of the lettered grid *)

Lemma in_box_true (lon_ran lat_ran : range) (x0 x1 y0 y1 : Q) :
  in_box lon_ran lat_ran (x0, x1, y0, y1) = true <->
  (x0 <= np_min lon_ran)%Q /\ (np_max lon_ran <= x1)%Q /\
  (y0 <= np_min lat_ran)%Q /\ (np_max lat_ran <= y1)%Q.
Proof.
  unfold in_box, Qgeb, Qleb.
  rewrite !andb_true_iff, !Qle_bool_iff. tauto.
Qed.

(** The first test of the chain that succeeds decides. *)
Lemma dem3_inset_chain_first (lon_ran lat_ran : range)
    (cases : list (box * list string)) (_f : string) (i : nat) (b : box)
    (zs : list string) :
  cases !! i = Some (b, zs) ->
  in_box lon_ran lat_ran b = true ->
  (forall j b' zs', (j < i)%nat -> cases !! j = Some (b', zs') ->
                    in_box lon_ran lat_ran b' = false) ->
  dem3_inset_chain lon_ran lat_ran cases _f = zs.
Proof.
  revert i. induction cases as [|[b0 zs0] cases IH]; intros i Hi Hin Hbefore.
  - done.
  - destruct i as [|i]; simpl in *.
    + injection Hi as -> ->. by rewrite Hin.
    + rewrite (Hbefore O b0 zs0) by (lia || done).
      apply (IH i); [done..|].
      intros j b' zs' Hj. apply (Hbefore (S j)). lia.
Qed.

Lemma dem3_region_loop_found (lon_ran lat_ran : range)
    (extra_reg : list (string * box)) :
  (exists f b, (f, b) ∈ extra_reg /\ in_box lon_ran lat_ran b = true) ->
  exists f b,
    (f, b) ∈ extra_reg /\ in_box lon_ran lat_ran b = true /\
    dem3_region_loop lon_ran lat_ran extra_reg
    = Some (dem3_inset_chain lon_ran lat_ran dem3_insets f).
Proof.
  induction extra_reg as [|[f0 b0] rest IH]; intros (f & b & Hin & Hbox).
  - by apply elem_of_nil in Hin.
  - simpl. destruct (in_box lon_ran lat_ran b0) eqn:H0.
    + exists f0, b0. split; [left|done].
    + apply elem_of_cons in Hin as [[= -> ->]|Hin]; [congruence|].
      destruct IH as (f' & b' & Hin' & Hbox' & Hloop); [by exists f, b|].
      exists f', b'. split; [by right|done].
Qed.

(** Settle one box test of the goal: it cannot succeed next to the box
    tests already known to succeed. *)
Ltac refute_box lon_ran lat_ran :=
  match goal with
  | |- context [in_box lon_ran lat_ran ?b] =>
      let E := fresh "E" in
      destruct (in_box lon_ran lat_ran b) eqn:E;
      [apply in_box_true in E; exfalso; lra|]
  end.

(** An extent inside a region of [DEM3REG] is inside no other region and
    inside none of the inset boxes. *)
Lemma dem3reg_region (lon_ran lat_ran : range) (f : string) (b : box) :
  (f, b) ∈ DEM3REG -> in_box lon_ran lat_ran b = true ->
  dem3_viewpano_zone lon_ran lat_ran DEM3REG = [f] /\
  forall b' zs, (b', zs) ∈ dem3_insets -> in_box lon_ran lat_ran b' = false.
Proof.
  intros Hreg Hbox.
  pose proof (srtm_samples_span lon_ran) as Hlon.
  pose proof (srtm_samples_span lat_ran) as Hlat.
  unfold DEM3REG in Hreg.
  repeat (apply elem_of_cons in Hreg as [[= -> ->]|Hreg]);
    [..|by apply elem_of_nil in Hreg];
    pose proof Hbox as Hbox'; apply in_box_true in Hbox'.
  all: destruct Hbox' as (? & ? & ? & ?).
  all: split;
    [ unfold dem3_viewpano_zone, DEM3REG;
      cbn [dem3_region_loop];
      repeat (first [rewrite Hbox|refute_box lon_ran lat_ran]; cbn iota);
      unfold dem3_insets; cbn [dem3_inset_chain];
      repeat (refute_box lon_ran lat_ran; cbn iota); reflexivity
    | intros b' zs Hin; unfold dem3_insets in Hin;
      repeat (apply elem_of_cons in Hin as [[= -> ->]|Hin]);
      [..|by apply elem_of_nil in Hin];
      match goal with
      | |- in_box _ _ ?b' = false =>
          destruct (in_box lon_ran lat_ran b') eqn:E; [|done]
      end;
      apply in_box_true in E; exfalso; lra ].
Qed.

(** An extent of positive width lies in at most one inset box (the boxes
    only share edge meridians), which then decides. *)
Lemma dem3_inset_chain_wide (lon_ran lat_ran : range) (_f : string)
    (b : box) (zs : list string) :
  (b, zs) ∈ dem3_insets -> in_box lon_ran lat_ran b = true ->
  (np_min lon_ran < np_max lon_ran)%Q ->
  dem3_inset_chain lon_ran lat_ran dem3_insets _f = zs.
Proof.
  intros Hin Hbox Hwide.
  pose proof (srtm_samples_span lat_ran) as Hlat.
  unfold dem3_insets in Hin.
  repeat (apply elem_of_cons in Hin as [[= -> ->]|Hin]);
    [..|by apply elem_of_nil in Hin];
    pose proof Hbox as Hbox'; apply in_box_true in Hbox';
    destruct Hbox' as (? & ? & ? & ?);
    unfold dem3_insets; cbn [dem3_inset_chain];
    repeat (first [rewrite Hbox|refute_box lon_ran lat_ran]; cbn iota);
    reflexivity.
Qed.

(** C6 (as amended). An extent contained in one of the boxes of
    [DEM3REG] gets that region's one-element list and never the
    lettered-grid arithmetic; none of the inset boxes meets a region of
    [DEM3REG].  For any region table passed as [extra_reg], an extent
    contained in one of its regions and in an inset box gets the list of
    the first inset box, in source order, that contains it; for an extent
    of positive width that is the list of the one inset box that contains
    it. *)
Theorem dem3_special_regions (lon_ran lat_ran : range) :
  (forall f b,
     (f, b) ∈ DEM3REG -> in_box lon_ran lat_ran b = true ->
     dem3_viewpano_zone lon_ran lat_ran DEM3REG = [f] /\
     forall b' zs,
       (b', zs) ∈ dem3_insets -> in_box lon_ran lat_ran b' = false) /\
  (forall extra_reg i b zs,
     (exists f bx, (f, bx) ∈ extra_reg /\ in_box lon_ran lat_ran bx = true) ->
     dem3_insets !! i = Some (b, zs) ->
     in_box lon_ran lat_ran b = true ->
     (forall j b' zs', (j < i)%nat -> dem3_insets !! j = Some (b', zs') ->
                       in_box lon_ran lat_ran b' = false) ->
     dem3_viewpano_zone lon_ran lat_ran extra_reg = zs) /\
  (forall extra_reg b zs,
     (exists f bx, (f, bx) ∈ extra_reg /\ in_box lon_ran lat_ran bx = true) ->
     (b, zs) ∈ dem3_insets ->
     in_box lon_ran lat_ran b = true ->
     (np_min lon_ran < np_max lon_ran)%Q ->
     dem3_viewpano_zone lon_ran lat_ran extra_reg = zs).
Proof.
  split; [apply dem3reg_region|split].
  - intros extra_reg i b zs Hreg Hi Hbox Hfirst.
    destruct (dem3_region_loop_found _ _ _ Hreg) as (f & bx & _ & _ & Hloop).
    unfold dem3_viewpano_zone. rewrite Hloop.
    by apply (dem3_inset_chain_first _ _ _ _ i b).
  - intros extra_reg b zs Hreg Hin Hbox Hwide.
    destruct (dem3_region_loop_found _ _ _ Hreg) as (f & bx & _ & _ & Hloop).
    unfold dem3_viewpano_zone. rewrite Hloop.
    by apply (dem3_inset_chain_wide _ _ _ b).
Qed.

(** Witness for C6: an extent in Iceland, and extents in the inset boxes
    of Greenland with the region "GL-North" (commented out in the
    source) passed as [extra_reg]. *)
Lemma dem3_special_regions_witness :
  dem3_viewpano_zone (-20, -18)%Q (64, 65)%Q DEM3REG = ["ISL"] /\
  dem3_viewpano_zone (-58, -56)%Q (81, 82)%Q
    [("GL-North", (-78, -11, 75, 84)%Q)] = ["U21"] /\
  dem3_viewpano_zone (-60, -60)%Q (81, 82)%Q
    [("GL-North", (-78, -11, 75, 84)%Q)] = ["U20"].
Proof.
  split; [|split].
  - apply (proj1 (dem3_special_regions (-20, -18)%Q (64, 65)%Q)
             "ISL" (-25, -12, 63, 67)%Q); [set_solver|reflexivity].
  - apply (proj1 (proj2 (dem3_special_regions (-58, -56)%Q (81, 82)%Q))
             [("GL-North", (-78, -11, 75, 84)%Q)] 4%nat
             (-60, -54, 80, 83)%Q ["U21"]); [|reflexivity..|].
    + exists "GL-North", (-78, -11, 75, 84)%Q. split; [set_solver|reflexivity].
    + intros [|[|[|[|j]]]] b' zs' Hj; [intros [= <- <-]; reflexivity..|lia].
  - apply (proj1 (proj2 (dem3_special_regions (-60, -60)%Q (81, 82)%Q))
             [("GL-North", (-78, -11, 75, 84)%Q)] 3%nat
             (-66, -60, 80, 83)%Q ["U20"]); [|reflexivity..|].
    + exists "GL-North", (-78, -11, 75, 84)%Q. split; [set_solver|reflexivity].
    + intros [|[|[|j]]] b' zs' Hj; [intros [= <- <-]; reflexivity..|lia].
Defined.

(** C6 (as stated) fails on the meridians that two inset boxes share: the
    extents lon [-60,-60] and lon [-54,-54], lat [81,82], lie in the boxes
    listed for U21 and for U22, and get the list of the box tested
    before, the one of their western neighbour. *)
Lemma dem3_inset_edge_counterexample :
  (((-60, -54, 80, 83)%Q, ["U21"]) ∈ dem3_insets /\
   in_box (-60, -60)%Q (81, 82)%Q (-60, -54, 80, 83)%Q = true /\
   dem3_viewpano_zone (-60, -60)%Q (81, 82)%Q
     [("GL-North", (-78, -11, 75, 84)%Q)] = ["U20"]) /\
  (((-54, -48, 80, 83)%Q, ["U22"]) ∈ dem3_insets /\
   in_box (-54, -54)%Q (81, 82)%Q (-54, -48, 80, 83)%Q = true /\
   dem3_viewpano_zone (-54, -54)%Q (81, 82)%Q
     [("GL-North", (-78, -11, 75, 84)%Q)] = ["U21"]).
Proof.
  split; (split; [unfold dem3_insets; set_solver|split; reflexivity]).
Qed.

(** ** Resolution with a missing tile *)

(** C1. The per-tile downloads do what the claim says: in [w_one_tile]
    the cached tile 39_03 is returned and the tile 38_03, answered "not
    found", gives [None] without an error.  The resolution of the extent
    that these two tiles cover does not succeed all the same: it raises
    [TypeError] before it looks at any tile, at the call
    [download_srtm_file(z)], which lacks the [outdir] argument. *)
Theorem get_topo_file_one_tile_type_error :
  srtm_zone (10, 12)%Q (46, 47)%Q = Ok ["38_03"; "39_03"] /\
  fst (download_srtm_file 6 "39_03" "/topo/srtm" w_one_tile)
  = Ok (Some "/topo/srtm/srtm_39_03.tif") /\
  fst (download_srtm_file 6 "38_03" "/topo/srtm" w_one_tile) = Ok None /\
  get_topo_file (10, 12)%Q (46, 47)%Q None SrcNone w_one_tile
  = (Err TypeError, add_event (Call "srtm_zone") w_one_tile).
Proof.
  split; [by vm_compute|]. split; [by vm_compute|]. split.
  - apply (proj1 (download_not_found_is_absence 6 0 "38_03" "/topo/srtm"
                    w_one_tile ltac:(lia) ltac:(lia)));
      [reflexivity|intros i Hi; lia|reflexivity].
  - apply (get_topo_file_srtm_type_error w_one_tile _ _ None SrcNone "/topo");
      [reflexivity|right; repeat split
      |vm_compute; discriminate|vm_compute; reflexivity].
Qed.

(** * Further properties *)

(** ** Coverage of the degree-grid indexer *)

(** X1. Coverage.  On an extent within the grid (longitudes from -180 to
    180, latitudes from -60 to below 60) [srtm_zone] returns a list that
    holds the tile [kk_jj] of every point of the extent that lies in the
    cell of column [k] and row [j] and keeps the margin from its western
    and northern edge: the samples, taken less than one degree apart,
    miss no 5-degree tile. *)
Theorem srtm_zone_covers (lon_ran lat_ran : range) (k j : Z) (lon lat : Q) :
  (-180 <= np_min lon_ran)%Q -> (np_max lon_ran <= 180)%Q ->
  (-60 <= np_min lat_ran)%Q -> (np_max lat_ran < 60)%Q ->
  (np_min lon_ran <= lon <= np_max lon_ran)%Q ->
  (np_min lat_ran <= lat <= np_max lat_ran)%Q ->
  in_clear_cell k j lon lat ->
  exists zones,
    srtm_zone lon_ran lat_ran = Ok zones /\ srtm_name k j ∈ zones.
Proof.
  intros Hd1 _ _ Hd2 Hlon Hlat (Hk1 & Hk2 & Hj1 & Hj2).
  unfold grid_margin in *.
  destruct (srtm_zone_tiles lon_ran lat_ran) as (l & Hz & Hl); [by split|].
  exists (py_sorted_set l). split; [done|]. apply elem_of_py_sorted_set, Hl.
  exists k, j. split; [|split; [|done]].
  - rewrite <- (srtm_col_in_cell k lon) by lra. split; apply srtm_col_mono; lra.
  - rewrite <- (srtm_row_in_cell j lat) by lra. split; apply srtm_row_anti; lra.
Qed.

(** Witness for X1: the point 11 E, 46.5 N of the extent lon [10,12],
    lat [46,47]. *)
Lemma srtm_zone_covers_witness :
  exists zones,
    srtm_zone (10, 12)%Q (46, 47)%Q = Ok zones /\ srtm_name 39 3 ∈ zones.
Proof.
  apply (srtm_zone_covers (10, 12)%Q (46, 47)%Q 39 3 11 (93 # 2)).
  - vm_compute. discriminate.
  - vm_compute. discriminate.
  - vm_compute. discriminate.
  - vm_compute. reflexivity.
  - split; vm_compute; discriminate.
  - split; vm_compute; discriminate.
  - repeat split; vm_compute; discriminate.
Defined.

Lemma py_sorted_set_sorted (l : list string) :
  Sorted String.le (py_sorted_set l) /\ NoDup (py_sorted_set l).
Proof.
  unfold py_sorted_set. split; [apply Sorted_merge_sort, _|].
  rewrite merge_sort_Permutation. apply NoDup_remove_dups.
Qed.

(** X2. Whenever [srtm_zone] returns, its list is not empty, holds no
    zone twice and is sorted by code point. *)
Theorem srtm_zone_sorted (lon_ran lat_ran : range) (zones : list string) :
  srtm_zone lon_ran lat_ran = Ok zones ->
  zones <> [] /\ NoDup zones /\ Sorted String.le zones.
Proof.
  intros Hz. split; [by apply (srtm_zone_nonempty lon_ran lat_ran)|].
  rewrite srtm_zone_unfold in Hz.
  destruct (for_in _ _ _) as [l| |]; [|done..]. injection Hz as <-.
  pose proof (py_sorted_set_sorted l) as [??]. done.
Qed.

(** X3. The two ends of a range may be given in either order, on both
    axes: [srtm_zone] reads their minimum and maximum only (longitudes not
    west of -180). *)
Theorem srtm_zone_ends_order (a b c d : Q) :
  (-180 <= Qmin a b)%Q ->
  srtm_zone (a, b) (c, d) = srtm_zone (b, a) (d, c).
Proof.
  intros Hlon.
  assert (Hmin : forall x y, (np_min (x, y) == np_min (y, x))%Q)
    by (intros; apply Q.min_comm).
  assert (Hmax : forall x y, (np_max (x, y) == np_max (y, x))%Q)
    by (intros; apply Q.max_comm).
  destruct (Qlt_le_dec (np_max (c, d)) 60) as [Hlt|Hge].
  - destruct (srtm_zone_tiles (a, b) (c, d)) as (l1 & -> & H1).
    { split; simpl; [done|lra]. }
    destruct (srtm_zone_tiles (b, a) (d, c)) as (l2 & -> & H2).
    { split; simpl; [by rewrite <- (Hmin a b)|by rewrite <- (Hmax c d)]. }
    f_equal. apply py_sorted_set_ext. intros z. rewrite H1, H2.
    by rewrite (srtm_col_proper _ _ (Hmin a b)), (srtm_col_proper _ _ (Hmax a b)),
      (srtm_row_proper _ _ (Hmin c d)), (srtm_row_proper _ _ (Hmax c d)).
  - rewrite !srtm_zone_from_60; [done| |done]. by rewrite <- (Hmax c d).
Qed.

(** Witness for X2: the zones of the extent lon [10,12], lat [46,47]. *)
Lemma srtm_zone_sorted_witness :
  ["38_03"; "39_03"] <> [] /\ NoDup ["38_03"; "39_03"] /\
  Sorted String.le ["38_03"; "39_03"].
Proof.
  apply (srtm_zone_sorted (10, 12)%Q (46, 47)%Q). vm_compute. reflexivity.
Defined.

(** Witness for X3. *)
Lemma srtm_zone_ends_order_witness :
  srtm_zone (12, 10)%Q (47, 46)%Q = srtm_zone (10, 12)%Q (46, 47)%Q.
Proof. apply srtm_zone_ends_order. vm_compute. discriminate. Defined.

(** ** The two lists of the ASTER indexer *)














(** ** Coverage of the lettered grid *)

Section LinspaceStep.
Variables (start stop : Q) (num : nat) (idx : Q -> Z) (h : Q).
Hypothesis Hle : (start <= stop)%Q.
Hypothesis Hnum : (2 <= num)%nat.
Hypothesis Hdense : (stop - start < h * inject_Z (Z.of_nat (num - 1)))%Q.
Hypothesis idx_proper : forall x y, (x == y)%Q -> idx x = idx y.
Hypothesis idx_mono : forall x y, (x <= y)%Q -> (idx x <= idx y)%Z.
Hypothesis idx_step :
  forall x y, (x <= y)%Q -> (y < x + h)%Q -> (idx y <= idx x + 1)%Z.

(** Samples less than [h] apart meet every index between those of the
    end points, when an index grows by at most one over a distance below
    [h]. *)
Lemma linspace_cover_step k :
  (idx start <= k <= idx stop)%Z ->
  exists q,
    q ∈ np_linspace start stop num /\ (start <= q <= stop)%Q /\ idx q = k.
Proof using All.
  intros Hk. destruct num as [|[|n]]; [lia|lia|]. clear Hnum.
  replace (S (S n) - 1)%nat with (S n) in Hdense by lia.
  cbn [np_linspace].
  set (d := inject_Z (Z.of_nat (S n))) in *.
  set (step := ((stop - start) / d)%Q).
  set (point := fun i : nat => (inject_Z (Z.of_nat i) * step + start)%Q).
  assert (Hd : (1 <= d)%Q).
  { unfold d. change 1%Q with (inject_Z 1). rewrite <- Zle_Qle. lia. }
  assert (Hsd : (step * d == stop - start)%Q).
  { unfold step. field. intros H0. rewrite H0 in Hd. lra. }
  assert (Hs0 : (0 <= step)%Q).
  { unfold step. apply Qle_shift_div_l; lra. }
  assert (Hsh : (step < h)%Q).
  { unfold step. apply Qlt_shift_div_r; lra. }
  assert (H0 : (point O == start)%Q).
  { unfold point. change (inject_Z (Z.of_nat 0)) with 0%Q. ring. }
  assert (Hn : (point (S n) == stop)%Q).
  { unfold point. fold d. rewrite (Qmult_comm d step), Hsd. ring. }
  assert (HS : forall i, (point (S i) == point i + step)%Q).
  { intros i. unfold point. rewrite Nat2Z.inj_succ. unfold Z.succ.
    rewrite inject_Z_plus. change (inject_Z 1) with 1%Q. ring. }
  assert (Hb : forall i, (i <= S n)%nat -> (start <= point i <= stop)%Q).
  { intros i Hi.
    assert (Hid : (inject_Z (Z.of_nat i) <= d)%Q).
    { unfold d. rewrite <- Zle_Qle. lia. }
    assert (H0i : (0 <= inject_Z (Z.of_nat i))%Q).
    { change 0%Q with (inject_Z 0). rewrite <- Zle_Qle. lia. }
    unfold point. clearbody step d. split; [nra|].
    assert ((inject_Z (Z.of_nat i) * step <= d * step)%Q) by nra. lra. }
  destruct (discrete_ivt (fun i => idx (point i)) (S n)) with (k := k)
    as (i & Hi & Hik).
  - intros i _. pose proof (HS i). split.
    + apply idx_mono. lra.
    + apply idx_step; lra.
  - by rewrite (idx_proper _ _ H0), (idx_proper _ _ Hn).
  - destruct (decide (i = S n)) as [->|Hne].
    + exists stop. split; [|split; [lra|]].
      * apply elem_of_app. right. by apply list_elem_of_singleton.
      * by rewrite <- (idx_proper _ _ Hn).
    + exists (point i). split; [|split; [by apply Hb|done]].
      apply elem_of_app. left. apply list_elem_of_fmap.
      exists i. split; [done|]. apply elem_of_seq. lia.
Qed.
End LinspaceStep.

Lemma dem3_generic_unfold (lon_ran lat_ran : range) :
  dem3_generic lon_ran lat_ran =
  py_sorted_set
    (flat_map (fun lon => map (dem3_point lon) (dem3_samples_lat lat_ran))
              (dem3_samples_lon lon_ran)).
Proof. reflexivity. Qed.

Lemma dem3_col_proper (x y : Q) : (x == y)%Q -> dem3_col x = dem3_col y.
Proof. intros H. unfold dem3_col. by rewrite H. Qed.

Lemma dem3_col_mono (x y : Q) : (x <= y)%Q -> (dem3_col x <= dem3_col y)%Z.
Proof.
  intros H. apply Qceiling_resp_le.
  unfold Qdiv. change (/ 6)%Q with (1#6)%Q. lra.
Qed.

Lemma dem3_col_step (x y : Q) :
  (x <= y)%Q -> (y < x + 4)%Q -> (dem3_col y <= dem3_col x + 1)%Z.
Proof.
  intros H1 H2. apply Qceiling_step;
    unfold Qdiv; change (/ 6)%Q with (1#6)%Q; lra.
Qed.

Lemma dem3_band_north (lat : Q) :
  (0 <= lat)%Q -> dem3_band lat = Qfloor (lat / 4).
Proof.
  intros H. unfold dem3_band, Qgeb.
  replace (Qle_bool 0 lat) with true by (symmetry; by apply Qle_bool_iff).
  apply Qfloor_comp. rewrite Qabs_pos; [unfold Qdiv; ring|].
  unfold Qdiv. change (/ 4)%Q with (1#4)%Q. lra.
Qed.

Lemma dem3_band_south (lat : Q) :
  (lat < 0)%Q -> dem3_band lat = (Qceiling (lat / 4) - 1)%Z.
Proof.
  intros H. unfold dem3_band, Qgeb.
  destruct (Qle_bool 0 lat) eqn:E; [apply Qle_bool_iff in E; lra|].
  rewrite (Qfloor_comp _ (- (lat / 4))).
  - unfold Qceiling. lia.
  - rewrite Qabs_neg; [unfold Qdiv; ring|].
    unfold Qdiv. change (/ 4)%Q with (1#4)%Q. lra.
Qed.

Lemma Qfloor_nonneg (x : Q) : (0 <= x)%Q -> (0 <= Qfloor x)%Z.
Proof. intros H. rewrite <- (Qfloor_Z 0). by apply Qfloor_resp_le. Qed.

Lemma Qceiling_nonpos (x : Q) : (x <= 0)%Q -> (Qceiling x <= 0)%Z.
Proof. intros H. rewrite <- (Qceiling_Z 0). by apply Qceiling_resp_le. Qed.

Lemma dem3_band_proper (x y : Q) : (x == y)%Q -> dem3_band x = dem3_band y.
Proof.
  intros H. unfold dem3_band, Qgeb.
  assert (Hb : Qle_bool 0 x = Qle_bool 0 y).
  { destruct (Qle_bool 0 x) eqn:Ex, (Qle_bool 0 y) eqn:Ey; try done.
    - apply Qle_bool_iff in Ex. rewrite H in Ex. apply Qle_bool_iff in Ex.
      congruence.
    - apply Qle_bool_iff in Ey. rewrite <- H in Ey. apply Qle_bool_iff in Ey.
      congruence. }
  assert (Hf : Qfloor (Qabs ((x - 0) / 4)) = Qfloor (Qabs ((y - 0) / 4)))
    by (apply Qfloor_comp; by rewrite H).
  by rewrite Hb, Hf.
Qed.

Lemma dem3_band_mono (x y : Q) : (x <= y)%Q -> (dem3_band x <= dem3_band y)%Z.
Proof.
  intros Hxy.
  destruct (Qlt_le_dec x 0) as [Hx|Hx], (Qlt_le_dec y 0) as [Hy|Hy].
  - rewrite !dem3_band_south by done.
    assert (Qceiling (x / 4) <= Qceiling (y / 4))%Z; [|lia].
    apply Qceiling_resp_le. unfold Qdiv. change (/ 4)%Q with (1#4)%Q. lra.
  - rewrite (dem3_band_south x), (dem3_band_north y) by done.
    assert (Qceiling (x / 4) <= 0)%Z.
    { apply Qceiling_nonpos. unfold Qdiv. change (/ 4)%Q with (1#4)%Q. lra. }
    assert (0 <= Qfloor (y / 4))%Z; [|lia].
    apply Qfloor_nonneg. unfold Qdiv. change (/ 4)%Q with (1#4)%Q. lra.
  - lra.
  - rewrite !dem3_band_north by done.
    apply Qfloor_resp_le. unfold Qdiv. change (/ 4)%Q with (1#4)%Q. lra.
Qed.

Lemma Qfloor_lt_step (x y : Q) :
  (y < x + 1)%Q -> (Qfloor y <= Qfloor x + 1)%Z.
Proof.
  intros Hyx.
  assert (H : (Qfloor y < Qfloor x + 2)%Z); [|lia].
  rewrite Zlt_Qlt. pose proof (Qfloor_le y). pose proof (Qlt_floor x).
  rewrite !inject_Z_plus in *.
  change (inject_Z 1) with 1%Q in *. change (inject_Z 2) with 2%Q. lra.
Qed.

Lemma dem3_band_step (x y : Q) :
  (x <= y)%Q -> (y < x + 4)%Q -> (dem3_band y <= dem3_band x + 1)%Z.
Proof.
  intros Hxy Hyx.
  destruct (Qlt_le_dec x 0) as [Hx|Hx], (Qlt_le_dec y 0) as [Hy|Hy].
  - rewrite !dem3_band_south by done.
    assert (Qceiling (y / 4) <= Qceiling (x / 4) + 1)%Z; [|lia].
    apply Qceiling_step; unfold Qdiv; change (/ 4)%Q with (1#4)%Q; lra.
  - rewrite (dem3_band_south x), (dem3_band_north y) by done.
    assert (Qfloor (y / 4) < 1)%Z.
    { rewrite Zlt_Qlt. pose proof (Qfloor_le (y / 4)) as Hf.
      unfold Qdiv in *. change (/ 4)%Q with (1#4)%Q in *.
      change (inject_Z 1) with 1%Q. lra. }
    assert (-1 < Qceiling (x / 4))%Z; [|lia].
    rewrite Zlt_Qlt. pose proof (Qle_ceiling (x / 4)) as Hc.
    unfold Qdiv in *. change (/ 4)%Q with (1#4)%Q in *.
    change (inject_Z (-1)) with (-1)%Q. lra.
  - lra.
  - rewrite !dem3_band_north by done.
    apply Qfloor_lt_step. unfold Qdiv. change (/ 4)%Q with (1#4)%Q. lra.
Qed.

(** The string of a point is determined by its column and its band. *)
Lemma dem3_point_col_band (lon lat lon' lat' : Q) :
  (-180 <= lon)%Q -> (-180 <= lon')%Q ->
  dem3_col lon = dem3_col lon' -> dem3_band lat = dem3_band lat' ->
  dem3_point lon lat = dem3_point lon' lat'.
Proof.
  intros Hlon Hlon' Hcol Hband. unfold dem3_point, fmt_ceil.
  rewrite !ceil_negzero_nonneg
    by (unfold Qdiv; change (/ 6)%Q with (1#6)%Q; lra).
  fold (dem3_col lon) (dem3_col lon'). rewrite Hcol.
  unfold dem3_band in Hband.
  assert (Hf : forall q, (0 <= Qfloor (Qabs ((q - 0) / 4)))%Z)
    by (intros; apply Qfloor_nonneg, Qabs_nonneg).
  pose proof (Hf lat). pose proof (Hf lat').
  destruct (Qgeb lat 0), (Qgeb lat' 0); [|lia|lia|].
  - by rewrite Hband.
  - by replace (Qfloor (Qabs ((lat - 0) / 4)))
      with (Qfloor (Qabs ((lat' - 0) / 4))) by lia.
Qed.

Lemma dem3_samples_lon_cover (r : range) (lon : Q) :
  (np_min r <= lon <= np_max r)%Q ->
  exists q, q ∈ dem3_samples_lon r /\ (np_min r <= q <= np_max r)%Q /\
            dem3_col q = dem3_col lon.
Proof.
  intros [Hlo Hhi]. pose proof (srtm_samples_span r) as Hspan.
  pose proof (Qle_ceiling ((np_max r - np_min r) / 4)) as Hce.
  assert (Hc0 : (0 <= Qceiling ((np_max r - np_min r) / 4))%Z).
  { rewrite <- (Qceiling_Z 0). apply Qceiling_resp_le.
    unfold Qdiv. change (/ 4)%Q with (1#4)%Q.
    change (inject_Z 0) with 0%Q. lra. }
  apply (linspace_cover_step _ _ _ dem3_col 4);
    [done| | |apply dem3_col_proper|apply dem3_col_mono|apply dem3_col_step|].
  - unfold np_count. lia.
  - unfold np_count. set (c := Qceiling _) in *.
    rewrite Nat2Z.inj_sub, Z2Nat.id by lia.
    unfold Z.sub. rewrite !inject_Z_plus.
    change (inject_Z (- Z.of_nat 1)) with (-1)%Q. change (inject_Z 3) with 3%Q.
    unfold Qdiv in Hce. change (/ 4)%Q with (1#4)%Q in Hce. lra.
  - split; by apply dem3_col_mono.
Qed.

Lemma dem3_samples_lat_cover (r : range) (lat : Q) :
  (np_max r - np_min r < 24)%Q ->
  (np_min r <= lat <= np_max r)%Q ->
  exists q, q ∈ dem3_samples_lat r /\ dem3_band q = dem3_band lat.
Proof.
  intros H24 [Hlo Hhi]. pose proof (srtm_samples_span r) as Hspan.
  pose proof (Qle_ceiling ((np_max r - np_min r) / 6)) as Hce.
  assert (Hc0 : (0 <= Qceiling ((np_max r - np_min r) / 6))%Z).
  { rewrite <- (Qceiling_Z 0). apply Qceiling_resp_le.
    unfold Qdiv. change (/ 6)%Q with (1#6)%Q.
    change (inject_Z 0) with 0%Q. lra. }
  destruct (linspace_cover_step (np_min r) (np_max r)
              (np_count (Qceiling ((np_max r - np_min r) / 6) + 3))
              dem3_band 4) with (k := dem3_band lat) as (q & Hq & _ & Hk);
    [done| | |apply dem3_band_proper|apply dem3_band_mono
    |apply dem3_band_step| |by exists q].
  - unfold np_count. lia.
  - unfold np_count. set (c := Qceiling _) in *.
    rewrite Nat2Z.inj_sub, Z2Nat.id by lia.
    unfold Z.sub. rewrite !inject_Z_plus.
    change (inject_Z (- Z.of_nat 1)) with (-1)%Q. change (inject_Z 3) with 3%Q.
    unfold Qdiv in Hce. change (/ 6)%Q with (1#6)%Q in Hce. lra.
  - split; by apply dem3_band_mono.
Qed.

(** The string of a point of column [c]. *)
Lemma dem3_point_name (c : Z) (lon lat : Q) :
  (-180 <= lon)%Q ->
  (-180 + 6 * inject_Z (c - 1) < lon)%Q -> (lon <= -180 + 6 * inject_Z c)%Q ->
  dem3_point lon lat = dem3_name c lat.
Proof.
  intros H180 Hlo Hhi. unfold dem3_point, dem3_name, fmt_ceil.
  rewrite ceil_negzero_nonneg
    by (unfold Qdiv; change (/ 6)%Q with (1#6)%Q; lra).
  rewrite (Qceiling_unique _ c);
    [done|unfold Qdiv; change (/ 6)%Q with (1#6)%Q; lra..].
Qed.

(** X6. Coverage of the lettered grid.  Outside the special regions, for
    an extent within the grid (longitudes from -180 to 180, latitudes
    from -90 to 90) that is less than 24 degrees tall by the margin at
    least, [dem3_viewpano_zone] returns the zone of every point of the
    extent that keeps the margin from the western edge of its column
    [c].  The bound on the height is needed: the number of latitude
    samples is computed with the 6-degree width of a zone, not with its
    4-degree height (the example that follows shows a band that is
    lost). *)
Theorem dem3_viewpano_zone_covers (lon_ran lat_ran : range)
    (extra_reg : list (string * box)) (c : Z) (lon lat : Q) :
  dem3_region_loop lon_ran lat_ran extra_reg = None ->
  (-180 <= np_min lon_ran)%Q -> (np_max lon_ran <= 180)%Q ->
  (-90 <= np_min lat_ran)%Q -> (np_max lat_ran <= 90)%Q ->
  (np_max lat_ran - np_min lat_ran <= 24 - grid_margin)%Q ->
  (np_min lon_ran <= lon <= np_max lon_ran)%Q ->
  (np_min lat_ran <= lat <= np_max lat_ran)%Q ->
  (-180 + 6 * inject_Z (c - 1) + grid_margin <= lon)%Q ->
  (lon <= -180 + 6 * inject_Z c)%Q ->
  dem3_name c lat ∈ dem3_viewpano_zone lon_ran lat_ran extra_reg.
Proof.
  intros Hreg H180 _ _ _ H24 Hlon Hlat Hc1 Hc2.
  unfold grid_margin in *.
  rewrite <- (dem3_point_name c lon lat) by lra.
  unfold dem3_viewpano_zone. rewrite Hreg.
  rewrite dem3_generic_unfold. apply elem_of_py_sorted_set.
  destruct (dem3_samples_lon_cover lon_ran lon Hlon) as (lon' & Hin & Hb & Hc).
  destruct (dem3_samples_lat_cover lat_ran lat) as (lat' & Hin' & Hb');
    [lra|done|].
  apply list_elem_of_In, in_flat_map. exists lon'.
  split; [by apply list_elem_of_In|]. apply in_map_iff. exists lat'.
  split; [|by apply list_elem_of_In].
  apply dem3_point_col_band; [lra|lra|done..].
Qed.

(** Witness for X6: a point of an extent in the Alps. *)
Lemma dem3_viewpano_zone_covers_witness :
  dem3_name 32 46 ∈ dem3_viewpano_zone (6, 8)%Q (45, 47)%Q DEM3REG.
Proof.
  apply (dem3_viewpano_zone_covers (6, 8)%Q (45, 47)%Q DEM3REG 32 7 46);
    [reflexivity|vm_compute; discriminate..
    |split; vm_compute; discriminate|split; vm_compute; discriminate
    |vm_compute; discriminate|vm_compute; discriminate].
Defined.

(** A taller extent can lose a band: between the equator and 60 degrees
    north the bands E, J and O are not sampled. *)
Example dem3_viewpano_zone_tall :
  dem3_point 0 18 = "E30" /\
  dem3_point 0 18 ∉ dem3_viewpano_zone (0, 1)%Q (0, 60)%Q DEM3REG.
Proof.
  split; [reflexivity|]. vm_compute. intros H.
  repeat (apply elem_of_cons in H as [H|H]; [discriminate H|]).
  by apply elem_of_nil in H.
Qed.

(** ** What a tile download changes *)

Lemma tile_frame_refl (allowed : event -> Prop) (ofile outdir : string)
    (w : world) :
  tile_frame allowed ofile outdir w w.
Proof. split; try done. by exists []. Qed.

Lemma tile_frame_trans (allowed : event -> Prop) (ofile outdir : string)
    (w1 w2 w3 : world) :
  tile_frame allowed ofile outdir w1 w2 ->
  tile_frame allowed ofile outdir w2 w3 ->
  tile_frame allowed ofile outdir w1 w3.
Proof.
  intros [Hs1 Hp1 Hr1 (e1 & Ht1 & He1) Hf1] [Hs2 Hp2 Hr2 (e2 & Ht2 & He2) Hf2].
  split.
  - congruence.
  - congruence.
  - lia.
  - exists (e2 ++ e1). rewrite Ht2, Ht1, app_assoc. split; [done|].
    by apply Forall_app.
  - intros p Hp Hne. by rewrite Hf2, Hf1.
Qed.

Lemma extract_frame (outdir : string) (members : list string)
    (m : gmap string file) (p : string) :
  (forall c, p <> path_join outdir c) ->
  foldr (fun name m => <[path_join outdir name := Blob]> m) m members !! p
  = m !! p.
Proof.
  intros Hp. induction members as [|name members IH]; simpl; [done|].
  rewrite lookup_insert_ne; [done|]. intros H. by apply (Hp name).
Qed.

(** One pass through the loop: one request, and the archive is gone
    whenever the pass ends in an exception or asks for another pass. *)
Lemma download_attempt_frame (ifile ofile outdir : string) (retry_max : nat)
    (too_short : option (M (nat * flow (option string))))
    (retry_counter : nat) (w : world) :
  no_too_short_handler too_short ->
  let r := download_attempt ifile ofile outdir retry_max too_short
             retry_counter w in
  tile_frame (loop_event ifile) ofile outdir w (snd r) /\
  requests (snd r) = S (requests w) /\
  (forall e, fst r = Err e -> fs (snd r) !! ofile = None).
Proof.
  intros Hts.
  unfold download_attempt, try_except, bind, progress_urlretrieve,
    _urlretrieve, zip_extractall, time_sleep, log, ret, raise.
  destruct (server w (requests w) ifile) as [[members|]|code| |];
    cbn -[Nat.leb Z.leb Z.ltb Z.eqb].
  - rewrite lookup_insert_eq. simpl. split; [|done]. split; simpl; try done.
    + lia.
    + exists [Fetch ifile]. split; [done|]. apply Forall_singleton. by left.
    + intros p Hp Hne. rewrite extract_frame by done.
      by rewrite lookup_insert_ne.
  - rewrite lookup_insert_eq. simpl. split; [|done]. split; simpl; try done.
    + lia.
    + exists [Fetch ifile]. split; [done|]. apply Forall_singleton. by left.
    + intros p Hp Hne. by rewrite lookup_insert_ne.
  - assert (Hfail : tile_frame (loop_event ifile) ofile outdir w
                      (set_fs (delete ofile)
                         (add_event (Fetch ifile) (count_request w)))).
    { split; simpl; try done.
      + lia.
      + exists [Fetch ifile]. split; [done|]. apply Forall_singleton. by left.
      + intros p Hp Hne. by rewrite lookup_delete_ne. }
    destruct (code =? 404)%Z; [done|].
    destruct ((500 <=? code)%Z && (code <? 600)%Z);
      [|simpl; split; [done|]; split; [done|]; intros; apply lookup_delete_eq].
    destruct (S retry_counter <=? retry_max)%nat; simpl;
      [|split; [done|]; split; [done|]; intros; apply lookup_delete_eq].
    split; [|done]. split; simpl; try done.
    + lia.
    + exists [Sleep 10; Fetch ifile]. split; [done|].
      apply Forall_cons. split; [by right|]. apply Forall_singleton. by left.
    + intros p Hp Hne. by rewrite lookup_delete_ne.
  - assert (Hfail : tile_frame (loop_event ifile) ofile outdir w
                      (set_fs (delete ofile)
                         (add_event (Fetch ifile) (count_request w)))).
    { split; simpl; try done.
      + lia.
      + exists [Fetch ifile]. split; [done|]. apply Forall_singleton. by left.
      + intros p Hp Hne. by rewrite lookup_delete_ne. }
    destruct Hts as [-> | ->]; simpl;
      (split; [done|]; split; [done|]; intros; apply lookup_delete_eq).
  - simpl. split; [|split; [done|intros; apply lookup_delete_eq]].
    split; simpl; try done.
    + lia.
    + exists [Fetch ifile]. split; [done|]. apply Forall_singleton. by left.
    + intros p Hp Hne. by rewrite lookup_delete_ne.
Qed.

(** The loop as a whole: at most [retry_max + 1] requests counting the
    passes already made, at least one when it runs at all, and no archive
    left behind by a loop that ends in an exception. *)
Lemma while_true_download_frame (ifile ofile outdir : string)
    (retry_max : nat) (too_short : option (M (nat * flow (option string))))
    (fuel retry_counter : nat) (w : world) :
  no_too_short_handler too_short -> (retry_counter <= retry_max)%nat ->
  let r := while_true fuel
             (download_attempt ifile ofile outdir retry_max too_short)
             retry_counter w in
  tile_frame (loop_event ifile) ofile outdir w (snd r) /\
  (requests (snd r) + retry_counter <= requests w + S retry_max)%nat /\
  ((1 <= fuel)%nat -> (requests w < requests (snd r))%nat) /\
  (forall e, fst r = Err e -> fs (snd r) !! ofile = None).
Proof.
  intros Hts. revert retry_counter w.
  induction fuel as [|fuel IH]; intros retry_counter w Hrc; cbn zeta.
  - simpl. split; [apply tile_frame_refl|]. split; [lia|].
    split; [lia|intros e He; discriminate He].
  - cbn [while_true]. unfold bind.
    pose proof (download_attempt_inv ifile ofile outdir retry_max too_short
                  retry_counter w Hts) as Hinv.
    pose proof (download_attempt_frame ifile ofile outdir retry_max too_short
                  retry_counter w Hts) as (Hfr & Hreq & Herr).
    destruct (download_attempt _ _ _ _ _ _ _) as [[[n [| |v]]|e|] w1];
      simpl in *; try done.
    + destruct Hinv as [-> Hn].
      destruct (IH (S retry_counter) w1 Hn) as (Hfr' & Hreq' & _ & Herr').
      split; [by eapply tile_frame_trans|]. split; [lia|].
      split; [|done]. intros _. pose proof (frame_requests _ _ _ _ _ Hfr'). lia.
    + split; [done|]. split; [lia|]. split; [lia|done].
    + split; [done|]. split; [lia|]. split; [lia|done].
    + split; [done|]. split; [lia|]. split; [lia|intros e0 _; by apply (Herr e)].
Qed.

Lemma download_loop_frame (ifile ofile outdir : string)
    (too_short : option (M (nat * flow (option string))))
    (fuel : nat) (w : world) :
  no_too_short_handler too_short ->
  let r := download_loop fuel ifile ofile outdir 5 too_short w in
  tile_frame (loop_event ifile) ofile outdir w (snd r) /\
  (requests (snd r) <= requests w + 6)%nat /\
  ((1 <= fuel)%nat -> (requests w < requests (snd r))%nat) /\
  (forall e, fst r = Err e -> fs (snd r) !! ofile = None).
Proof.
  intros Hts. cbn zeta. unfold download_loop.
  destruct (while_true_download_frame ifile ofile outdir 5 too_short fuel O w
              Hts ltac:(lia)) as (Hfr & Hreq & Hone & Herr).
  split; [done|]. split; [lia|done].
Qed.

Lemma tile_frame_weaken (allowed allowed' : event -> Prop)
    (ofile outdir : string) (w w' : world) :
  (forall e, allowed e -> allowed' e) ->
  tile_frame allowed ofile outdir w w' ->
  tile_frame allowed' ofile outdir w w'.
Proof.
  intros Himp [Hs Hp Hr (evs & Ht & He) Hf]. split; try done.
  exists evs. split; [done|]. by eapply Forall_impl.
Qed.

Lemma srtm_ofile_under (zone outdir p : string) :
  (forall c, p <> path_join outdir c) -> p <> srtm_ofile zone outdir.
Proof. intros Hp. apply Hp. Qed.

Lemma dem3_ofile_under (zone outdir p : string) :
  (forall c, p <> path_join outdir c) -> p <> dem3_ofile zone outdir.
Proof. intros Hp. apply Hp. Qed.

(** The SRTM download, lock aside. *)
Lemma srtm_unlocked_frame (fuel : nat) (zone outdir : string) (w : world) :
  let r := _download_srtm_file_unlocked fuel zone outdir 5 w in
  tile_frame (loop_event (srtm_ifile zone)) (srtm_ofile zone outdir) outdir
    w (snd r) /\
  (requests (snd r) <= requests w + 6)%nat /\
  (fs w !! srtm_ofile zone outdir = None -> (1 <= fuel)%nat ->
   (requests w < requests (snd r))%nat) /\
  (forall e, fst r = Err e -> e <> AssertionError ->
             fs (snd r) !! srtm_ofile zone outdir = None).
Proof.
  cbn zeta.
  unfold _download_srtm_file_unlocked, mkdir, bind, ret, raise, path_exists.
  destruct (bool_decide (is_Some (fs w !! srtm_ofile zone outdir))) eqn:Hzip;
    simpl.
  - apply bool_decide_eq_true_1 in Hzip.
    assert (Hno : fs w !! srtm_ofile zone outdir = None -> False).
    { intros H. rewrite H in Hzip. by destruct Hzip. }
    destruct (bool_decide (is_Some (fs w !! srtm_out zone outdir))); simpl.
    + split; [apply tile_frame_refl|]. split; [lia|]. split; [done|].
      intros e He. discriminate He.
    + split; [apply tile_frame_refl|]. split; [lia|]. split; [done|].
      by intros e [= <-].
  - pose proof (download_loop_frame (srtm_ifile zone) (srtm_ofile zone outdir)
                  outdir None fuel w ltac:(by left))
      as (Hfr & Hreq & Hone & Herr).
    destruct (download_loop _ _ _ _ _ _ _) as [[[v|]|e|] w1]; simpl in *.
    + split; [done|]. split; [done|]. split; [auto|].
      intros e He. discriminate He.
    + destruct (bool_decide (is_Some (fs w1 !! srtm_out zone outdir))); simpl.
      * split; [done|]. split; [done|]. split; [auto|].
        intros e He. discriminate He.
      * split; [done|]. split; [done|]. split; [auto|]. by intros e [= <-].
    + split; [done|]. split; [done|]. split; [auto|].
      intros e0 _ _. by apply (Herr e).
    + split; [done|]. split; [done|]. split; [auto|].
      intros e He. discriminate He.
Qed.

Lemma append_assoc (a b c : string) : (a +:+ b) +:+ c = a +:+ (b +:+ c).
Proof.
  induction a as [|x a IH]; [done|].
  change (String x ((a +:+ b) +:+ c) = String x (a +:+ (b +:+ c))).
  by rewrite IH.
Qed.

Lemma match_sub_hgt_under (outdir p : string) :
  match_sub_hgt outdir p = true -> exists c, p = path_join outdir c.
Proof.
  unfold match_sub_hgt.
  destruct (strip_prefix (outdir +:+ "/") p) as [rest|] eqn:Hrest; [|done].
  intros _. exists rest. rewrite (strip_prefix_app _ _ _ Hrest).
  unfold path_join. by rewrite append_assoc.
Qed.

Lemma match_hgt_under (zone outdir p : string) :
  match_hgt (dem3_zonedir zone outdir) p = true ->
  exists c, p = path_join outdir c.
Proof.
  unfold match_hgt.
  destruct (strip_prefix (dem3_zonedir zone outdir +:+ "/") p) as [c|] eqn:Hc;
    [|done].
  intros _. rewrite (strip_prefix_app _ _ _ Hc). unfold dem3_zonedir.
  destruct (_ && _); unfold path_join; eexists;
    rewrite !append_assoc; reflexivity.
Qed.

Lemma dem3_hgt_under (zone outdir p : string) :
  dem3_hgt zone outdir p = true -> exists c, p = path_join outdir c.
Proof.
  unfold dem3_hgt. destruct (bool_decide _).
  - apply match_sub_hgt_under.
  - apply match_hgt_under.
Qed.

Lemma dem3_hgt_ends (zone outdir p : string) :
  dem3_hgt zone outdir p = true -> ends_with ".hgt" p = true.
Proof.
  unfold dem3_hgt. destruct (bool_decide _).
  - apply match_sub_hgt_ends.
  - apply match_hgt_ends.
Qed.

(** [for s in globlist: os.remove(s)] removes the files listed and
    nothing else. *)
Lemma remove_all_effect (l : list string) (w : world) :
  exists w',
    for_inM l (fun s _ => os_remove s) tt w = (Ok tt, w') /\
    server w' = server w /\ PATHS w' = PATHS w /\
    requests w' = requests w /\ trace w' = trace w /\
    (forall p, p ∈ l -> fs w' !! p = None) /\
    (forall p, p ∉ l -> fs w' !! p = fs w !! p).
Proof.
  revert w. induction l as [|s l IH]; intros w; simpl.
  - exists w. repeat split; try done. intros p Hp. by apply elem_of_nil in Hp.
  - rewrite (bind_ok _ _ w (set_fs (delete s) w) tt) by done.
    destruct (IH (set_fs (delete s) w))
      as (w' & -> & Hs & Hp & Hr & Ht & Hin & Hout).
    exists w'. repeat split; try done.
    + intros p Hp'. destruct (decide (p ∈ l)) as [Hl|Hl]; [by apply Hin|].
      rewrite Hout by done. simpl.
      apply elem_of_cons in Hp' as [->|Hp']; [|done]. apply lookup_delete_eq.
    + intros p Hp'. rewrite Hout by set_solver. simpl.
      apply lookup_delete_ne. set_solver.
Qed.

(** The list that [dem3_merge_hgt] merges. *)
Lemma dem3_glob (zone outdir : string) (w : world) :
  bind (glob (match_hgt (dem3_zonedir zone outdir)))
    (fun globlist =>
       if bool_decide (zone ∈ map fst DEM3REG)
       then glob (match_sub_hgt outdir) else ret globlist) w
  = glob (dem3_hgt zone outdir) w.
Proof.
  unfold bind, glob, ret, dem3_hgt. by destruct (bool_decide _).
Qed.

Lemma elem_of_glob (matches : string -> bool) (w : world) (p : string) :
  p ∈ List.filter matches (map fst (map_to_list (fs w))) <->
  is_Some (fs w !! p) /\ matches p = true.
Proof.
  rewrite list_elem_of_In, filter_In, <- list_elem_of_In, list_elem_of_fmap.
  split.
  - intros [([q f] & -> & Hin) Hm]. split; [|done].
    apply elem_of_map_to_list in Hin. by exists f.
  - intros [[f Hf] Hm]. split; [|done]. exists (p, f). split; [done|].
    by apply elem_of_map_to_list.
Qed.

(** The merge step of the DEM3 download, on the list it merges. *)
Lemma dem3_merge_hgt_unfold (zone outdir : string) (w : world) :
  dem3_merge_hgt zone outdir w =
  match List.filter (dem3_hgt zone outdir) (map fst (map_to_list (fs w))) with
  | [] =>
      (Err (RuntimeError "We should have some files here, but we don't"), w)
  | globlist =>
      (do raster_merge_write globlist (dem3_outpath zone outdir) in
       let* ok := path_exists (dem3_outpath zone outdir) in
       if negb ok then raise AssertionError else
       do for_inM globlist (fun s _ => os_remove s) tt in
       ret (Some (dem3_outpath zone outdir))) w
  end.
Proof.
  unfold dem3_merge_hgt, dem3_hgt. unfold bind at 1. unfold glob at 1.
  destruct (bool_decide (zone ∈ map fst DEM3REG)).
  - unfold bind at 1. unfold glob at 1.
    by destruct (List.filter (match_sub_hgt outdir) _).
  - unfold bind at 1. unfold ret at 1.
    by destruct (List.filter (match_hgt (dem3_zonedir zone outdir)) _).
Qed.

(** The merge step of the DEM3 download. *)
Lemma dem3_merge_hgt_frame (zone outdir : string) (w : world) :
  let r := dem3_merge_hgt zone outdir w in
  tile_frame (dem3_event zone outdir) (dem3_ofile zone outdir) outdir
    w (snd r) /\
  requests (snd r) = requests w /\
  (forall e, fst r = Err e -> exists msg, e = RuntimeError msg) /\
  (forall p, fst r = Ok (Some p) ->
     forall q, is_Some (fs (snd r) !! q) -> dem3_hgt zone outdir q = false).
Proof.
  rewrite dem3_merge_hgt_unfold.
  destruct (List.filter _ _) as [|s l] eqn:Hglob.
  - simpl. split; [apply tile_frame_refl|]. split; [done|].
    split; [intros e [= <-]; by eexists|]. intros p Hp. discriminate Hp.
  - assert (Hin : forall p, p ∈ s :: l <->
                    is_Some (fs w !! p) /\ dem3_hgt zone outdir p = true).
    { intros p. rewrite <- Hglob. apply elem_of_glob. }
    set (w1 := add_event (RasterMerge (s :: l) (dem3_outpath zone outdir))
                 (set_fs (insert (dem3_outpath zone outdir) Blob) w)).
    assert (Hout : is_Some (fs w1 !! dem3_outpath zone outdir)).
    { subst w1. simpl. rewrite lookup_insert_eq. by eexists. }
    destruct (remove_all_effect (s :: l) w1)
      as (w2 & Hrm & Hs & Hp & Hr & Ht & Hgone & Hkept).
    set (run := bind (raster_merge_write (s :: l) _) _ w).
    assert (Hrun : run = (Ok (Some (dem3_outpath zone outdir)), w2)).
    { subst run. unfold bind at 1. unfold raster_merge_write. fold w1.
      rewrite (bind_ok _ _ _ _ _ (path_exists_present _ _ Hout)). cbn [negb].
      by rewrite (bind_ok _ _ _ _ _ Hrm). }
    rewrite Hrun. clear run Hrun. cbn zeta. cbn [fst snd].
    split; [|split; [by rewrite Hr|split; [intros e He; discriminate He|]]].
    + split.
      * by rewrite Hs.
      * by rewrite Hp.
      * rewrite Hr. simpl. lia.
      * exists [RasterMerge (s :: l) (dem3_outpath zone outdir)].
        split; [by rewrite Ht|]. apply Forall_singleton. right. by eexists.
      * intros p Hunder _. rewrite Hkept.
        -- subst w1. simpl. apply lookup_insert_ne. intros H.
           by apply (Hunder (zone +:+ ".tif")).
        -- intros [_ (c & ->)%dem3_hgt_under]%Hin. by apply (Hunder c).
    + intros p _ q Hq. destruct (dem3_hgt zone outdir q) eqn:Hm; [|done].
      destruct (decide (q ∈ s :: l)) as [Hl|Hl].
      { rewrite (Hgone q Hl) in Hq. by destruct Hq. }
      rewrite (Hkept q Hl) in Hq. subst w1. simpl in Hq.
      destruct (decide (q = dem3_outpath zone outdir)) as [->|Hne].
      { apply dem3_hgt_ends in Hm. by rewrite dem3_outpath_not_hgt in Hm. }
      rewrite lookup_insert_ne in Hq by done.
      destruct Hl. by apply Hin.
Qed.

Lemma loop_event_dem3 (zone outdir : string) (e : event) :
  loop_event (dem3_ifile zone) e -> dem3_event zone outdir e.
Proof. by left. Qed.

(** The DEM3 download, lock aside. *)
Lemma dem3_unlocked_frame (fuel : nat) (zone outdir : string) (w : world) :
  let r := _download_dem3_viewpano_unlocked fuel zone outdir w in
  tile_frame (dem3_event zone outdir) (dem3_ofile zone outdir) outdir
    w (snd r) /\
  (requests (snd r) <= requests w + 6)%nat /\
  (fs w !! dem3_outpath zone outdir = None ->
   fs w !! dem3_ofile zone outdir = None -> (1 <= fuel)%nat ->
   (requests w < requests (snd r))%nat) /\
  (forall e, fst r = Err e -> (forall msg, e <> RuntimeError msg) ->
             fs (snd r) !! dem3_ofile zone outdir = None) /\
  (forall p, fs w !! dem3_outpath zone outdir = None ->
     fst r = Ok (Some p) ->
     forall q, is_Some (fs (snd r) !! q) -> dem3_hgt zone outdir q = false).
Proof.
  destruct (_download_dem3_viewpano_unlocked fuel zone outdir w)
    as [r w'] eqn:Hrun.
  cbn zeta. cbn [fst snd].
  unfold _download_dem3_viewpano_unlocked, mkdir in Hrun.
  rewrite (bind_ok _ _ w w tt) in Hrun by done.
  unfold bind at 1 in Hrun. unfold path_exists at 1 in Hrun.
  destruct (bool_decide (is_Some (fs w !! dem3_outpath zone outdir)))
    eqn:Htif.
  { apply bool_decide_eq_true_1 in Htif. injection Hrun as <- <-.
    split; [apply tile_frame_refl|]. split; [lia|].
    split; [intros H; rewrite H in Htif; by destruct Htif|].
    split; [intros e He; discriminate He|].
    intros p H. rewrite H in Htif. by destruct Htif. }
  unfold bind at 1 in Hrun. unfold path_exists at 1 in Hrun.
  destruct (bool_decide (is_Some (fs w !! dem3_ofile zone outdir))) eqn:Hzip;
    cbn [negb] in Hrun.
  - apply bool_decide_eq_true_1 in Hzip.
    rewrite (bind_ok _ _ w w None) in Hrun by done.
    pose proof (dem3_merge_hgt_frame zone outdir w) as Hm.
    rewrite Hrun in Hm. cbn zeta in Hm. cbn [fst snd] in Hm.
    destruct Hm as (Hfr & Hreq & Herr & Hcl).
    split; [done|]. split; [lia|].
    split; [intros _ H; rewrite H in Hzip; by destruct Hzip|].
    split; [|intros p _; apply Hcl].
    intros e He Hno. destruct (Herr e He) as [msg ->]. by destruct (Hno msg).
  - pose proof (download_loop_frame (dem3_ifile zone) (dem3_ofile zone outdir)
                  outdir (Some (raise UnboundLocalError)) fuel w
                  ltac:(by right)) as (Hfr & Hreq & Hone & Herr).
    apply (tile_frame_weaken _ _ _ _ _ _ (loop_event_dem3 zone outdir)) in Hfr.
    pose proof (while_true_download_inv (dem3_ifile zone)
                  (dem3_ofile zone outdir) outdir 5
                  (Some (raise UnboundLocalError)) fuel O w
                  ltac:(by right) ltac:(lia)) as Hinv.
    fold (download_loop fuel (dem3_ifile zone) (dem3_ofile zone outdir)
            outdir 5 (Some (raise UnboundLocalError))) in Hinv.
    unfold bind at 1 in Hrun.
    destruct (download_loop _ _ _ _ _ _ _) as [[[v|]|e|] w1]; cbn [fst snd] in *.
    + injection Hrun as <- <-. subst v.
      split; [done|]. split; [done|]. split; [auto|].
      split; [intros e He; discriminate He|]. intros p _ Hp. discriminate Hp.
    + pose proof (dem3_merge_hgt_frame zone outdir w1) as Hm.
      rewrite Hrun in Hm. cbn zeta in Hm. cbn [fst snd] in Hm.
      destruct Hm as (Hfr' & Hreq' & Herr' & Hcl).
      split; [by eapply tile_frame_trans|]. split; [lia|].
      split; [intros; rewrite Hreq'; auto|].
      split; [|intros p _; apply Hcl].
      intros e He Hno. destruct (Herr' e He) as [msg ->]. by destruct (Hno msg).
    + injection Hrun as <- <-.
      split; [done|]. split; [done|]. split; [auto|].
      split; [intros e0 _ _; by apply (Herr e)|]. intros p _ Hp. discriminate Hp.
    + injection Hrun as <- <-.
      split; [done|]. split; [done|]. split; [auto|].
      split; [intros e He; discriminate He|]. intros p _ Hp. discriminate Hp.
Qed.

(** A frame of the body of a download is, between the two lock events, a
    frame of the download. *)
Lemma with_download_lock_frame {A} (allowed : event -> Prop)
    (ofile outdir : string) (body : M A) (w : world) :
  tile_frame allowed ofile outdir (add_event (LockAcquire outdir) w)
    (snd (body (add_event (LockAcquire outdir) w))) ->
  let w' := snd (with_download_lock outdir body w) in
  server w' = server w /\ PATHS w' = PATHS w /\
  (requests w <= requests w')%nat /\
  requests w' = requests (snd (body (add_event (LockAcquire outdir) w))) /\
  (exists evs,
     trace w' = LockRelease outdir :: evs ++ LockAcquire outdir :: trace w /\
     Forall allowed evs) /\
  (forall p, (forall c, p <> path_join outdir c) -> p <> ofile ->
             fs w' !! p = fs w !! p).
Proof.
  intros [Hs Hp Hr (evs & Ht & He) Hf]. cbn zeta.
  rewrite with_download_lock_run. cbn [snd].
  set (w2 := snd (body _)) in *. simpl in *.
  repeat split; try done.
  exists evs. by rewrite Ht.
Qed.

(** X7. Traffic of a tile download, whatever the server answers and
    whatever the cache holds: at most six requests; between the
    acquisition and the release of the lock of [outdir], which bracket
    the call on every outcome, the SRTM download only requests the
    archive of its own tile and sleeps ten seconds, and the DEM3 download
    does the same and merges into the raster of its zone. *)
Theorem download_traffic (fuel : nat) (zone outdir : string) (w : world) :
  let ws := snd (download_srtm_file fuel zone outdir w) in
  let wd := snd (download_dem3_viewpano fuel zone outdir w) in
  ((requests w <= requests ws <= requests w + 6)%nat /\
   exists evs,
     trace ws = LockRelease outdir :: evs ++ LockAcquire outdir :: trace w /\
     Forall (loop_event (srtm_ifile zone)) evs) /\
  ((requests w <= requests wd <= requests w + 6)%nat /\
   exists evs,
     trace wd = LockRelease outdir :: evs ++ LockAcquire outdir :: trace w /\
     Forall (dem3_event zone outdir) evs).
Proof.
  cbn zeta. split.
  - destruct (srtm_unlocked_frame fuel zone outdir
                (add_event (LockAcquire outdir) w)) as (Hfr & Hreq & _).
    destruct (with_download_lock_frame _ _ _ _ _ Hfr)
      as (_ & _ & Hle & Heq & Htr & _).
    unfold download_srtm_file. split; [|done]. simpl in Hreq. lia.
  - destruct (dem3_unlocked_frame fuel zone outdir
                (add_event (LockAcquire outdir) w)) as (Hfr & Hreq & _).
    destruct (with_download_lock_frame _ _ _ _ _ Hfr)
      as (_ & _ & Hle & Heq & Htr & _).
    unfold download_dem3_viewpano. split; [|done]. simpl in Hreq. lia.
Qed.



(** X9. A path returned by a tile download is the path of the tile
    ([outdir/srtm_<zone>.tif], [outdir/<zone>.tif]) and names a file that
    exists when the download returns. *)
Theorem download_returns_file (fuel : nat) (zone outdir : string)
    (w w' : world) (p : string) :
  (download_srtm_file fuel zone outdir w = (Ok (Some p), w') ->
   p = srtm_out zone outdir /\ is_Some (fs w' !! p)) /\
  (download_dem3_viewpano fuel zone outdir w = (Ok (Some p), w') ->
   p = dem3_outpath zone outdir /\ is_Some (fs w' !! p)).
Proof.
  split.
  - unfold download_srtm_file. rewrite with_download_lock_run.
    destruct (_download_srtm_file_unlocked fuel zone outdir 5 _)
      as [r w2] eqn:Hrun.
    simpl. intros [= -> <-].
    by apply srtm_unlocked_success in Hrun as (-> & _ & Hout).
  - unfold download_dem3_viewpano. rewrite with_download_lock_run.
    destruct (_download_dem3_viewpano_unlocked fuel zone outdir _)
      as [r w2] eqn:Hrun.
    simpl. intros [= -> <-].
    by apply dem3_unlocked_success in Hrun as (-> & Hout).
Qed.

(** Witness for X9: the downloads served by [w_serving]. *)
Lemma download_returns_file_witness :
  ("/topo/srtm/srtm_38_03.tif" = srtm_out "38_03" "/topo/srtm" /\
   is_Some (fs (snd (download_srtm_file 6 "38_03" "/topo/srtm" w_serving))
              !! "/topo/srtm/srtm_38_03.tif")) /\
  ("/topo/dem3/R01.tif" = dem3_outpath "R01" "/topo/dem3" /\
   is_Some (fs (snd (download_dem3_viewpano 6 "R01" "/topo/dem3" w_serving))
              !! "/topo/dem3/R01.tif")).
Proof.
  split.
  - apply (proj1 (download_returns_file 6 "38_03" "/topo/srtm" w_serving _
                    "/topo/srtm/srtm_38_03.tif")).
    vm_compute. reflexivity.
  - apply (proj2 (download_returns_file 6 "R01" "/topo/dem3" w_serving _
                    "/topo/dem3/R01.tif")).
    vm_compute. reflexivity.
Defined.

(** X10. A tile download that ends in an exception raised by the retry
    loop leaves no archive behind: after any exception but the
    [AssertionError] of the SRTM download and the [RuntimeError] of the
    DEM3 download (both raised after the loop) there is no file at
    [ofile], so that the next call fetches again. *)
Theorem download_error_no_archive (fuel : nat) (zone outdir : string)
    (w w' : world) (e : exn) :
  (download_srtm_file fuel zone outdir w = (Err e, w') ->
   e <> AssertionError -> fs w' !! srtm_ofile zone outdir = None) /\
  (download_dem3_viewpano fuel zone outdir w = (Err e, w') ->
   (forall msg, e <> RuntimeError msg) ->
   fs w' !! dem3_ofile zone outdir = None).
Proof.
  split.
  - unfold download_srtm_file. rewrite with_download_lock_run.
    destruct (srtm_unlocked_frame fuel zone outdir
                (add_event (LockAcquire outdir) w)) as (_ & _ & _ & Herr).
    destruct (_download_srtm_file_unlocked fuel zone outdir 5 _) as [r w2].
    simpl in *. intros [= -> <-]. by apply Herr.
  - unfold download_dem3_viewpano. rewrite with_download_lock_run.
    destruct (dem3_unlocked_frame fuel zone outdir
                (add_event (LockAcquire outdir) w)) as (_ & _ & _ & Herr & _).
    destruct (_download_dem3_viewpano_unlocked fuel zone outdir _) as [r w2].
    simpl in *. intros [= -> <-]. by apply Herr.
Qed.

(** Witness for X10: the downloads given up in [w_overload]. *)
Lemma download_error_no_archive_witness :
  fs (snd (download_srtm_file 6 "38_03" "/topo/srtm" w_overload))
    !! srtm_ofile "38_03" "/topo/srtm" = None /\
  fs (snd (download_dem3_viewpano 6 "R01" "/topo/dem3" w_overload))
    !! dem3_ofile "R01" "/topo/dem3" = None.
Proof.
  split.
  - apply (proj1 (download_error_no_archive 6 "38_03" "/topo/srtm" w_overload
                    _ (HTTPError 503))); [vm_compute; reflexivity|discriminate].
  - apply (proj2 (download_error_no_archive 6 "R01" "/topo/dem3" w_overload
                    _ (HTTPError 503))); [vm_compute; reflexivity|discriminate].
Defined.



(** X12. Absence is not remembered.  A download answered "not found"
    returns [None] and leaves the cache as it was, so that the next call
    for the same tile asks the server again. *)
Theorem download_absence_not_cached (fuel : nat) (zone outdir : string)
    (w : world) :
  (1 <= fuel)%nat ->
  (fs w !! srtm_ofile zone outdir = None ->
   server w (requests w) (srtm_ifile zone) = HttpFailure 404 ->
   let w1 := snd (download_srtm_file fuel zone outdir w) in
   fst (download_srtm_file fuel zone outdir w) = Ok None /\
   fs w1 = fs w /\
   forall fuel', (1 <= fuel')%nat ->
     (requests w1 < requests (snd (download_srtm_file fuel' zone outdir w1)))%nat)
  /\
  (fs w !! dem3_outpath zone outdir = None ->
   fs w !! dem3_ofile zone outdir = None ->
   server w (requests w) (dem3_ifile zone) = HttpFailure 404 ->
   let w1 := snd (download_dem3_viewpano fuel zone outdir w) in
   fst (download_dem3_viewpano fuel zone outdir w) = Ok None /\
   fs w1 = fs w /\
   forall fuel', (1 <= fuel')%nat ->
     (requests w1
      < requests (snd (download_dem3_viewpano fuel' zone outdir w1)))%nat).
Proof.
  intros Hfuel. split.
  - intros Hzip H404. cbn zeta. unfold download_srtm_file.
    rewrite !with_download_lock_run. cbn [fst snd].
    set (w0 := add_event (LockAcquire outdir) w).
    assert (Hrun : _download_srtm_file_unlocked fuel zone outdir 5 w0
                   = (Ok None,
                      fetch_failed (srtm_ifile zone) (srtm_ofile zone outdir)
                        w0)).
    { unfold _download_srtm_file_unlocked, mkdir.
      rewrite (bind_ok _ _ _ _ tt) by done.
      rewrite (bind_ok _ _ _ _ _ (path_exists_absent _ w0 Hzip)). cbn [negb].
      by rewrite (bind_ok _ _ _ _ _
                    (download_loop_404 _ _ outdir 5 None O fuel w0
                       ltac:(lia) ltac:(lia) ltac:(intros; lia)
                       ltac:(by rewrite Nat.add_0_r))). }
    rewrite Hrun. cbn [fst snd]. split; [done|].
    assert (Hfs : fs (add_event (LockRelease outdir)
                        (fetch_failed (srtm_ifile zone)
                           (srtm_ofile zone outdir) w0)) = fs w).
    { simpl. by apply delete_id. }
    split; [done|]. intros fuel' Hfuel'.
    set (w1 := add_event (LockRelease outdir) _) in *.
    rewrite with_download_lock_run. cbn [snd].
    destruct (srtm_unlocked_frame fuel' zone outdir
                (add_event (LockAcquire outdir) w1)) as (_ & _ & Hone & _).
    simpl in Hone. simpl. apply Hone; [|done].
    change (fs w1 !! srtm_ofile zone outdir = None). by rewrite Hfs.
  - intros Htif Hzip H404. cbn zeta. unfold download_dem3_viewpano.
    rewrite !with_download_lock_run. cbn [fst snd].
    set (w0 := add_event (LockAcquire outdir) w).
    assert (Hrun : _download_dem3_viewpano_unlocked fuel zone outdir w0
                   = (Ok None,
                      fetch_failed (dem3_ifile zone) (dem3_ofile zone outdir)
                        w0)).
    { unfold _download_dem3_viewpano_unlocked, mkdir.
      rewrite (bind_ok _ _ _ _ tt) by done.
      rewrite (bind_ok _ _ _ _ _ (path_exists_absent _ w0 Htif)).
      rewrite (bind_ok _ _ _ _ _ (path_exists_absent _ w0 Hzip)). cbn [negb].
      by rewrite (bind_ok _ _ _ _ _
                    (download_loop_404 _ _ outdir 5 _ O fuel w0
                       ltac:(lia) ltac:(lia) ltac:(intros; lia)
                       ltac:(by rewrite Nat.add_0_r))). }
    rewrite Hrun. cbn [fst snd]. split; [done|].
    assert (Hfs : fs (add_event (LockRelease outdir)
                        (fetch_failed (dem3_ifile zone)
                           (dem3_ofile zone outdir) w0)) = fs w).
    { simpl. by apply delete_id. }
    split; [done|]. intros fuel' Hfuel'.
    set (w1 := add_event (LockRelease outdir) _) in *.
    rewrite with_download_lock_run. cbn [snd].
    destruct (dem3_unlocked_frame fuel' zone outdir
                (add_event (LockAcquire outdir) w1)) as (_ & _ & Hone & _).
    simpl in Hone. simpl. apply Hone; [| |done].
    + change (fs w1 !! dem3_outpath zone outdir = None). by rewrite Hfs.
    + change (fs w1 !! dem3_ofile zone outdir = None). by rewrite Hfs.
Qed.

(** Witness for X12, in [w_plain]. *)
Lemma download_absence_not_cached_witness :
  fst (download_srtm_file 6 "38_03" "/topo/srtm" w_plain) = Ok None /\
  fst (download_dem3_viewpano 6 "R01" "/topo/dem3" w_plain) = Ok None.
Proof.
  split.
  - apply (proj1 (download_absence_not_cached 6 "38_03" "/topo/srtm" w_plain
                    ltac:(lia))); reflexivity.
  - apply (proj2 (download_absence_not_cached 6 "R01" "/topo/dem3" w_plain
                    ltac:(lia))); reflexivity.
Defined.



(** ** Routes of the source selection *)

Lemma topo_user_block_user (source : source_arg) (w : world) (f : string) :
  PATHS w !! "dem_file" = Some f -> is_Some (fs w !! f) ->
  source = SrcNone \/ source = SrcStr "USER" ->
  topo_user_block source w = (Ok (Returns (Some f, "USER")), w).
Proof.
  intros Hf Hex Hsrc. unfold topo_user_block. rewrite Hf.
  unfold path_isfile. rewrite (bind_ok _ _ _ _ _ (path_exists_present _ _ Hex)).
  by destruct Hsrc as [-> | ->].
Qed.

Lemma user_dem_file (w : world) :
  user_dem w = true ->
  exists f, PATHS w !! "dem_file" = Some f /\ is_Some (fs w !! f).
Proof.
  unfold user_dem. destruct (PATHS w !! "dem_file") as [f|]; [|done].
  intros H%bool_decide_eq_true_1. by exists f.
Qed.

(** X14. A configured user DEM file comes first.  When
    [cfg.PATHS['dem_file']] names an existing file and the source is
    [None], ["USER"] or a list that starts with ["USER"], [get_topo_file]
    returns that file with the source ["USER"], whatever the extent and
    the region hint, with or without ['topo_dir'], and leaves the world
    untouched. *)
Theorem get_topo_file_user_dem (w : world) (lon_ex lat_ex : range)
    (rgi_region : option Z) (source : source_arg) :
  user_route w source = true ->
  exists f,
    PATHS w !! "dem_file" = Some f /\ is_Some (fs w !! f) /\
    get_topo_file lon_ex lat_ex rgi_region source w
    = (Ok (Some f, "USER"), w).
Proof.
  unfold user_route. intros [Hu Hsrc]%andb_true_iff.
  destruct (user_dem_file w Hu) as (f & Hf & Hex).
  exists f. split; [done|]. split; [done|].
  assert (Hbody : forall source,
            source = SrcNone \/ source = SrcStr "USER" ->
            get_topo_file_body lon_ex lat_ex rgi_region source w
            = (Ok (Some f, "USER"), w)).
  { intros src Hs. unfold get_topo_file_body.
    by rewrite (bind_ok _ _ _ _ _ (topo_user_block_user _ _ _ Hf Hex Hs)). }
  destruct source as [|s|[|s rest]]; try done.
  - rewrite get_topo_file_not_list by done. apply Hbody. by left.
  - apply String.eqb_eq in Hsrc as ->.
    rewrite get_topo_file_not_list by done. apply Hbody. by right.
  - apply String.eqb_eq in Hsrc as ->.
    assert (Heach : get_topo_file_each lon_ex lat_ex rgi_region
                      ("USER" :: rest) w
                    = (Ok (Some (Some f, "USER")), w)).
    { cbn [get_topo_file_each].
      rewrite (bind_ok _ _ _ _ _ (Hbody (SrcStr "USER") ltac:(by right))).
      cbn [fst]. unfold path_isfile.
      by rewrite (bind_ok _ _ _ _ _ (path_exists_present _ _ Hex)). }
    unfold get_topo_file. by rewrite (bind_ok _ _ _ _ _ Heach).
Qed.

(** Witness for X14: region 5 with a user DEM file and no
    ['topo_dir']. *)
Lemma get_topo_file_user_dem_witness :
  exists f,
    PATHS w_user !! "dem_file" = Some f /\ is_Some (fs w_user !! f) /\
    get_topo_file (10, 12)%Q (46, 47)%Q (Some 5%Z) SrcNone w_user
    = (Ok (Some f, "USER"), w_user).
Proof. apply get_topo_file_user_dem. reflexivity. Defined.

Lemma topo_user_block_goes_on (source : source_arg) (w : world) :
  user_route w source = false ->
  topo_user_block source w =
  (Ok (GoesOn (if user_dem w then src_default "USER" source else source)), w).
Proof.
  unfold user_route, user_dem, topo_user_block, bind, ret, path_isfile,
    path_exists.
  destruct (PATHS w !! "dem_file") as [f|]; [|done].
  destruct (bool_decide (is_Some (fs w !! f))); [|done]. simpl.
  destruct source as [|s|[|s rest]]; try done. simpl. by intros ->.
Qed.

Lemma topo_dir_missing (w : world) :
  PATHS w !! "topo_dir" = None -> topo_dir w = (Err (KeyError "topo_dir"), w).
Proof. intros H. unfold topo_dir. by rewrite H. Qed.

(** X15. Without ['topo_dir'] in [cfg.PATHS], every call that the USER
    block does not answer raises [KeyError], before any source is
    looked at. *)
Theorem get_topo_file_no_topo_dir (w : world) (lon_ex lat_ex : range)
    (rgi_region : option Z) (source : source_arg) :
  PATHS w !! "topo_dir" = None ->
  user_route w source = false ->
  get_topo_file lon_ex lat_ex rgi_region source w
  = (Err (KeyError "topo_dir"), w).
Proof.
  intros Htopo Hroute.
  assert (Hbody : forall source,
            user_route w source = false ->
            get_topo_file_body lon_ex lat_ex rgi_region source w
            = (Err (KeyError "topo_dir"), w)).
  { intros src Hs. unfold get_topo_file_body.
    rewrite (bind_ok _ _ _ _ _ (topo_user_block_goes_on _ _ Hs)).
    by rewrite (bind_err _ _ _ _ _ (topo_dir_missing _ Htopo)). }
  destruct source as [|s|[|s rest]].
  - rewrite get_topo_file_not_list by done. by apply Hbody.
  - rewrite get_topo_file_not_list by done. by apply Hbody.
  - unfold get_topo_file. cbn [get_topo_file_each].
    rewrite (bind_ok _ _ w w None) by done. by apply Hbody.
  - assert (Heach : get_topo_file_each lon_ex lat_ex rgi_region (s :: rest) w
                    = (Err (KeyError "topo_dir"), w)).
    { cbn [get_topo_file_each].
      by rewrite (bind_err _ _ _ _ _ (Hbody (SrcStr s) Hroute)). }
    unfold get_topo_file. by rewrite (bind_err _ _ _ _ _ Heach).
Qed.

(** Witness for X15. *)
Lemma get_topo_file_no_topo_dir_witness :
  get_topo_file (10, 12)%Q (46, 47)%Q None (SrcStr "SRTM") w_user
  = (Err (KeyError "topo_dir"), w_user).
Proof. apply get_topo_file_no_topo_dir; reflexivity. Defined.

Lemma src_eq_ne (s name : string) :
  s <> name -> src_eq (SrcStr s) name = false.
Proof. intros H. by apply String.eqb_neq. Qed.

(** A source name without a branch of its own, and ["USER"] without a
    user DEM file, pass all the blocks that pick a source: the final
    block runs with [sources] unassigned. *)
Lemma get_topo_file_body_unrouted (lon_ex lat_ex : range)
    (rgi_region : option Z) (s : string) (w : world) (topodir : string) :
  PATHS w !! "topo_dir" = Some topodir ->
  user_route w (SrcStr s) = false ->
  s ∉ ["GIMP"; "RAMP"; "DEM3"; "ASTER"; "SRTM"] ->
  get_topo_file_body lon_ex lat_ex rgi_region (SrcStr s) w
  = topo_final_block topodir (SrcStr s) None w.
Proof.
  intros Htopo Hroute Hs.
  repeat (apply not_elem_of_cons in Hs as [? Hs]).
  assert (Hg : src_eq (SrcStr s) "GIMP" = false) by by apply src_eq_ne.
  assert (Hr : src_eq (SrcStr s) "RAMP" = false) by by apply src_eq_ne.
  assert (Hd : src_eq (SrcStr s) "DEM3" = false) by by apply src_eq_ne.
  assert (Ha : src_eq (SrcStr s) "ASTER" = false) by by apply src_eq_ne.
  assert (Hm : src_eq (SrcStr s) "SRTM" = false) by by apply src_eq_ne.
  unfold get_topo_file_body.
  rewrite (bind_ok _ _ _ _ _ (topo_user_block_goes_on _ _ Hroute)).
  replace (if user_dem w then src_default "USER" (SrcStr s) else SrcStr s)
    with (SrcStr s) by (by destruct (user_dem w)).
  assert (Hdir : topo_dir w = (Ok topodir, w)).
  { unfold topo_dir. by rewrite Htopo. }
  rewrite (bind_ok _ _ _ _ _ Hdir).
  assert (Hgimp : topo_gimp_block rgi_region (SrcStr s) w
                  = (Ok (GoesOn (SrcStr s)), w)).
  { unfold topo_gimp_block. cbn [src_default]. rewrite !Hg.
    by destruct (_ || _). }
  rewrite (bind_ok _ _ _ _ _ Hgimp).
  assert (Hramp : topo_ramp_block lat_ex rgi_region (SrcStr s) w
                  = (Ok (GoesOn (SrcStr s)), w)).
  { unfold topo_ramp_block. rewrite Hr.
    destruct (_ || _); [|done].
    by destruct (Qlt_le_dec (-60) (np_max lat_ex)); cbn [src_default];
      rewrite Hr. }
  rewrite (bind_ok _ _ _ _ _ Hramp).
  assert (Htiles : topo_tiles_block lon_ex lat_ex (SrcStr s) w
                   = (Ok (SrcStr s, None), w)).
  { unfold topo_tiles_block. cbn [src_default]. rewrite !Hd, !Ha, !Hm.
    by destruct (_ || _). }
  by rewrite (bind_ok _ _ _ _ _ Htiles).
Qed.

(** X16. The source ["ETOPO1"] is answered from the topography
    directory alone: the raster [ETOPO1_Ice_g_geotiff.tif] if it is
    there, [AssertionError] if not, for every extent and region hint and
    without any call of an indexer or of a download. *)
Theorem get_topo_file_etopo1 (w : world) (lon_ex lat_ex : range)
    (rgi_region : option Z) (topodir : string) :
  PATHS w !! "topo_dir" = Some topodir ->
  get_topo_file lon_ex lat_ex rgi_region (SrcStr "ETOPO1") w =
  (if bool_decide (is_Some (fs w !! etopo1_file topodir))
   then Ok (Some (etopo1_file topodir), "ETOPO1")
   else Err AssertionError, w).
Proof.
  intros Htopo. rewrite get_topo_file_not_list by done.
  rewrite (get_topo_file_body_unrouted _ _ _ _ _ topodir Htopo).
  - unfold topo_final_block, bind, path_exists, ret, raise, etopo1_file.
    simpl. by destruct (bool_decide _).
  - unfold user_route. simpl. apply andb_false_r.
  - rewrite !not_elem_of_cons. repeat split; try done. apply not_elem_of_nil.
Qed.

(** Witness for X16. *)
Lemma get_topo_file_etopo1_witness :
  get_topo_file (10, 12)%Q (46, 47)%Q (Some 5%Z) (SrcStr "ETOPO1") w_etopo1 =
  (if bool_decide (is_Some (fs w_etopo1 !! etopo1_file "/topo"))
   then Ok (Some (etopo1_file "/topo"), "ETOPO1")
   else Err AssertionError, w_etopo1).
Proof. apply get_topo_file_etopo1. reflexivity. Defined.

Lemma not_topo_source (s : string) :
  s ∉ topo_sources ->
  s <> "USER" /\ s <> "ETOPO1" /\
  s ∉ ["GIMP"; "RAMP"; "DEM3"; "ASTER"; "SRTM"].
Proof. unfold topo_sources. rewrite !not_elem_of_cons. tauto. Qed.

(** X17. A source name for which [get_topo_file] has no branch (names
    are case sensitive), and ["USER"] without a user DEM file, are not
    rejected as such: the call ends in [UnboundLocalError]. *)
Theorem get_topo_file_unknown_source (w : world) (lon_ex lat_ex : range)
    (rgi_region : option Z) (s : string) (topodir : string) :
  PATHS w !! "topo_dir" = Some topodir ->
  s ∉ topo_sources \/ (s = "USER" /\ user_dem w = false) ->
  get_topo_file lon_ex lat_ex rgi_region (SrcStr s) w
  = (Err UnboundLocalError, w).
Proof.
  intros Htopo Hs. rewrite get_topo_file_not_list by done.
  rewrite (get_topo_file_body_unrouted _ _ _ _ _ topodir Htopo).
  - apply topo_final_block_unassigned.
    destruct Hs as [(_ & Hs & _)%not_topo_source|[-> _]]; [|done].
    by apply src_eq_ne.
  - unfold user_route.
    destruct Hs as [(Hs & _)%not_topo_source|[-> ->]]; [|done].
    replace (String.eqb s "USER") with false; [apply andb_false_r|].
    symmetry. by apply String.eqb_neq.
  - destruct Hs as [(_ & _ & Hs)%not_topo_source|[-> _]]; [done|].
    rewrite !not_elem_of_cons. repeat split; try done. apply not_elem_of_nil.
Qed.

(** Witness for X17: the name in lower case, and ["USER"] without a
    file. *)
Lemma get_topo_file_unknown_source_witness :
  get_topo_file (10, 12)%Q (46, 47)%Q None (SrcStr "srtm") w_plain
  = (Err UnboundLocalError, w_plain) /\
  get_topo_file (10, 12)%Q (46, 47)%Q None (SrcStr "USER") w_plain
  = (Err UnboundLocalError, w_plain).
Proof.
  split.
  - apply (get_topo_file_unknown_source w_plain _ _ None "srtm" "/topo");
      [reflexivity|left].
    unfold topo_sources. intros H.
    repeat (apply elem_of_cons in H as [H|H]; [discriminate H|]).
    by apply elem_of_nil in H.
  - apply (get_topo_file_unknown_source w_plain _ _ None "USER" "/topo");
      [reflexivity|right; split; reflexivity].
Defined.

Lemma np_linspace_stop (start stop : Q) (num : nat) :
  (2 <= num)%nat -> stop ∈ np_linspace start stop num.
Proof.
  intros Hnum. destruct num as [|[|n]]; [lia|lia|]. cbn [np_linspace].
  apply elem_of_app. right. by apply list_elem_of_singleton.
Qed.

Lemma dem3_samples_count (x : Q) : (0 <= x)%Q -> (2 <= np_count (Qceiling x + 3))%nat.
Proof.
  intros Hx. assert (0 <= Qceiling x)%Z.
  { rewrite <- (Qceiling_Z 0). apply Qceiling_resp_le.
    by change (inject_Z 0) with 0%Q. }
  unfold np_count. lia.
Qed.

Lemma dem3_inset_chain_nonempty (lon_ran lat_ran : range)
    (cases : list (box * list string)) (_f : string) :
  Forall (fun c : box * list string => snd c <> []) cases ->
  dem3_inset_chain lon_ran lat_ran cases _f <> [].
Proof.
  induction 1 as [|[b zs] cases Hc _ IH]; simpl; [done|].
  by destruct (in_box lon_ran lat_ran b).
Qed.

Lemma dem3_region_loop_nonempty (lon_ran lat_ran : range)
    (extra_reg : list (string * box)) (zs : list string) :
  dem3_region_loop lon_ran lat_ran extra_reg = Some zs -> zs <> [].
Proof.
  induction extra_reg as [|[f b] rest IH]; [done|]. cbn [dem3_region_loop].
  destruct (in_box lon_ran lat_ran b); [|done].
  intros Hzs.
  replace zs with (dem3_inset_chain lon_ran lat_ran dem3_insets f)
    by (injection Hzs as Hzs; exact Hzs).
  apply dem3_inset_chain_nonempty. by repeat constructor.
Qed.

Lemma dem3_viewpano_zone_nonempty (lon_ran lat_ran : range)
    (extra_reg : list (string * box)) :
  dem3_viewpano_zone lon_ran lat_ran extra_reg <> [].
Proof.
  unfold dem3_viewpano_zone.
  destruct (dem3_region_loop lon_ran lat_ran extra_reg) as [zs|] eqn:Hreg.
  - by apply (dem3_region_loop_nonempty lon_ran lat_ran extra_reg).
  - rewrite dem3_generic_unfold.
    pose proof (srtm_samples_span lon_ran) as Hlon.
    pose proof (srtm_samples_span lat_ran) as Hlat.
    assert (Hx : np_max lon_ran ∈ dem3_samples_lon lon_ran).
    { apply np_linspace_stop, dem3_samples_count.
      unfold Qdiv. change (/ 4)%Q with (1#4)%Q. lra. }
    assert (Hy : np_max lat_ran ∈ dem3_samples_lat lat_ran).
    { apply np_linspace_stop, dem3_samples_count.
      unfold Qdiv. change (/ 6)%Q with (1#6)%Q. lra. }
    intros Hnil.
    apply (elem_of_nil (dem3_point (np_max lon_ran) (np_max lat_ran))).
    rewrite <- Hnil. apply elem_of_py_sorted_set.
    apply list_elem_of_In, in_flat_map. exists (np_max lon_ran).
    split; [by apply list_elem_of_In|]. apply in_map_iff.
    exists (np_max lat_ran). split; [done|by apply list_elem_of_In].
Qed.

(** X18. The region hint, with no source and no user DEM file.  Region
    5 goes to the Greenland raster for every extent.  Region 19 goes to
    the Antarctic raster when the extent lies south of 60 degrees south,
    and to the DEM3 indexer as soon as its maximum latitude is north of
    that, also within 60 degrees of the equator.  On the code as it is,
    each of these routes then raises [TypeError] at its download call. *)
Theorem get_topo_file_region_hint (w : world) (lon_ex lat_ex : range)
    (topodir : string) :
  PATHS w !! "topo_dir" = Some topodir -> user_dem w = false ->
  get_topo_file lon_ex lat_ex (Some 5%Z) SrcNone w
  = (Err TypeError, add_event (Call "_download_alternate_topo_file") w) /\
  get_topo_file lon_ex lat_ex (Some 19%Z) SrcNone w
  = (Err TypeError,
     add_event (Call (if Qlt_le_dec (-60) (np_max lat_ex)
                      then "dem3_viewpano_zone"
                      else "_download_alternate_topo_file")) w).
Proof.
  intros Htopo Huser.
  assert (Hdir : topo_dir w = (Ok topodir, w)).
  { unfold topo_dir. by rewrite Htopo. }
  split.
  - rewrite get_topo_file_not_list by done. unfold get_topo_file_body.
    rewrite (bind_ok _ _ _ _ _ (topo_user_block_none _ Huser)).
    by rewrite (bind_ok _ _ _ _ _ Hdir).
  - rewrite get_topo_file_not_list by done. unfold get_topo_file_body.
    rewrite (bind_ok _ _ _ _ _ (topo_user_block_none _ Huser)).
    rewrite (bind_ok _ _ _ _ _ Hdir).
    rewrite (bind_ok _ _ _ _ _ (topo_gimp_block_none (Some 19%Z) w eq_refl)).
    unfold topo_ramp_block. cbn [src_eq region_is orb Z.eqb Pos.eqb].
    destruct (Qlt_le_dec (-60) (np_max lat_ex)); cbn [src_default src_eq].
    + change (String.eqb "DEM3" "RAMP") with false. cbn iota.
      rewrite (bind_ok _ _ w w (GoesOn (SrcStr "DEM3"))) by done.
      unfold bind at 1. rewrite topo_tiles_block_dem3 by (by left).
      pose proof (dem3_viewpano_zone_nonempty lon_ex lat_ex DEM3REG).
      by destruct (dem3_viewpano_zone lon_ex lat_ex DEM3REG).
    + by change (String.eqb "RAMP" "RAMP") with true.
Qed.

(** Witness for X18: an extent in Greenland, and South Georgia. *)
Lemma get_topo_file_region_hint_witness :
  get_topo_file (-50, -49)%Q (67, 68)%Q (Some 5%Z) SrcNone w_plain
  = (Err TypeError, add_event (Call "_download_alternate_topo_file") w_plain)
  /\
  get_topo_file (-38, -37)%Q (-55, -54)%Q (Some 19%Z) SrcNone w_plain
  = (Err TypeError,
     add_event (Call (if Qlt_le_dec (-60) (np_max (-55, -54)%Q)
                      then "dem3_viewpano_zone"
                      else "_download_alternate_topo_file")) w_plain).
Proof.
  split.
  - apply (proj1 (get_topo_file_region_hint w_plain (-50, -49)%Q (67, 68)%Q
                    "/topo" eq_refl eq_refl)).
  - apply (proj2 (get_topo_file_region_hint w_plain (-38, -37)%Q
                    (-55, -54)%Q "/topo" eq_refl eq_refl)).
Defined.

(** X19. A list of sources is tried in order, and only as long as
    nothing is raised: an exception of the first source is the outcome of
    the call, whatever follows in the list, and a first source that
    returns an existing file is returned without the others being
    tried. *)
Theorem get_topo_file_list (lon_ex lat_ex : range) (rgi_region : option Z)
    (s : string) (rest : list string) (w w' : world) :
  (forall e,
     get_topo_file lon_ex lat_ex rgi_region (SrcStr s) w = (Err e, w') ->
     get_topo_file lon_ex lat_ex rgi_region (SrcList (s :: rest)) w
     = (Err e, w')) /\
  (forall f name,
     get_topo_file lon_ex lat_ex rgi_region (SrcStr s) w
     = (Ok (Some f, name), w') ->
     is_Some (fs w' !! f) ->
     get_topo_file lon_ex lat_ex rgi_region (SrcList (s :: rest)) w
     = (Ok (Some f, name), w')).
Proof.
  split.
  - intros e. rewrite get_topo_file_not_list by done. intros Hbody.
    assert (Heach : get_topo_file_each lon_ex lat_ex rgi_region (s :: rest) w
                    = (Err e, w')).
    { cbn [get_topo_file_each]. by rewrite (bind_err _ _ _ _ _ Hbody). }
    unfold get_topo_file. by rewrite (bind_err _ _ _ _ _ Heach).
  - intros f name. rewrite get_topo_file_not_list by done. intros Hbody Hex.
    assert (Heach : get_topo_file_each lon_ex lat_ex rgi_region (s :: rest) w
                    = (Ok (Some (Some f, name)), w')).
    { cbn [get_topo_file_each]. rewrite (bind_ok _ _ _ _ _ Hbody).
      cbn [fst]. unfold path_isfile.
      by rewrite (bind_ok _ _ _ _ _ (path_exists_present _ _ Hex)). }
    unfold get_topo_file. by rewrite (bind_ok _ _ _ _ _ Heach).
Qed.

(** Witness for X19: the ETOPO1 raster is in the cache, and is reached
    only when it comes first. *)
Lemma get_topo_file_list_witness :
  get_topo_file (10, 12)%Q (46, 47)%Q None (SrcList ["SRTM"; "ETOPO1"]) w_etopo1
  = (Err TypeError, add_event (Call "srtm_zone") w_etopo1) /\
  get_topo_file (10, 12)%Q (46, 47)%Q None (SrcList ["ETOPO1"; "SRTM"]) w_etopo1
  = (Ok (Some "/topo/ETOPO1_Ice_g_geotiff.tif", "ETOPO1"), w_etopo1).
Proof.
  split.
  - apply (proj1 (get_topo_file_list (10, 12)%Q (46, 47)%Q None "SRTM"
                    ["ETOPO1"] w_etopo1 _)).
    vm_compute. reflexivity.
  - apply (proj2 (get_topo_file_list (10, 12)%Q (46, 47)%Q None "ETOPO1"
                    ["SRTM"] w_etopo1 _)).
    + vm_compute. reflexivity.
    + vm_compute. by eexists.
Defined.

Lemma quiet_refl (w : world) : quiet w w.
Proof. by repeat split. Qed.

Lemma quiet_add_event (e : event) (w : world) : quiet w (add_event e w).
Proof. by repeat split. Qed.

Lemma quiet_trans (w1 w2 w3 : world) : quiet w1 w2 -> quiet w2 w3 -> quiet w1 w3.
Proof.
  intros (? & ? & ? & ?) (? & ? & ? & ?). repeat split; congruence.
Qed.

Lemma srtm_zone_returns (lon_ran lat_ran : range) :
  srtm_zone lon_ran lat_ran <> OutOfFuel.
Proof.
  destruct (Qlt_le_dec (np_max lat_ran) 60) as [Hlt|Hge].
  - by rewrite srtm_zone_below_60.
  - by rewrite srtm_zone_from_60.
Qed.

Lemma topo_tiles_block_other (lon_ex lat_ex : range) (s : string) (w : world) :
  s <> "DEM3" -> s <> "ASTER" -> s <> "SRTM" ->
  topo_tiles_block lon_ex lat_ex (SrcStr s) w = (Ok (SrcStr s, None), w).
Proof.
  intros Hd%src_eq_ne Ha%src_eq_ne Hm%src_eq_ne.
  unfold topo_tiles_block. cbn [src_default]. rewrite !Hd, !Ha, !Hm.
  by destruct (_ || _).
Qed.

(** The tile block, on the code as it is: it returns with [sources]
    unassigned and the world untouched, or with [sources] empty for one
    of the three tiled sources, or it raises. *)
Lemma topo_tiles_block_outcome (lon_ex lat_ex : range) (source : source_arg)
    (w : world) :
  quiet w (snd (topo_tiles_block lon_ex lat_ex source w)) /\
  match fst (topo_tiles_block lon_ex lat_ex source w) with
  | Ok (_, None) => snd (topo_tiles_block lon_ex lat_ex source w) = w
  | Ok (s', Some (_, sources, _)) =>
      sources = [] /\ src_eq s' "ETOPO1" = false
  | Err _ => True
  | OutOfFuel => False
  end.
Proof.
  assert (Hsrtm : forall source,
    source = SrcNone \/ source = SrcStr "SRTM" ->
    (-60 <= np_min lat_ex)%Q -> (np_max lat_ex <= 60)%Q ->
    quiet w (snd (topo_tiles_block lon_ex lat_ex source w)) /\
    match fst (topo_tiles_block lon_ex lat_ex source w) with
    | Ok (_, None) => snd (topo_tiles_block lon_ex lat_ex source w) = w
    | Ok (s', Some (_, sources, _)) =>
        sources = [] /\ src_eq s' "ETOPO1" = false
    | Err _ => True
    | OutOfFuel => False
    end).
  { intros src Hsrc Hmin Hmax. rewrite topo_tiles_block_srtm by done.
    cbn [fst snd]. split; [apply quiet_add_event|].
    pose proof (srtm_zone_returns lon_ex lat_ex).
    by destruct (srtm_zone lon_ex lat_ex) as [[|z zs]| |]. }
  assert (Hdem3 : forall source,
    source = SrcStr "DEM3" \/
    (source = SrcNone /\
     ((np_min lat_ex < -60)%Q \/ (60 < np_max lat_ex)%Q)) ->
    quiet w (snd (topo_tiles_block lon_ex lat_ex source w)) /\
    match fst (topo_tiles_block lon_ex lat_ex source w) with
    | Ok (_, None) => snd (topo_tiles_block lon_ex lat_ex source w) = w
    | Ok (s', Some (_, sources, _)) =>
        sources = [] /\ src_eq s' "ETOPO1" = false
    | Err _ => True
    | OutOfFuel => False
    end).
  { intros src Hsrc. rewrite topo_tiles_block_dem3 by done.
    cbn [fst snd]. split; [apply quiet_add_event|].
    by destruct (dem3_viewpano_zone lon_ex lat_ex DEM3REG). }
  destruct source as [|s|l].
  - destruct (Qlt_le_dec (np_min lat_ex) (-60)) as [Hlo|Hlo];
      [apply Hdem3; right; split; [done|by left]|].
    destruct (Qlt_le_dec 60 (np_max lat_ex)) as [Hhi|Hhi];
      [apply Hdem3; right; split; [done|by right]|].
    apply Hsrtm; [by left|done..].
  - destruct (decide (s = "DEM3")) as [->|Hd]; [apply Hdem3; by left|].
    destruct (decide (s = "ASTER")) as [->|Ha].
    { rewrite topo_tiles_block_aster.
      destruct (zip _ _); cbn [fst snd].
      - split; [apply quiet_add_event|done].
      - split; [|done].
        eapply quiet_trans; apply quiet_add_event. }
    destruct (decide (s = "SRTM")) as [->|Hm].
    { destruct (Qlt_le_dec (np_min lat_ex) (-60)) as [Hlo|Hlo].
      { rewrite topo_tiles_block_unassigned by (right; split; [done|by left]).
        split; [apply quiet_refl|done]. }
      destruct (Qlt_le_dec 60 (np_max lat_ex)) as [Hhi|Hhi].
      { rewrite topo_tiles_block_unassigned by (right; split; [done|by right]).
        split; [apply quiet_refl|done]. }
      apply Hsrtm; [by right|done..]. }
    rewrite topo_tiles_block_other by done. split; [apply quiet_refl|done].
  - rewrite topo_tiles_block_unassigned by (left; by exists l).
    split; [apply quiet_refl|done].
Qed.

(** The final block when [sources] is unassigned or empty: only the
    ETOPO1 raster can be returned. *)
Lemma topo_final_block_outcome (topodir : string) (source : source_arg)
    (locals : tile_locals) (w : world) :
  match locals with
  | None => True
  | Some (_, sources, _) => sources = [] /\ src_eq source "ETOPO1" = false
  end ->
  snd (topo_final_block topodir source locals w) = w /\
  match fst (topo_final_block topodir source locals w) with
  | Ok (Some f, name) =>
      is_Some (fs w !! f) /\ name = "ETOPO1" /\ src_eq source "ETOPO1" = true
  | Ok (None, _) => False
  | Err _ => True
  | OutOfFuel => False
  end.
Proof.
  intros Hloc. unfold topo_final_block.
  destruct (src_eq source "ETOPO1") eqn:Hsrc.
  - unfold bind, path_exists, ret, raise.
    destruct (bool_decide _) eqn:Hex; cbn [fst snd]; [|done].
    by apply bool_decide_eq_true_1 in Hex.
  - destruct locals as [[[zones sources] name]|]; [|done].
    by destruct Hloc as [-> _].
Qed.

Lemma topo_user_block_cases (source : source_arg) (w : world) :
  (exists f, topo_user_block source w = (Ok (Returns (Some f, "USER")), w) /\
             is_Some (fs w !! f)) \/
  (exists source', topo_user_block source w = (Ok (GoesOn source'), w)).
Proof.
  unfold topo_user_block, bind, ret, path_isfile, path_exists.
  destruct (PATHS w !! "dem_file") as [f|]; [|right; by eexists].
  destruct (bool_decide (is_Some (fs w !! f))) eqn:Hex; [|right; by eexists].
  apply bool_decide_eq_true_1 in Hex.
  destruct (src_eq (src_default "USER" source) "USER");
    [left; by exists f|right; by eexists].
Qed.

Lemma topo_gimp_block_cases (rgi_region : option Z) (source : source_arg)
    (w : world) :
  (exists source',
     topo_gimp_block rgi_region source w = (Ok (GoesOn source'), w)) \/
  (exists w', topo_gimp_block rgi_region source w = (Err TypeError, w') /\
              quiet w w').
Proof.
  unfold topo_gimp_block.
  destruct (_ || _); [|left; by eexists].
  destruct (src_eq _ "GIMP"); [|left; by eexists].
  right. eexists. split; [done|apply quiet_add_event].
Qed.

Lemma topo_ramp_block_cases (lat_ex : range) (rgi_region : option Z)
    (source : source_arg) (w : world) :
  (exists source',
     topo_ramp_block lat_ex rgi_region source w = (Ok (GoesOn source'), w)) \/
  (exists w', topo_ramp_block lat_ex rgi_region source w = (Err TypeError, w') /\
              quiet w w').
Proof.
  unfold topo_ramp_block.
  destruct (_ || _); [|left; by eexists].
  destruct (src_eq _ "RAMP"); [|left; by eexists].
  right. eexists. split; [done|apply quiet_add_event].
Qed.

Lemma get_topo_file_body_outcome (lon_ex lat_ex : range)
    (rgi_region : option Z) (source : source_arg) (w : world) :
  topo_outcome w
    (fst (get_topo_file_body lon_ex lat_ex rgi_region source w))
    (snd (get_topo_file_body lon_ex lat_ex rgi_region source w)).
Proof.
  destruct (get_topo_file_body lon_ex lat_ex rgi_region source w)
    as [r w'] eqn:Hrun.
  cbn [fst snd]. unfold get_topo_file_body in Hrun.
  destruct (topo_user_block_cases source w) as [(f & Hu & Hf)|(s1 & Hu)].
  { rewrite (bind_ok _ _ _ _ _ Hu) in Hrun. injection Hrun as <- <-.
    split; [apply quiet_refl|]. split; [done|]. split; [done|by left]. }
  rewrite (bind_ok _ _ _ _ _ Hu) in Hrun.
  destruct (PATHS w !! "topo_dir") as [topodir|] eqn:Htopo.
  2:{ rewrite (bind_err _ _ _ _ _ (topo_dir_missing _ Htopo)) in Hrun.
      injection Hrun as <- <-. split; [apply quiet_refl|done]. }
  assert (Hdir : topo_dir w = (Ok topodir, w)).
  { unfold topo_dir. by rewrite Htopo. }
  rewrite (bind_ok _ _ _ _ _ Hdir) in Hrun.
  destruct (topo_gimp_block_cases rgi_region s1 w)
    as [(s2 & Hg)|(w1 & Hg & Hq)].
  2:{ rewrite (bind_err _ _ _ _ _ Hg) in Hrun. by injection Hrun as <- <-. }
  rewrite (bind_ok _ _ _ _ _ Hg) in Hrun.
  destruct (topo_ramp_block_cases lat_ex rgi_region s2 w)
    as [(s3 & Hr)|(w1 & Hr & Hq)].
  2:{ rewrite (bind_err _ _ _ _ _ Hr) in Hrun. by injection Hrun as <- <-. }
  rewrite (bind_ok _ _ _ _ _ Hr) in Hrun.
  destruct (topo_tiles_block_outcome lon_ex lat_ex s3 w) as [Hq Ht].
  unfold bind in Hrun.
  destruct (topo_tiles_block lon_ex lat_ex s3 w) as [[[s4 locals]|e|] w1];
    cbn [fst snd] in *; [|by injection Hrun as <- <-|done].
  destruct (topo_final_block_outcome topodir s4 locals w1) as [Hw Hf].
  { by destruct locals as [[[zones sources] name]|]. }
  rewrite Hrun in Hw, Hf. cbn [fst snd] in *. subst w'.
  split; [done|].
  destruct r as [[[p|] name]|e|]; try done.
  destruct Hf as (Hp & -> & Hsrc).
  destruct locals as [[[zones sources] name]|].
  - destruct Ht as [_ Hne]. by rewrite Hne in Hsrc.
  - subst w1. split; [done|]. split; [done|by right].
Qed.

(** The loop over a list of sources. *)
Lemma get_topo_file_each_outcome (lon_ex lat_ex : range)
    (rgi_region : option Z) (l : list string) (w : world) :
  quiet w (snd (get_topo_file_each lon_ex lat_ex rgi_region l w)) /\
  match fst (get_topo_file_each lon_ex lat_ex rgi_region l w) with
  | Ok (Some r) =>
      topo_outcome w (Ok r)
        (snd (get_topo_file_each lon_ex lat_ex rgi_region l w))
  | Ok None => snd (get_topo_file_each lon_ex lat_ex rgi_region l w) = w
  | Err _ => True
  | OutOfFuel => False
  end.
Proof.
  induction l as [|s l IH]; [split; [apply quiet_refl|done]|].
  destruct (get_topo_file_each lon_ex lat_ex rgi_region (s :: l) w)
    as [r w'] eqn:Hrun.
  cbn [fst snd]. cbn [get_topo_file_each] in Hrun.
  pose proof (get_topo_file_body_outcome lon_ex lat_ex rgi_region (SrcStr s) w)
    as [Hq Hr].
  unfold bind at 1 in Hrun.
  destruct (get_topo_file_body lon_ex lat_ex rgi_region (SrcStr s) w)
    as [[[[f|] name]|e|] w1]; cbn [fst snd] in *; try done.
  - destruct Hr as (-> & Hf & Hname).
    unfold path_isfile in Hrun.
    rewrite (bind_ok _ _ _ _ _ (path_exists_present _ _ Hf)) in Hrun.
    injection Hrun as <- <-.
    split; [done|]. split; [apply quiet_refl|by repeat split].
  - by injection Hrun as <- <-.
Qed.

(** X20. What [get_topo_file] can end in, on the code as it is, for
    every extent, region hint, source and world: it sends no request and
    leaves the cache and the configuration as they are; it never returns
    without a file; and when it returns, the file exists, the source is
    ["USER"] or ["ETOPO1"], and nothing was recorded.  Every tiled route
    raises. *)
Theorem get_topo_file_outcomes (lon_ex lat_ex : range)
    (rgi_region : option Z) (source : source_arg) (w : world) :
  topo_outcome w
    (fst (get_topo_file lon_ex lat_ex rgi_region source w))
    (snd (get_topo_file lon_ex lat_ex rgi_region source w)).
Proof.
  destruct source as [|s|l].
  - rewrite get_topo_file_not_list by done. apply get_topo_file_body_outcome.
  - rewrite get_topo_file_not_list by done. apply get_topo_file_body_outcome.
  - destruct (get_topo_file lon_ex lat_ex rgi_region (SrcList l) w)
      as [r w'] eqn:Hrun.
    cbn [fst snd]. unfold get_topo_file in Hrun.
    pose proof (get_topo_file_each_outcome lon_ex lat_ex rgi_region l w)
      as [Hq Hr].
    unfold bind at 1 in Hrun.
    destruct (get_topo_file_each lon_ex lat_ex rgi_region l w)
      as [[[r1|]|e|] w1]; cbn [fst snd] in *.
    + by injection Hrun as <- <-.
    + subst w1.
      pose proof (get_topo_file_body_outcome lon_ex lat_ex rgi_region
                    (SrcList l) w) as Hb.
      by rewrite Hrun in Hb.
    + by injection Hrun as <- <-.
    + done.
Qed.

(** ** Downloads from the bucket *)

Lemma aws_s3_cp_served (src dst : string) (f : file) (w : world) :
  server w (requests w) src = Served f ->
  aws_s3_cp src dst w = (Ok tt, transfer_done src dst f w).
Proof. intros H. unfold aws_s3_cp. by rewrite H. Qed.

Lemma aws_s3_cp_failed (src dst : string) (w : world) :
  (forall f, server w (requests w) src <> Served f) ->
  aws_s3_cp src dst w = (Ok tt, transfer_failed src w).
Proof.
  intros H. unfold aws_s3_cp.
  destruct (server w (requests w) src) as [f| | |]; try done.
  by destruct (H f).
Qed.

(** The shared part of the two downloads, by the state of the cache and
    the answer of the bucket. *)
Lemma aws_fetch_extract_cached (src ofile odir out : string) (w : world) :
  is_Some (fs w !! ofile) ->
  aws_fetch_extract src ofile odir out w =
  (if bool_decide (is_Some (fs w !! out)) then Ok (Some out)
   else Err AssertionError, w).
Proof.
  intros Hzip. unfold aws_fetch_extract.
  rewrite (bind_ok _ _ _ _ _ (path_exists_present _ _ Hzip)). cbn [negb].
  rewrite (bind_ok _ _ w w None) by done.
  unfold bind, path_exists, ret, raise. by destruct (bool_decide _).
Qed.

Lemma aws_fetch_extract_missing (src ofile odir out : string) (w : world) :
  fs w !! ofile = None ->
  (forall f, server w (requests w) src <> Served f) ->
  aws_fetch_extract src ofile odir out w = (Ok None, transfer_failed src w).
Proof.
  intros Hzip Hsrv. unfold aws_fetch_extract.
  rewrite (bind_ok _ _ _ _ _ (path_exists_absent _ _ Hzip)). cbn [negb].
  unfold bind at 1. unfold bind at 1.
  rewrite (aws_s3_cp_failed _ _ _ Hsrv).
  rewrite (bind_ok _ _ _ _ _ (path_exists_absent _ (transfer_failed src w) Hzip)).
  done.
Qed.

Lemma aws_fetch_extract_corrupt (src ofile odir out : string) (w : world) :
  fs w !! ofile = None ->
  server w (requests w) src = Served Blob ->
  aws_fetch_extract src ofile odir out w
  = (Err BadZipfile, transfer_done src ofile Blob w).
Proof.
  intros Hzip Hsrv. unfold aws_fetch_extract.
  rewrite (bind_ok _ _ _ _ _ (path_exists_absent _ _ Hzip)). cbn [negb].
  unfold bind at 1. unfold bind at 1.
  rewrite (aws_s3_cp_served _ _ _ _ Hsrv).
  assert (Hin : is_Some (fs (transfer_done src ofile Blob w) !! ofile)).
  { simpl. rewrite lookup_insert_eq. by eexists. }
  rewrite (bind_ok _ _ _ _ _ (path_exists_present _ _ Hin)).
  unfold bind, zip_extractall. simpl. by rewrite lookup_insert_eq.
Qed.

Lemma aws_fetch_extract_served (src ofile odir out : string)
    (members : list string) (w : world) :
  fs w !! ofile = None ->
  server w (requests w) src = Served (ZipArchive members) ->
  exists w',
    fs w' = foldr (fun name m => <[path_join odir name := Blob]> m)
              (<[ofile := ZipArchive members]> (fs w)) members /\
    requests w' = S (requests w) /\
    aws_fetch_extract src ofile odir out w =
    (if bool_decide (is_Some (fs w' !! out)) then Ok (Some out)
     else Err AssertionError, w').
Proof.
  intros Hzip Hsrv. unfold aws_fetch_extract.
  rewrite (bind_ok _ _ _ _ _ (path_exists_absent _ _ Hzip)). cbn [negb].
  unfold bind at 1. unfold bind at 1.
  rewrite (aws_s3_cp_served _ _ _ _ Hsrv).
  set (w1 := transfer_done src ofile (ZipArchive members) w).
  assert (Hin : fs w1 !! ofile = Some (ZipArchive members)).
  { simpl. by rewrite lookup_insert_eq. }
  rewrite (bind_ok _ _ _ _ _
             (path_exists_present _ _ (mk_is_Some _ _ Hin))).
  unfold bind at 1. unfold zip_extractall. rewrite Hin.
  exists (set_fs (fun m =>
            foldr (fun name m => <[path_join odir name := Blob]> m) m members)
            w1).
  split; [done|]. split; [done|].
  unfold bind, path_exists, ret, raise. by destruct (bool_decide _).
Qed.

Lemma extract_member (outdir : string) (members : list string)
    (m : gmap string file) (name : string) :
  name ∈ members ->
  is_Some (foldr (fun name m => <[path_join outdir name := Blob]> m) m members
           !! path_join outdir name).
Proof.
  induction members as [|x members IH]; intros Hin;
    [by apply elem_of_nil in Hin|].
  simpl. apply elem_of_cons in Hin as [<-|Hin].
  - rewrite lookup_insert_eq. by eexists.
  - rewrite lookup_insert_is_Some.
    destruct (decide (path_join outdir x = path_join outdir name)); auto.
Qed.

(** When the shared part returns a path, it is [out], and the archive and
    [out] are in the cache. *)
Lemma aws_fetch_extract_success (src ofile odir out : string) (w w' : world)
    (p : string) :
  aws_fetch_extract src ofile odir out w = (Ok (Some p), w') ->
  p = out /\ is_Some (fs w' !! ofile) /\ is_Some (fs w' !! out) /\
  PATHS w' = PATHS w.
Proof.
  destruct (fs w !! ofile) as [f0|] eqn:Hzip.
  - rewrite aws_fetch_extract_cached by (by eexists).
    destruct (bool_decide _) eqn:Hout; [|done].
    apply bool_decide_eq_true_1 in Hout. intros [= <- <-].
    split; [done|]. split; [by eexists|done].
  - destruct (server w (requests w) src) as [[members|]|code| |] eqn:Hsrv.
    + destruct (aws_fetch_extract_served _ _ odir out _ w Hzip Hsrv)
        as (w1 & Hfs & Hreq & Hrun).
      rewrite Hrun. destruct (bool_decide _) eqn:Hout; [|done].
      apply bool_decide_eq_true_1 in Hout. intros [= <- <-].
      split; [done|]. split; [|split; [done|]].
      * rewrite Hfs. apply extract_keeps. rewrite lookup_insert_eq. by eexists.
      * revert Hrun. unfold aws_fetch_extract.
        rewrite (bind_ok _ _ _ _ _ (path_exists_absent _ _ Hzip)). cbn [negb].
        unfold bind at 1. unfold bind at 1.
        rewrite (aws_s3_cp_served _ _ _ _ Hsrv).
        unfold bind, path_exists, zip_extractall, ret, raise. simpl.
        rewrite lookup_insert_eq. simpl. rewrite lookup_insert_eq.
        destruct (bool_decide _); by intros [= <-].
    + by rewrite aws_fetch_extract_corrupt.
    + rewrite aws_fetch_extract_missing; [done|done|by intros f; rewrite Hsrv].
    + rewrite aws_fetch_extract_missing; [done|done|by intros f; rewrite Hsrv].
    + rewrite aws_fetch_extract_missing; [done|done|by intros f; rewrite Hsrv].
Qed.

(** When the shared part returns [None], the transfer has failed and has
    left nothing in the cache. *)
Lemma aws_fetch_extract_absence (src ofile odir out : string) (w w' : world) :
  aws_fetch_extract src ofile odir out w = (Ok None, w') ->
  fs w' !! ofile = None /\ PATHS w' = PATHS w.
Proof.
  destruct (fs w !! ofile) as [f0|] eqn:Hzip.
  - rewrite aws_fetch_extract_cached by (by eexists).
    by destruct (bool_decide _).
  - destruct (server w (requests w) src) as [[members|]|code| |] eqn:Hsrv.
    + destruct (aws_fetch_extract_served _ _ odir out _ w Hzip Hsrv)
        as (w1 & Hfs & Hreq & ->).
      by destruct (bool_decide _).
    + by rewrite aws_fetch_extract_corrupt.
    + rewrite aws_fetch_extract_missing;
        [by intros [= <-]|done|by intros f; rewrite Hsrv].
    + rewrite aws_fetch_extract_missing;
        [by intros [= <-]|done|by intros f; rewrite Hsrv].
    + rewrite aws_fetch_extract_missing;
        [by intros [= <-]|done|by intros f; rewrite Hsrv].
Qed.

(** Without the archive in the cache, the shared part asks the bucket,
    once. *)
Lemma aws_fetch_extract_transfers (src ofile odir out : string) (w : world) :
  fs w !! ofile = None ->
  requests (snd (aws_fetch_extract src ofile odir out w)) = S (requests w).
Proof.
  intros Hzip.
  destruct (server w (requests w) src) as [[members|]|code| |] eqn:Hsrv.
  - destruct (aws_fetch_extract_served _ _ odir out _ w Hzip Hsrv)
      as (w1 & Hfs & Hreq & ->). done.
  - by rewrite aws_fetch_extract_corrupt.
  - rewrite aws_fetch_extract_missing; [done|done|by intros f; rewrite Hsrv].
  - rewrite aws_fetch_extract_missing; [done|done|by intros f; rewrite Hsrv].
  - rewrite aws_fetch_extract_missing; [done|done|by intros f; rewrite Hsrv].
Qed.

Lemma aster_unlocked_run (zone unit topodir : string) (w : world) :
  PATHS w !! "topo_dir" = Some topodir ->
  _download_aster_file_unlocked zone unit w =
  aws_fetch_extract (aster_object zone unit) (aster_ofile topodir zone)
    (aster_odir topodir) (aster_out topodir zone) w.
Proof.
  intros Htopo. unfold _download_aster_file_unlocked.
  assert (Hdir : topo_dir w = (Ok topodir, w)).
  { unfold topo_dir. by rewrite Htopo. }
  rewrite (bind_ok _ _ _ _ _ Hdir). by rewrite (bind_ok _ _ w w tt).
Qed.

Lemma alternate_unlocked_run (fname topodir : string) (w : world) :
  PATHS w !! "topo_dir" = Some topodir ->
  _download_alternate_topo_file_unlocked fname w =
  aws_fetch_extract ("s3://astgtmv2/topo/" +:+ fname +:+ ".zip")
    (path_join (path_join topodir "alternate") (fname +:+ ".zip"))
    (path_join topodir "alternate")
    (path_join (path_join topodir "alternate") fname) w.
Proof.
  intros Htopo. unfold _download_alternate_topo_file_unlocked.
  assert (Hdir : topo_dir w = (Ok topodir, w)).
  { unfold topo_dir. by rewrite Htopo. }
  rewrite (bind_ok _ _ _ _ _ Hdir). by rewrite (bind_ok _ _ w w tt).
Qed.

(** X21. [_download_aster_file_unlocked], by the state of the cache and
    the answer of the bucket (with ['topo_dir'] configured).  An archive
    in the cache is never transferred again: the tile is returned if it
    is extracted, [AssertionError] raised if not.  A transfer that
    delivers nothing gives [None] and writes nothing.  A delivered file
    that is not a zip archive raises [BadZipfile] (no handler here) and
    stays in the cache.  A delivered archive that holds the tile gives
    the path of the tile after that single transfer. *)
Theorem aster_download_outcomes (zone unit topodir : string) (w : world) :
  PATHS w !! "topo_dir" = Some topodir ->
  let ofile := aster_ofile topodir zone in
  let src := aster_object zone unit in
  (is_Some (fs w !! ofile) ->
   _download_aster_file_unlocked zone unit w =
   (if bool_decide (is_Some (fs w !! aster_out topodir zone))
    then Ok (Some (aster_out topodir zone)) else Err AssertionError, w)) /\
  (fs w !! ofile = None ->
   (forall f, server w (requests w) src <> Served f) ->
   _download_aster_file_unlocked zone unit w
   = (Ok None, transfer_failed src w)) /\
  (fs w !! ofile = None ->
   server w (requests w) src = Served Blob ->
   _download_aster_file_unlocked zone unit w
   = (Err BadZipfile, transfer_done src ofile Blob w)) /\
  (forall members,
     fs w !! ofile = None ->
     server w (requests w) src = Served (ZipArchive members) ->
     "ASTGTM2_" +:+ zone +:+ "_dem.tif" ∈ members ->
     fst (_download_aster_file_unlocked zone unit w)
     = Ok (Some (aster_out topodir zone)) /\
     requests (snd (_download_aster_file_unlocked zone unit w))
     = S (requests w)).
Proof.
  intros Htopo. cbn zeta.
  rewrite (aster_unlocked_run _ _ _ _ Htopo). split; [|split; [|split]].
  - apply aws_fetch_extract_cached.
  - apply aws_fetch_extract_missing.
  - apply aws_fetch_extract_corrupt.
  - intros members Hzip Hsrv Hmem.
    destruct (aws_fetch_extract_served _ _ (aster_odir topodir)
                (aster_out topodir zone) _ w Hzip Hsrv) as (w' & Hfs & Hreq & ->).
    rewrite bool_decide_eq_true_2; [done|].
    rewrite Hfs. by apply extract_member.
Qed.

(** Witness for X21: the tile held by [w_bucket]. *)
Lemma aster_download_outcomes_witness :
  fst (_download_aster_file_unlocked "N46E010" "N45E010" w_bucket)
  = Ok (Some (aster_out "/topo" "N46E010")) /\
  requests (snd (_download_aster_file_unlocked "N46E010" "N45E010" w_bucket))
  = 1%nat.
Proof.
  apply (proj2 (proj2 (proj2 (aster_download_outcomes "N46E010" "N45E010"
                                "/topo" w_bucket eq_refl)))
           ["ASTGTM2_N46E010_dem.tif"; "ASTGTM2_N46E010_num.tif"]);
    [reflexivity|reflexivity|apply elem_of_cons; by left].
Defined.

(** X22. [_download_alternate_topo_file_unlocked], called again.  After
    a call that returned a path, the next call returns the same path and
    changes nothing; after a call that returned [None], the next call
    asks the bucket again. *)
Theorem alternate_download_again (fname : string) (w w' : world)
    (r : option string) :
  _download_alternate_topo_file_unlocked fname w = (Ok r, w') ->
  match r with
  | Some p =>
      _download_alternate_topo_file_unlocked fname w' = (Ok (Some p), w')
  | None =>
      requests (snd (_download_alternate_topo_file_unlocked fname w'))
      = S (requests w')
  end.
Proof.
  intros Hrun.
  destruct (PATHS w !! "topo_dir") as [topodir|] eqn:Htopo.
  2:{ unfold _download_alternate_topo_file_unlocked in Hrun.
      by rewrite (bind_err _ _ _ _ _ (topo_dir_missing _ Htopo)) in Hrun. }
  rewrite (alternate_unlocked_run _ _ _ Htopo) in Hrun.
  destruct r as [p|].
  - apply aws_fetch_extract_success in Hrun as (-> & Hzip & Hout & Hp).
    rewrite (alternate_unlocked_run _ topodir) by (by rewrite Hp).
    rewrite aws_fetch_extract_cached by done.
    by rewrite bool_decide_eq_true_2.
  - apply aws_fetch_extract_absence in Hrun as [Hzip Hp].
    rewrite (alternate_unlocked_run _ topodir) by (by rewrite Hp).
    by apply aws_fetch_extract_transfers.
Qed.

(** Witness for X22: the Greenland raster held by [w_bucket]. *)
Lemma alternate_download_again_witness :
  _download_alternate_topo_file_unlocked "gimpdem_90m.tif"
    (snd (_download_alternate_topo_file_unlocked "gimpdem_90m.tif" w_bucket))
  = (Ok (Some "/topo/alternate/gimpdem_90m.tif"),
     snd (_download_alternate_topo_file_unlocked "gimpdem_90m.tif" w_bucket)).
Proof.
  apply (alternate_download_again "gimpdem_90m.tif" w_bucket _
           (Some "/topo/alternate/gimpdem_90m.tif")).
  vm_compute. reflexivity.
Defined.

(** X23. [_aws_file_download_unlocked].  Without [reset], an existing
    local file is left alone and nothing is transferred.  With [reset],
    one transfer is made whatever the cache holds, and the local file is
    afterwards what the bucket delivered: when the transfer fails, the
    call raises [RuntimeError] and an earlier copy is gone. *)
Theorem aws_file_download_reset (aws_path local_path : string) (w : world) :
  (is_Some (fs w !! local_path) ->
   _aws_file_download_unlocked aws_path local_path false w = (Ok tt, w)) /\
  (let r := _aws_file_download_unlocked aws_path local_path true w in
   requests (snd r) = S (requests w) /\
   match server w (requests w) ("s3://astgtmv2/" +:+ aws_path) with
   | Served f => fst r = Ok tt /\ fs (snd r) !! local_path = Some f
   | _ =>
       fst r = Err (RuntimeError "Something went wrong with the download") /\
       fs (snd r) !! local_path = None
   end).
Proof.
  split.
  - intros Hex. unfold _aws_file_download_unlocked.
    rewrite (bind_ok _ _ w w tt) by done.
    rewrite (bind_ok _ _ _ _ _ (path_exists_present _ _ Hex)). cbn [negb].
    rewrite (bind_ok _ _ w w tt) by done.
    by rewrite (bind_ok _ _ _ _ _ (path_exists_present _ _ Hex)).
  - cbn zeta.
    unfold _aws_file_download_unlocked, bind, path_exists, os_remove, ret,
      raise, aws_s3_cp.
    destruct (bool_decide (is_Some (fs w !! local_path))) eqn:Hex; simpl.
    + rewrite lookup_delete_eq. rewrite bool_decide_eq_false_2 by (by intros []).
      simpl.
      destruct (server w (requests w) ("s3://astgtmv2/" +:+ aws_path))
        as [f| | |]; simpl; rewrite ?lookup_insert_eq, ?lookup_delete_eq;
        rewrite ?bool_decide_eq_true_2 by (by eexists);
        rewrite ?bool_decide_eq_false_2 by (by intros []);
        simpl; by rewrite ?lookup_insert_eq, ?lookup_delete_eq.
    + rewrite Hex. simpl. apply bool_decide_eq_false_1 in Hex.
      assert (Hno : fs w !! local_path = None).
      { destruct (fs w !! local_path) eqn:E; [|done]. destruct Hex. by eexists. }
      destruct (server w (requests w) ("s3://astgtmv2/" +:+ aws_path))
        as [f| | |]; simpl; rewrite ?lookup_insert_eq, ?Hno;
        rewrite ?bool_decide_eq_true_2 by (by eexists);
        rewrite ?bool_decide_eq_false_2 by (by intros []);
        simpl; by rewrite ?lookup_insert_eq, ?Hno.
Qed.

(** Witness for X23: the file of [w_user] is left alone. *)
Lemma aws_file_download_reset_witness :
  _aws_file_download_unlocked "topo/dem.tif" "/data/dem.tif" false w_user
  = (Ok tt, w_user).
Proof.
  apply (proj1 (aws_file_download_reset "topo/dem.tif" "/data/dem.tif" w_user)).
  vm_compute. by eexists.
Defined.

(** ** The sample-data archive *)

Lemma gh_download_cached (master_zip_url ofile odir : string) (w : world) :
  is_Some (fs w !! ofile) ->
  gh_download_if_necessary master_zip_url ofile odir w = (Ok tt, w).
Proof.
  intros Hex. unfold gh_download_if_necessary.
  by rewrite (bind_ok _ _ _ _ _ (path_exists_present _ _ Hex)).
Qed.

(** X24. The sample-data archive is requested at most twice per call,
    at least once when it is not in the cache, and is in the cache
    whenever the block ends normally. *)
Theorem gh_download_if_necessary_bounded (master_zip_url ofile odir : string)
    (w : world) :
  let r := gh_download_if_necessary master_zip_url ofile odir w in
  (requests w <= requests (snd r) <= requests w + 2)%nat /\
  (fs w !! ofile = None -> (requests w < requests (snd r))%nat) /\
  (fst r = Ok tt -> is_Some (fs (snd r) !! ofile)) /\
  fst r <> OutOfFuel.
Proof.
  cbn zeta.
  destruct (fs w !! ofile) as [f0|] eqn:Hzip.
  { rewrite gh_download_cached by (by eexists). cbn [fst snd].
    split; [lia|]. split; [done|]. split; [|intros H; discriminate H]. intros _. rewrite Hzip.
    by eexists. }
  unfold gh_download_if_necessary, bind, try_except, path_exists,
    progress_urlretrieve, _urlretrieve, zip_extractall, os_remove, ret, raise.
  rewrite Hzip. rewrite bool_decide_eq_false_2 by (by intros []). cbn [negb].
  destruct (server w (requests w) master_zip_url) as [[members|]|code| |];
    cbn -[Nat.add]; rewrite ?lookup_insert_eq; cbn -[Nat.add].
  - split; [lia|]. split; [lia|]. split; [|intros H; discriminate H].
    intros _. apply extract_keeps. rewrite lookup_insert_eq. by eexists.
  - rewrite bool_decide_eq_true_2 by (rewrite ?lookup_insert_eq; by eexists). cbn -[Nat.add].
    destruct (server w (S (requests w)) master_zip_url)
      as [[members|]|code| |];
      cbn -[Nat.add]; rewrite ?lookup_insert_eq; cbn -[Nat.add];
      (split; [lia|]; split; [lia|]; split; [|intros H; discriminate H]);
      try (intros H; discriminate H).
    intros _. apply extract_keeps. rewrite lookup_insert_eq. by eexists.
  - split; [lia|]. split; [lia|].
    split; intros H; discriminate H.
  - split; [lia|]. split; [lia|].
    split; intros H; discriminate H.
  - split; [lia|]. split; [lia|].
    split; intros H; discriminate H.
Qed.

(** X25. After two corrupt archives in a row the sample-data download
    raises [BadZipfile] and leaves the second one in the cache; from then
    on the block finds the file, requests nothing and extracts
    nothing. *)
Theorem gh_download_after_corrupt (master_zip_url ofile odir : string)
    (w : world) :
  fs w !! ofile = None ->
  server w (requests w) master_zip_url = Served Blob ->
  server w (S (requests w)) master_zip_url = Served Blob ->
  let w1 := snd (gh_download_if_necessary master_zip_url ofile odir w) in
  fst (gh_download_if_necessary master_zip_url ofile odir w) = Err BadZipfile /\
  requests w1 = S (S (requests w)) /\
  fs w1 !! ofile = Some Blob /\
  forall w2,
    fs w2 !! ofile = Some Blob ->
    gh_download_if_necessary master_zip_url ofile odir w2 = (Ok tt, w2).
Proof.
  intros Hzip H1 H2. cbn zeta.
  split; [|split; [|split]].
  - unfold gh_download_if_necessary, bind, try_except, path_exists,
      progress_urlretrieve, _urlretrieve, zip_extractall, os_remove, ret, raise.
    rewrite Hzip. rewrite bool_decide_eq_false_2 by (by intros []). cbn [negb].
    rewrite H1. cbn. rewrite lookup_insert_eq. cbn.
    rewrite bool_decide_eq_true_2 by (rewrite ?lookup_insert_eq; by eexists). cbn.
    rewrite H2. cbn. by rewrite lookup_insert_eq.
  - unfold gh_download_if_necessary, bind, try_except, path_exists,
      progress_urlretrieve, _urlretrieve, zip_extractall, os_remove, ret, raise.
    rewrite Hzip. rewrite bool_decide_eq_false_2 by (by intros []). cbn [negb].
    rewrite H1. cbn. rewrite lookup_insert_eq. cbn.
    rewrite bool_decide_eq_true_2 by (rewrite ?lookup_insert_eq; by eexists). cbn.
    rewrite H2. cbn. by rewrite lookup_insert_eq.
  - unfold gh_download_if_necessary, bind, try_except, path_exists,
      progress_urlretrieve, _urlretrieve, zip_extractall, os_remove, ret, raise.
    rewrite Hzip. rewrite bool_decide_eq_false_2 by (by intros []). cbn [negb].
    rewrite H1. cbn. rewrite lookup_insert_eq. cbn.
    rewrite bool_decide_eq_true_2 by (rewrite ?lookup_insert_eq; by eexists). cbn.
    rewrite H2. cbn. rewrite lookup_insert_eq. cbn. by rewrite lookup_insert_eq.
  - intros w2 Hw2. apply gh_download_cached. by eexists.
Qed.

(** Witness for X25, in [w_corrupt]. *)
Lemma gh_download_after_corrupt_witness :
  fst (gh_download_if_necessary "https://github.com/OGGM/x/archive/master.zip"
         "/cache/x.zip" "/cache" w_corrupt) = Err BadZipfile /\
  requests (snd (gh_download_if_necessary
                   "https://github.com/OGGM/x/archive/master.zip"
                   "/cache/x.zip" "/cache" w_corrupt)) = 2%nat.
Proof.
  pose proof (gh_download_after_corrupt
                "https://github.com/OGGM/x/archive/master.zip"
                "/cache/x.zip" "/cache" w_corrupt eq_refl eq_refl eq_refl)
    as (H1 & H2 & _).
  split; [exact H1|exact H2].
Defined.
